(** * MFCameraExample: frame conversion, buffer locking and the Direct3D
      presentation device

    A shallow embedding of [FormatConvertor.cpp], [BufferLock.h],
    [DrawDevice.cpp] and, of [Camera.cpp], the resize entry point, the
    negotiation of the output format and the delivery of samples, with the
    properties of the design document stated over it, followed by further
    properties read off the code.

    Conventions.  Machine integers are [Z] with the wrap-around written
    out: [u32] for [uint32_t]/[DWORD]/[UINT32], [s32] for [int]/[LONG]
    (the target is Windows, LLP64: [long] is 32 bits wide).  Addresses are
    unbounded [Z].  The Win32, Direct3D and Media Foundation calls are not
    part of the repository; their results are read from a [Backend] record
    of responses, and every call is appended to a trace. *)

From Stdlib Require Import ZArith List Bool Lia.
Import ListNotations.
Local Open Scope Z_scope.

(** ** Machine integers *)

Definition u32 (z : Z) : Z := z mod 2 ^ 32.
Definition s32 (z : Z) : Z := (z + 2 ^ 31) mod 2 ^ 32 - 2 ^ 31.
Definition u8 (z : Z) : Z := z mod 256.

Definition UINT32_MAX : Z := 2 ^ 32 - 1.

(** [HRESULT]: negative values are failures, [S_OK] is zero. *)
Definition HRESULT := Z.
Definition S_OK : HRESULT := 0.
Definition E_FAIL : HRESULT := -2147467259.
Definition FAILED (hr : HRESULT) : bool := hr <? 0.
Definition SUCCEEDED (hr : HRESULT) : bool := 0 <=? hr.

(** ** Geometry ([DrawDevice.cpp]) *)

Record RECT := mkRECT { left : Z; top : Z; right : Z; bottom : Z }.

Record MFRatio := mkRatio { Numerator : Z; Denominator : Z }.

Definition Width (r : RECT) : Z := s32 (right r - left r).
Definition Height (r : RECT) : Z := s32 (bottom r - top r).

(** Modelled from the spec: [MulDiv] is the Win32 function the geometry code
    calls; the design document describes it as rounded-integer scaling with
    [round(a*b/c)] semantics.  The product is taken in 64 bits, the quotient
    is rounded to the nearest integer (halves away from zero), and the
    result is [-1] when the divisor is zero or the quotient does not fit an
    [int]. *)
Definition MulDiv (nNumber nNumerator nDenominator : Z) : Z :=
  if nDenominator =? 0 then -1
  else
    let a := if nDenominator <? 0 then - nNumber else nNumber in
    let c := Z.abs nDenominator in
    let p := a * nNumerator in
    let ret := if 0 <=? p then Z.quot (p + Z.quot c 2) c
               else Z.quot (p - Z.quot c 2) c in
    if (2147483647 <? ret) || (ret <? -2147483647) then -1 else ret.

Definition SetRect (xLeft yTop xRight yBottom : Z) : RECT :=
  mkRECT xLeft yTop xRight yBottom.

Definition LetterBoxRect (rcSrc rcDst : RECT) : RECT :=
  let iSrcWidth := Width rcSrc in
  let iSrcHeight := Height rcSrc in
  let iDstWidth := Width rcDst in
  let iDstHeight := Height rcDst in
  let '(iDstLBWidth, iDstLBHeight) :=
    if MulDiv iSrcWidth iDstHeight iSrcHeight <=? iDstWidth then
      (* Column letter boxing ("pillar box") *)
      (MulDiv iDstHeight iSrcWidth iSrcHeight, iDstHeight)
    else
      (* Row letter boxing. *)
      (iDstWidth, MulDiv iDstWidth iSrcHeight iSrcWidth) in
  let left' := s32 (left rcDst + Z.quot (s32 (iDstWidth - iDstLBWidth)) 2) in
  let top' := s32 (top rcDst + Z.quot (s32 (iDstHeight - iDstLBHeight)) 2) in
  SetRect left' top' (s32 (left' + iDstLBWidth)) (s32 (top' + iDstLBHeight)).

Definition CorrectAspectRatio (src : RECT) (srcPAR : MFRatio) : RECT :=
  let rc := mkRECT 0 0 (s32 (right src - left src)) (s32 (bottom src - top src)) in
  if negb (Numerator srcPAR =? 1) || negb (Denominator srcPAR =? 1) then
    if Denominator srcPAR <? Numerator srcPAR then
      (* The source has "wide" pixels, so stretch the width. *)
      mkRECT (left rc) (top rc)
             (MulDiv (right rc) (s32 (Numerator srcPAR)) (s32 (Denominator srcPAR)))
             (bottom rc)
    else if Numerator srcPAR <? Denominator srcPAR then
      (* The source has "tall" pixels, so stretch the height. *)
      mkRECT (left rc) (top rc) (right rc)
             (MulDiv (bottom rc) (s32 (Denominator srcPAR)) (s32 (Numerator srcPAR)))
    else rc
  else rc.

(** ** Pixel memory

    The source frame is read only and the destination surface is written
    only; they are distinct objects (the media buffer and the locked
    Direct3D surface), so each has its own memory.  A destination byte is
    [None] when the value stored there is indeterminate. *)

Definition smem := Z -> Z.
Definition dmem := Z -> option Z.

Definition load8 (m : smem) (a : Z) : Z := u8 (m a).

(** A [uint16_t] read on the little-endian target. *)
Definition load16 (m : smem) (a : Z) : Z := load8 m a + 256 * load8 m (a + 1).

Definition LOBYTE (w : Z) : Z := Z.land w 255.
Definition HIBYTE (w : Z) : Z := Z.land (Z.shiftr w 8) 255.

Definition store8 (m : dmem) (a : Z) (v : option Z) : dmem :=
  fun a' => if a' =? a then v else m a'.

(** A [uint32_t] write on the little-endian target. *)
Definition store32 (m : dmem) (a : Z) (w : Z) : dmem :=
  let m := store8 m a (Some (Z.land w 255)) in
  let m := store8 m (a + 1) (Some (Z.land (Z.shiftr w 8) 255)) in
  let m := store8 m (a + 2) (Some (Z.land (Z.shiftr w 16) 255)) in
  store8 m (a + 3) (Some (Z.land (Z.shiftr w 24) 255)).

Definition D3DCOLOR_ARGB (a r g b : Z) : Z :=
  u32 (Z.lor (Z.lor (Z.lor (Z.shiftl (Z.land a 255) 24) (Z.shiftl (Z.land r 255) 16))
                    (Z.shiftl (Z.land g 255) 8))
             (Z.land b 255)).

Definition D3DCOLOR_XRGB (r g b : Z) : Z := D3DCOLOR_ARGB 255 r g b.

(** [RGBQUAD] of [wingdi.h]: blue, green, red, reserved, in memory order.
    [rgbReserved = None] is a byte that was never assigned. *)
Record RGBQUAD := mkRGBQUAD {
  rgbBlue : Z;
  rgbGreen : Z;
  rgbRed : Z;
  rgbReserved : option Z
}.

Definition store_RGBQUAD (m : dmem) (a : Z) (q : RGBQUAD) : dmem :=
  let m := store8 m a (Some (rgbBlue q)) in
  let m := store8 m (a + 1) (Some (rgbGreen q)) in
  let m := store8 m (a + 2) (Some (rgbRed q)) in
  store8 m (a + 3) (rgbReserved q).

(** ** Colour conversion ([FormatConvertor.cpp]) *)

Definition Clip (clr : Z) : Z :=
  u8 (if clr <? 0 then 0 else if 255 <? clr then 255 else clr).

(** The arguments are bytes at every call site, so the [int] expressions
    stay far below the 32-bit range (see [ConvertYCrCbToRGB_int_range]). The
    local [rgbq] is not initialised: [rgbReserved] is never assigned. *)
Definition ConvertYCrCbToRGB (y cr cb : Z) : RGBQUAD :=
  let c := y - 16 in
  let d := cb - 128 in
  let e := cr - 128 in
  {| rgbRed := Clip (Z.shiftr (298 * c + 409 * e + 128) 8);
     rgbGreen := Clip (Z.shiftr (298 * c - 100 * d - 208 * e + 128) 8);
     rgbBlue := Clip (Z.shiftr (298 * c + 516 * d + 128) 8);
     rgbReserved := None |}.

(** [for (uint32_t x = x0; x < bound; x += step) body], the counter wrapping
    modulo 2^32.  The loop need not exit, so it runs on fuel: [None] means
    the fuel ran out. *)
Fixpoint for_u32 {St : Type} (fuel : nat) (bound step : Z)
         (body : Z -> St -> option St) (x : Z) (s : St) {struct fuel} : option St :=
  match fuel with
  | O => None
  | S fuel' =>
      if x <? bound then
        match body x s with
        | Some s' => for_u32 fuel' bound step body (u32 (x + step)) s'
        | None => None
        end
      else Some s
  end.

(** [MFCopyImage] of [mfapi.h]: destination memory and pointer, destination
    stride ([LONG]), source memory and pointer, source stride ([LONG]),
    width in bytes, number of lines; returns the [HRESULT] and the memory
    after the copy. *)
Definition copy_image : Type :=
  dmem -> Z -> Z -> smem -> Z -> Z -> Z -> Z -> HRESULT * dmem.

(** The common signature of [FormatConvertor::convert]. *)
Definition convert_fn : Type :=
  nat -> dmem -> Z -> Z -> smem -> Z -> Z -> Z -> Z -> option (bool * dmem).

Module FormatConvertorRGB24.

(** [RgbColor] is three bytes: blue, green, red. *)
Definition row (fuel : nat) (src : smem) (pSrcPel pDestPel width : Z)
           (d : dmem) : option dmem :=
  for_u32 fuel width 1
    (fun x d =>
       Some (store32 d (pDestPel + 4 * x)
               (D3DCOLOR_XRGB (load8 src (pSrcPel + 3 * x + 2))
                              (load8 src (pSrcPel + 3 * x + 1))
                              (load8 src (pSrcPel + 3 * x)))))
    0 d.

Definition convert : convert_fn :=
  fun fuel d destination destStride src source srcStride width height =>
  match
    for_u32 fuel height 1
      (fun _ '(source, destination, d) =>
         match row fuel src source destination width d with
         | Some d' => Some (source + srcStride, destination + destStride, d')
         | None => None
         end)
      0 (source, destination, d)
  with
  | Some (_, _, d') => Some (true, d')
  | None => None
  end.

End FormatConvertorRGB24.

Module FormatConvertorRGB32.

Definition convert (MFCopyImage : copy_image) : convert_fn :=
  fun _ d destination destStride src source srcStride width height =>
  let '(hr, d') :=
    MFCopyImage d destination (s32 destStride) src source (s32 srcStride)
                (u32 (width * 4)) height in
  Some (hr =? 0, d').

End FormatConvertorRGB32.

Module FormatConvertorYUY2.

Definition row (fuel : nat) (src : smem) (pSrcPel pDestPel width : Z)
           (d : dmem) : option dmem :=
  for_u32 fuel width 2
    (fun x d =>
       let y0 := LOBYTE (load16 src (pSrcPel + 2 * x)) in
       let u0 := HIBYTE (load16 src (pSrcPel + 2 * x)) in
       let y1 := LOBYTE (load16 src (pSrcPel + 2 * u32 (x + 1))) in
       let v0 := HIBYTE (load16 src (pSrcPel + 2 * u32 (x + 1))) in
       let d := store_RGBQUAD d (pDestPel + 4 * x) (ConvertYCrCbToRGB y0 v0 u0) in
       Some (store_RGBQUAD d (pDestPel + 4 * u32 (x + 1))
                           (ConvertYCrCbToRGB y1 v0 u0)))
    0 d.

Definition convert : convert_fn :=
  fun fuel d destination destStride src source srcStride width height =>
  match
    for_u32 fuel height 1
      (fun _ '(source, destination, d) =>
         match row fuel src source destination width d with
         | Some d' => Some (source + srcStride, destination + destStride, d')
         | None => None
         end)
      0 (source, destination, d)
  with
  | Some (_, _, d') => Some (true, d')
  | None => None
  end.

End FormatConvertorYUY2.

Module FormatConvertorNV12.

(** The pointers and the surface memory threaded through the inner loop. *)
Record line_state := mkLine {
  lpLineY1 : Z; lpLineY2 : Z; lpLineCr : Z; lpLineCb : Z;
  lpDibLine1 : Z; lpDibLine2 : Z;
  line_mem : dmem
}.

(** The pointers and the surface memory threaded through the outer loop. *)
Record plane_state := mkPlane {
  destination : Z; lpBitsY : Z; lpBitsCr : Z; lpBitsCb : Z;
  plane_mem : dmem
}.

(** One assignment block of the inner loop: blue, green, red, then the
    explicit zero alpha byte. *)
Definition put (m : dmem) (p : Z) (r : RGBQUAD) : dmem :=
  let m := store8 m p (Some (rgbBlue r)) in
  let m := store8 m (p + 1) (Some (rgbGreen r)) in
  let m := store8 m (p + 2) (Some (rgbRed r)) in
  store8 m (p + 3) (Some 0).

Definition block (src : smem) (s : line_state) : line_state :=
  let y0 := load8 src (lpLineY1 s) in
  let y1 := load8 src (lpLineY1 s + 1) in
  let y2 := load8 src (lpLineY2 s) in
  let y3 := load8 src (lpLineY2 s + 1) in
  let cb := load8 src (lpLineCb s) in
  let cr := load8 src (lpLineCr s) in
  let m := put (line_mem s) (lpDibLine1 s) (ConvertYCrCbToRGB y0 cr cb) in
  let m := put m (lpDibLine1 s + 4) (ConvertYCrCbToRGB y1 cr cb) in
  let m := put m (lpDibLine2 s) (ConvertYCrCbToRGB y2 cr cb) in
  let m := put m (lpDibLine2 s + 4) (ConvertYCrCbToRGB y3 cr cb) in
  {| lpLineY1 := lpLineY1 s + 2; lpLineY2 := lpLineY2 s + 2;
     lpLineCr := lpLineCr s + 2; lpLineCb := lpLineCb s + 2;
     lpDibLine1 := lpDibLine1 s + 8; lpDibLine2 := lpDibLine2 s + 8;
     line_mem := m |}.

Definition row_pair (fuel : nat) (src : smem) (destStride srcStride width : Z)
           (p : plane_state) : option plane_state :=
  match
    for_u32 fuel width 2 (fun _ s => Some (block src s)) 0
      {| lpLineY1 := lpBitsY p; lpLineY2 := lpBitsY p + srcStride;
         lpLineCr := lpBitsCr p; lpLineCb := lpBitsCb p;
         lpDibLine1 := destination p; lpDibLine2 := destination p + destStride;
         line_mem := plane_mem p |}
  with
  | Some s =>
      Some {| destination := destination p + u32 (2 * destStride);
              lpBitsY := lpBitsY p + u32 (2 * srcStride);
              lpBitsCr := lpBitsCr p + srcStride;
              lpBitsCb := lpBitsCb p + srcStride;
              plane_mem := line_mem s |}
  | None => None
  end.

Definition convert : convert_fn :=
  fun fuel d destination0 destStride src source srcStride width height =>
  let lpBitsY0 := source in
  let lpBitsCb0 := lpBitsY0 + u32 (height * srcStride) in
  let lpBitsCr0 := lpBitsCb0 + 1 in
  match
    for_u32 fuel height 2
      (fun _ p => row_pair fuel src destStride srcStride width p)
      0 {| destination := destination0; lpBitsY := lpBitsY0;
           lpBitsCr := lpBitsCr0; lpBitsCb := lpBitsCb0; plane_mem := d |}
  with
  | Some p => Some (true, plane_mem p)
  | None => None
  end.

End FormatConvertorNV12.

(** The converter objects of the table [formatConversions]. *)
Inductive Format := RGB32 | RGB24 | YUY2 | NV12.

(** Virtual dispatch of [FormatConvertor::convert]. *)
Definition convert (MFCopyImage : copy_image) (f : Format) : convert_fn :=
  match f with
  | RGB32 => FormatConvertorRGB32.convert MFCopyImage
  | RGB24 => FormatConvertorRGB24.convert
  | YUY2 => FormatConvertorYUY2.convert
  | NV12 => FormatConvertorNV12.convert
  end.

(** ** Buffer lock ([BufferLock.h]) *)

(** What an [IMFMediaBuffer] answers: whether [QueryInterface] finds
    [IMF2DBuffer], the result of [Lock2D] (scan line 0 and pitch), the result
    of [Lock] (start of the block), and the bytes of the frame. *)
Record MediaBuffer := mkBuffer {
  Buf_has_IMF2DBuffer : bool;
  Buf_Lock2D : HRESULT * (Z * Z);
  Buf_Lock : HRESULT * Z;
  Buf_bits : smem
}.

Definition nullptr : Z := 0.

Module VideoBufferLock.

Record t := mk {
  mActualStride : Z;           (* long *)
  mBuffer : MediaBuffer;
  m2DBuffer : bool;            (* non-null *)
  mLocked : bool
}.

(** The constructor: keeps the buffer and queries for the 2-D interface. *)
Definition create (pBuffer : MediaBuffer) : t :=
  {| mActualStride := 0; mBuffer := pBuffer;
     m2DBuffer := Buf_has_IMF2DBuffer pBuffer; mLocked := false |}.

(** [uint8_t *LockBuffer(uint32_t stride, uint32_t height)].  The
    arguments are converted to the parameter type [uint32_t] on entry;
    [stride < 0] then compares an unsigned value with zero. *)
Definition LockBuffer (l : t) (stride_arg height_arg : Z) : Z * t :=
  let stride := u32 stride_arg in
  let height := u32 height_arg in
  let l := {| mActualStride := 0; mBuffer := mBuffer l;
              m2DBuffer := m2DBuffer l; mLocked := false |} in
  if m2DBuffer l then
    (* Use the 2-D version if available. *)
    let '(hr, (scanLine, pitch)) := Buf_Lock2D (mBuffer l) in
    if FAILED hr then (nullptr, l)
    else (scanLine,
          {| mActualStride := s32 pitch; mBuffer := mBuffer l;
             m2DBuffer := m2DBuffer l; mLocked := true |})
  else
    (* Use non-2D version. *)
    let '(hr, data) := Buf_Lock (mBuffer l) in
    if FAILED hr then (nullptr, l)
    else
      let l := {| mActualStride := s32 stride; mBuffer := mBuffer l;
                  m2DBuffer := m2DBuffer l; mLocked := true |} in
      if stride <? 0 then
        (* Bottom-up orientation. *)
        (data + u32 (Z.abs (s32 stride) * u32 (height - 1)), l)
      else
        (* Top-down orientation. *)
        (data, l).

Definition getStride (l : t) : Z := mActualStride l.

(** [unlock]: the lock afterwards, and whether [Unlock2D] ([Some true]),
    [Unlock] ([Some false]) or nothing ([None]) was called. *)
Definition unlock (l : t) : t * option bool :=
  if negb (mLocked l) then (l, None)
  else
    let l' := {| mActualStride := mActualStride l; mBuffer := mBuffer l;
                 m2DBuffer := m2DBuffer l; mLocked := false |} in
    if m2DBuffer l then (l', Some true) else (l', Some false).

End VideoBufferLock.

(** ** The presentation device ([DrawDevice.h], [DrawDevice.cpp]) *)

(** Identity of a COM object or window. *)
Definition Handle := nat.

(** [GUID]; [Data4] holds the last eight bytes as one number. *)
Record GUID := mkGUID { Data1 : Z; Data2 : Z; Data3 : Z; Data4 : Z }.

Definition GUID_eqb (a b : GUID) : bool :=
  (Data1 a =? Data1 b) && (Data2 a =? Data2 b) &&
  (Data3 a =? Data3 b) && (Data4 a =? Data4 b).

(** Constants of [mfapi.h] and [d3d9types.h] (platform headers, not part of
    the repository): a video subtype is the FOURCC or [D3DFORMAT] value
    followed by a fixed tail. *)
Definition DEFINE_MEDIATYPE_GUID (format : Z) : GUID :=
  mkGUID format 0 16 0x800000aa00389b71.
Definition D3DFMT_UNKNOWN : Z := 0.
Definition D3DFMT_R8G8B8 : Z := 20.
Definition D3DFMT_X8R8G8B8 : Z := 22.
Definition FCC (c0 c1 c2 c3 : Z) : Z :=
  Z.lor (Z.lor (Z.lor c0 (Z.shiftl c1 8)) (Z.shiftl c2 16)) (Z.shiftl c3 24).
Definition MFVideoFormat_RGB32 : GUID := DEFINE_MEDIATYPE_GUID D3DFMT_X8R8G8B8.
Definition MFVideoFormat_RGB24 : GUID := DEFINE_MEDIATYPE_GUID D3DFMT_R8G8B8.
Definition MFVideoFormat_YUY2 : GUID := DEFINE_MEDIATYPE_GUID (FCC 89 85 89 50).
Definition MFVideoFormat_NV12 : GUID := DEFINE_MEDIATYPE_GUID (FCC 78 86 49 50).
Definition MFVideoInterlace_Unknown : Z := 0.
Definition MFVideoInterlace_Progressive : Z := 2.
Definition D3D_OK : HRESULT := 0.
Definition D3DERR_DEVICELOST : HRESULT := -2005530520.
Definition D3DERR_DEVICENOTRESET : HRESULT := -2005530519.

(** Static table of output formats and conversion functions. *)
Definition formatConversions : list (GUID * Format) :=
  [ (MFVideoFormat_RGB32, RGB32);
    (MFVideoFormat_RGB24, RGB24);
    (MFVideoFormat_YUY2, YUY2);
    (MFVideoFormat_NV12, NV12) ].

Definition findConversionFunction (subtype : GUID) : option Format :=
  match find (fun f => GUID_eqb (fst f) subtype) formatConversions with
  | Some f => Some (snd f)
  | None => None
  end.

Definition isFormatSupported (subtype : GUID) : bool :=
  match find (fun f => GUID_eqb (fst f) subtype) formatConversions with
  | Some _ => true
  | None => false
  end.

Definition getSupportedFormats : list GUID := map fst formatConversions.

(** The attributes of an [IMFMediaType] that the device reads; [None] is an
    attribute that is not set. *)
Record MediaType := mkMediaType {
  MF_MT_SUBTYPE : option GUID;
  MF_MT_FRAME_SIZE : option (Z * Z);
  MF_MT_INTERLACE_MODE : option Z;
  MF_MT_DEFAULT_STRIDE : option Z;
  MF_MT_PIXEL_ASPECT_RATIO : option (Z * Z)
}.

(** The answers of Direct3D, the window and Media Foundation during one
    call of a [DrawDevice] method.  Each of these is called at most once per
    method call, so one answer each is enough. *)
Record Backend := mkBackend {
  r_Direct3DCreate9 : option Handle;
  r_GetAdapterDisplayMode : HRESULT;
  r_CheckDeviceType : HRESULT;
  r_CreateDevice : HRESULT * Handle;
  r_CreateAdditionalSwapChain : HRESULT * Handle;
  r_TestCooperativeLevel : HRESULT;
  r_Reset : HRESULT;
  r_SwapChain_GetBackBuffer : HRESULT;
  r_LockRect : HRESULT * (Z * Z);            (* pBits, Pitch *)
  r_UnlockRect : HRESULT;
  r_Device_GetBackBuffer : HRESULT;
  r_ColorFill : HRESULT;
  r_StretchRect : HRESULT;
  r_Present : HRESULT;
  r_GetClientRect : RECT;
  r_MFGetStrideForBitmapInfoHeader : Z -> Z -> HRESULT * Z;
  r_MFCopyImage : copy_image
}.

(** The calls made on the backend, in order, and the virtual call on the
    converter with the value it returned. *)
Inductive Event :=
| Ev_Direct3DCreate9
| Ev_GetAdapterDisplayMode
| Ev_CheckDeviceType
| Ev_CreateDevice
| Ev_CreateAdditionalSwapChain
| Ev_Release_SwapChain
| Ev_Release_Device
| Ev_Release_D3D
| Ev_TestCooperativeLevel
| Ev_Reset
| Ev_GetClientRect
| Ev_SwapChain_GetBackBuffer
| Ev_LockRect
| Ev_UnlockRect
| Ev_Buffer_Lock2D
| Ev_Buffer_Lock
| Ev_Buffer_Unlock2D
| Ev_Buffer_Unlock
| Ev_convert (f : Format) (result : bool)
| Ev_Device_GetBackBuffer
| Ev_ColorFill
| Ev_StretchRect (dest : RECT)
| Ev_Present
| Ev_MessageBox.

(** The data members of [DrawDevice].  [mD3Params] is only handed back to
    [Reset] and is left out. *)
Record DrawDevice := mkDrawDevice {
  mWindow : Z;
  mD3D : option Handle;
  mDevice : option Handle;
  mSwapChain : option Handle;
  mFormat : Z;
  mWidth : Z;
  mHeight : Z;
  mDefaultStride : Z;
  mAspect : MFRatio;
  mInterlaceMode : Z;
  mDestRect : RECT;
  mRGB32Converter : option Format
}.

(** The member initialisers of [DrawDevice.h]. *)
Definition DrawDevice_new : DrawDevice :=
  {| mWindow := 0; mD3D := None; mDevice := None; mSwapChain := None;
     mFormat := D3DFMT_UNKNOWN; mWidth := 0; mHeight := 0; mDefaultStride := 0;
     mAspect := mkRatio 1 1; mInterlaceMode := MFVideoInterlace_Unknown;
     mDestRect := mkRECT 0 0 0 0; mRGB32Converter := None |}.

(** The device object, the trace of calls so far, and the bytes of the
    swap-chain back buffer. *)
Record World := mkWorld {
  dev : DrawDevice;
  trace : list Event;
  surface : dmem
}.

(** A method call returns, or calls through a null pointer (undefined
    behaviour), or is still inside a converter loop when the fuel ends. *)
Inductive outcome (A : Type) :=
| Returns (a : A) (w : World)
| NullDeref (w : World)
| OutOfFuel.
Arguments Returns {A} a w.
Arguments NullDeref {A} w.
Arguments OutOfFuel {A}.

Definition M (A : Type) : Type := World -> outcome A.

Definition ret {A} (a : A) : M A := fun w => Returns a w.

Definition bind {A B} (m : M A) (k : A -> M B) : M B :=
  fun w => match m w with
           | Returns a w' => k a w'
           | NullDeref w' => NullDeref w'
           | OutOfFuel => OutOfFuel
           end.

Notation "x <- m ;; k" := (bind m (fun x => k))
  (at level 61, m at next level, right associativity).
Notation "m ;;; k" := (bind m (fun _ => k))
  (at level 61, right associativity).

Definition this : M DrawDevice := fun w => Returns (dev w) w.

Definition update (f : DrawDevice -> DrawDevice) : M unit :=
  fun w => Returns tt {| dev := f (dev w); trace := trace w; surface := surface w |}.

Definition call (e : Event) : M unit :=
  fun w => Returns tt {| dev := dev w; trace := trace w ++ [e]; surface := surface w |}.

Definition null_deref {A} : M A := fun w => NullDeref w.

Definition set_mD3D (v : option Handle) (d : DrawDevice) : DrawDevice :=
  mkDrawDevice (mWindow d) v (mDevice d) (mSwapChain d) (mFormat d) (mWidth d)
    (mHeight d) (mDefaultStride d) (mAspect d) (mInterlaceMode d) (mDestRect d)
    (mRGB32Converter d).
Definition set_mDevice (v : option Handle) (d : DrawDevice) : DrawDevice :=
  mkDrawDevice (mWindow d) (mD3D d) v (mSwapChain d) (mFormat d) (mWidth d)
    (mHeight d) (mDefaultStride d) (mAspect d) (mInterlaceMode d) (mDestRect d)
    (mRGB32Converter d).
Definition set_mSwapChain (v : option Handle) (d : DrawDevice) : DrawDevice :=
  mkDrawDevice (mWindow d) (mD3D d) (mDevice d) v (mFormat d) (mWidth d)
    (mHeight d) (mDefaultStride d) (mAspect d) (mInterlaceMode d) (mDestRect d)
    (mRGB32Converter d).
Definition set_mWindow (v : Z) (d : DrawDevice) : DrawDevice :=
  mkDrawDevice v (mD3D d) (mDevice d) (mSwapChain d) (mFormat d) (mWidth d)
    (mHeight d) (mDefaultStride d) (mAspect d) (mInterlaceMode d) (mDestRect d)
    (mRGB32Converter d).
Definition set_mDestRect (v : RECT) (d : DrawDevice) : DrawDevice :=
  mkDrawDevice (mWindow d) (mD3D d) (mDevice d) (mSwapChain d) (mFormat d) (mWidth d)
    (mHeight d) (mDefaultStride d) (mAspect d) (mInterlaceMode d) v
    (mRGB32Converter d).
Definition set_mRGB32Converter (v : option Format) (d : DrawDevice) : DrawDevice :=
  mkDrawDevice (mWindow d) (mD3D d) (mDevice d) (mSwapChain d) (mFormat d) (mWidth d)
    (mHeight d) (mDefaultStride d) (mAspect d) (mInterlaceMode d) (mDestRect d) v.
Definition set_mFormat (v : Z) (d : DrawDevice) : DrawDevice :=
  mkDrawDevice (mWindow d) (mD3D d) (mDevice d) (mSwapChain d) v (mWidth d)
    (mHeight d) (mDefaultStride d) (mAspect d) (mInterlaceMode d) (mDestRect d)
    (mRGB32Converter d).
Definition set_frame_size (wd ht : Z) (d : DrawDevice) : DrawDevice :=
  mkDrawDevice (mWindow d) (mD3D d) (mDevice d) (mSwapChain d) (mFormat d) wd
    ht (mDefaultStride d) (mAspect d) (mInterlaceMode d) (mDestRect d)
    (mRGB32Converter d).
Definition set_mInterlaceMode (v : Z) (d : DrawDevice) : DrawDevice :=
  mkDrawDevice (mWindow d) (mD3D d) (mDevice d) (mSwapChain d) (mFormat d) (mWidth d)
    (mHeight d) (mDefaultStride d) (mAspect d) v (mDestRect d)
    (mRGB32Converter d).
Definition set_mDefaultStride (v : Z) (d : DrawDevice) : DrawDevice :=
  mkDrawDevice (mWindow d) (mD3D d) (mDevice d) (mSwapChain d) (mFormat d) (mWidth d)
    (mHeight d) v (mAspect d) (mInterlaceMode d) (mDestRect d)
    (mRGB32Converter d).
Definition set_mAspect (v : MFRatio) (d : DrawDevice) : DrawDevice :=
  mkDrawDevice (mWindow d) (mD3D d) (mDevice d) (mSwapChain d) (mFormat d) (mWidth d)
    (mHeight d) (mDefaultStride d) v (mInterlaceMode d) (mDestRect d)
    (mRGB32Converter d).

Definition is_null {A} (p : option A) : bool :=
  match p with Some _ => false | None => true end.

(** [SafeRelease(&mSwapChain)] and its siblings: release and set to null. *)
Definition SafeRelease_mSwapChain : M unit :=
  d <- this;;
  if is_null (mSwapChain d) then ret tt
  else call Ev_Release_SwapChain;;; update (set_mSwapChain None).

Definition SafeRelease_mDevice : M unit :=
  d <- this;;
  if is_null (mDevice d) then ret tt
  else call Ev_Release_Device;;; update (set_mDevice None).

Definition SafeRelease_mD3D : M unit :=
  d <- this;;
  if is_null (mD3D d) then ret tt
  else call Ev_Release_D3D;;; update (set_mD3D None).

Definition DestroyDevice : M unit :=
  SafeRelease_mSwapChain;;;
  SafeRelease_mDevice;;;
  SafeRelease_mD3D.

Definition createDevice (env : Backend) (hwnd : Z) : M bool :=
  d <- this;;
  if negb (is_null (mDevice d)) then ret true
  else
    ok <- (if is_null (mD3D d) then
             call Ev_Direct3DCreate9;;;
             update (set_mD3D (r_Direct3DCreate9 env));;;
             ret (negb (is_null (r_Direct3DCreate9 env)))
           else ret true);;
    if negb ok then ret false
    else
      call Ev_GetAdapterDisplayMode;;;
      if FAILED (r_GetAdapterDisplayMode env) then ret false
      else
        call Ev_CheckDeviceType;;;
        if FAILED (r_CheckDeviceType env) then ret false
        else
          call Ev_CreateDevice;;;
          if FAILED (fst (r_CreateDevice env)) then ret false
          else
            update (set_mDevice (Some (snd (r_CreateDevice env))));;;
            update (set_mWindow hwnd);;;
            ret true.

Definition UpdateDestinationRect (env : Backend) : M unit :=
  d <- this;;
  let rcSrc := mkRECT 0 0 (s32 (mWidth d)) (s32 (mHeight d)) in
  call Ev_GetClientRect;;;
  let rcClient := r_GetClientRect env in
  let rcSrc := CorrectAspectRatio rcSrc (mAspect d) in
  update (set_mDestRect (LetterBoxRect rcSrc rcClient)).

Definition createSwapChains (env : Backend) : M bool :=
  SafeRelease_mSwapChain;;;
  d <- this;;
  match mDevice d with
  | None => null_deref
  | Some _ =>
      call Ev_CreateAdditionalSwapChain;;;
      let '(hr, chain) := r_CreateAdditionalSwapChain env in
      (if SUCCEEDED hr then update (set_mSwapChain (Some chain)) else ret tt);;;
      ret (hr =? S_OK)
  end.

Definition resetDevice (env : Backend) : M bool :=
  d <- this;;
  (if negb (is_null (mDevice d)) then
     call Ev_Reset;;;
     if FAILED (r_Reset env) then DestroyDevice else ret tt
   else ret tt);;;
  d <- this;;
  ok <- (if is_null (mDevice d) then createDevice env (mWindow d) else ret true);;
  if negb ok then ret false
  else
    d <- this;;
    if is_null (mSwapChain d) && negb (mFormat d =? D3DFMT_UNKNOWN) then
      ok <- createSwapChains env;;
      if negb ok then ret false
      else UpdateDestinationRect env;;; ret true
    else ret true.

Definition TestCooperativeLevel (env : Backend) : M bool :=
  d <- this;;
  if is_null (mDevice d) then ret false
  else
    call Ev_TestCooperativeLevel;;;
    let hr := r_TestCooperativeLevel env in
    if hr =? D3D_OK then ret true
    else if (hr =? D3DERR_DEVICELOST) || (hr =? D3DERR_DEVICENOTRESET) then
      resetDevice env
    else ret false.

(** [GetDefaultStride]: the stride, or [None] when the [HRESULT] is a
    failure.  The write-back of the computed stride into the media type is
    not modelled. *)
Definition GetDefaultStride (env : Backend) (pType : MediaType) : option Z :=
  match MF_MT_DEFAULT_STRIDE pType with
  | Some v => Some (s32 v)
  | None =>
      match MF_MT_SUBTYPE pType with
      | None => None
      | Some subtype =>
          match MF_MT_FRAME_SIZE pType with
          | None => None
          | Some (width, height) =>
              let '(hr, lStride) :=
                r_MFGetStrideForBitmapInfoHeader env (Data1 subtype) width in
              if SUCCEEDED hr then Some (s32 lStride) else None
          end
      end
  end.

Definition setVideoType (env : Backend) (pType : MediaType) : M bool :=
  match MF_MT_SUBTYPE pType with
  | None => ret false
  | Some subtype =>
      update (set_mRGB32Converter (findConversionFunction subtype));;;
      if is_null (findConversionFunction subtype) then ret false
      else
        update (set_mFormat (Data1 subtype));;;
        match MF_MT_FRAME_SIZE pType with
        | None => ret false
        | Some (wd, ht) =>
            update (set_frame_size wd ht);;;
            update (set_mInterlaceMode
                      (match MF_MT_INTERLACE_MODE pType with
                       | Some v => v
                       | None => MFVideoInterlace_Progressive
                       end));;;
            match GetDefaultStride env pType with
            | None => ret false
            | Some lStride =>
                update (set_mDefaultStride lStride);;;
                update (set_mAspect
                          (match MF_MT_PIXEL_ASPECT_RATIO pType with
                           | Some (n, dn) => mkRatio n dn
                           | None => mkRatio 1 1
                           end));;;
                ok <- createSwapChains env;;
                if negb ok then ret false
                else UpdateDestinationRect env;;; ret true
            end
        end
  end.

(** The destructor of the stack-allocated [VideoBufferLock], run on every
    path that leaves [DrawFrame] after the lock object was constructed. *)
Definition leave {A} (l : VideoBufferLock.t) (a : A) : M A :=
  match snd (VideoBufferLock.unlock l) with
  | Some true => call Ev_Buffer_Unlock2D;;; ret a
  | Some false => call Ev_Buffer_Unlock;;; ret a
  | None => ret a
  end.

(** The virtual call [mRGB32Converter->convert(...)] on the world: the
    surface bytes are replaced by what the converter wrote. *)
Definition run_convert (env : Backend) (fuel : nat) (f : Format)
           (pBits Pitch : Z) (src : smem) (scanLine stride wd ht : Z) : M bool :=
  fun w =>
    match convert (r_MFCopyImage env) f fuel (surface w) pBits (u32 Pitch)
                  src scanLine (u32 stride) wd ht with
    | Some (ok, d') =>
        Returns ok {| dev := dev w; trace := trace w ++ [Ev_convert f ok];
                      surface := d' |}
    | None => OutOfFuel
    end.

(** [DrawFrame] from the comment "Get the swap-chain surface" to its end:
    the part that locks, converts, fills, stretches and presents. *)
Definition DrawFrame_present (env : Backend) (fuel : nat) (pBuffer : MediaBuffer)
  : M bool :=
  d <- this;;
  (* Get the swap-chain surface. *)
  match mSwapChain d with
  | None => null_deref
  | Some _ =>
      call Ev_SwapChain_GetBackBuffer;;;
      if FAILED (r_SwapChain_GetBackBuffer env) then ret false
      else
        (* Lock the swap-chain surface. *)
        call Ev_LockRect;;;
        let '(hr, (pBits, Pitch)) := r_LockRect env in
        if FAILED hr then ret false
        else
          let buffer := VideoBufferLock.create pBuffer in
          call (if VideoBufferLock.m2DBuffer buffer
                then Ev_Buffer_Lock2D else Ev_Buffer_Lock);;;
          let '(scanLine, buffer) :=
            VideoBufferLock.LockBuffer buffer (mDefaultStride d) (mHeight d) in
          if scanLine =? nullptr then leave buffer false
          else
            let stride := VideoBufferLock.getStride buffer in
            (* Convert the frame; the value returned is not looked at. *)
            match mRGB32Converter d with
            | None => null_deref
            | Some f =>
                _ <- run_convert env fuel f pBits Pitch (Buf_bits pBuffer)
                                 scanLine stride (mWidth d) (mHeight d);;
                call Ev_UnlockRect;;;
                if FAILED (r_UnlockRect env) then leave buffer false
                else
                  (* Color fill the back buffer. *)
                  match mDevice d with
                  | None => null_deref
                  | Some _ =>
                      call Ev_Device_GetBackBuffer;;;
                      if FAILED (r_Device_GetBackBuffer env)
                      then leave buffer false
                      else
                        call Ev_ColorFill;;;
                        if FAILED (r_ColorFill env) then leave buffer false
                        else
                          (* Blit the frame. *)
                          call (Ev_StretchRect (mDestRect d));;;
                          if FAILED (r_StretchRect env)
                          then leave buffer false
                          else
                            (* Present the frame. *)
                            call Ev_Present;;;
                            leave buffer (r_Present env =? S_OK)
                  end
            end
  end.

Definition DrawFrame (env : Backend) (fuel : nat) (pBuffer : MediaBuffer) : M bool :=
  d <- this;;
  match mRGB32Converter d with
  | None => ret false
  | Some _ =>
      if is_null (mDevice d) || is_null (mSwapChain d) then ret true
      else
        ok <- TestCooperativeLevel env;;
        if negb ok then ret false
        else DrawFrame_present env fuel pBuffer
  end.

(** [Camera::resizeVideo]: the body run under the camera mutex. *)
Definition resizeVideo (env : Backend) : M unit :=
  ok <- resetDevice env;;
  if ok then ret tt else call Ev_MessageBox.

(** ** Sample backends, buffers and frames *)

Definition E_INVALIDARG : HRESULT := -2147024809.

(** A backend on which every call succeeds. *)
Definition backend_healthy : Backend :=
  {| r_Direct3DCreate9 := Some 1%nat;
     r_GetAdapterDisplayMode := S_OK;
     r_CheckDeviceType := S_OK;
     r_CreateDevice := (S_OK, 2%nat);
     r_CreateAdditionalSwapChain := (S_OK, 3%nat);
     r_TestCooperativeLevel := D3D_OK;
     r_Reset := S_OK;
     r_SwapChain_GetBackBuffer := S_OK;
     r_LockRect := (S_OK, (65536, 2560));
     r_UnlockRect := S_OK;
     r_Device_GetBackBuffer := S_OK;
     r_ColorFill := S_OK;
     r_StretchRect := S_OK;
     r_Present := S_OK;
     r_GetClientRect := mkRECT 0 0 1920 1080;
     r_MFGetStrideForBitmapInfoHeader := fun _ width => (S_OK, 4 * width);
     r_MFCopyImage := fun d _ _ _ _ _ _ _ => (S_OK, d) |}.

Definition with_TestCooperativeLevel (hr : HRESULT) (env : Backend) : Backend :=
  mkBackend (r_Direct3DCreate9 env) (r_GetAdapterDisplayMode env)
    (r_CheckDeviceType env) (r_CreateDevice env) (r_CreateAdditionalSwapChain env)
    hr (r_Reset env) (r_SwapChain_GetBackBuffer env) (r_LockRect env)
    (r_UnlockRect env) (r_Device_GetBackBuffer env) (r_ColorFill env)
    (r_StretchRect env) (r_Present env) (r_GetClientRect env)
    (r_MFGetStrideForBitmapInfoHeader env) (r_MFCopyImage env).

Definition with_Reset (hr : HRESULT) (env : Backend) : Backend :=
  mkBackend (r_Direct3DCreate9 env) (r_GetAdapterDisplayMode env)
    (r_CheckDeviceType env) (r_CreateDevice env) (r_CreateAdditionalSwapChain env)
    (r_TestCooperativeLevel env) hr (r_SwapChain_GetBackBuffer env) (r_LockRect env)
    (r_UnlockRect env) (r_Device_GetBackBuffer env) (r_ColorFill env)
    (r_StretchRect env) (r_Present env) (r_GetClientRect env)
    (r_MFGetStrideForBitmapInfoHeader env) (r_MFCopyImage env).


Definition with_MFCopyImage (f : copy_image) (env : Backend) : Backend :=
  mkBackend (r_Direct3DCreate9 env) (r_GetAdapterDisplayMode env)
    (r_CheckDeviceType env) (r_CreateDevice env) (r_CreateAdditionalSwapChain env)
    (r_TestCooperativeLevel env) (r_Reset env) (r_SwapChain_GetBackBuffer env)
    (r_LockRect env) (r_UnlockRect env) (r_Device_GetBackBuffer env)
    (r_ColorFill env) (r_StretchRect env) (r_Present env) (r_GetClientRect env)
    (r_MFGetStrideForBitmapInfoHeader env) f.

Definition with_CreateAdditionalSwapChain (r : HRESULT * Handle) (env : Backend)
  : Backend :=
  mkBackend (r_Direct3DCreate9 env) (r_GetAdapterDisplayMode env)
    (r_CheckDeviceType env) (r_CreateDevice env) r
    (r_TestCooperativeLevel env) (r_Reset env) (r_SwapChain_GetBackBuffer env)
    (r_LockRect env) (r_UnlockRect env) (r_Device_GetBackBuffer env)
    (r_ColorFill env) (r_StretchRect env) (r_Present env) (r_GetClientRect env)
    (r_MFGetStrideForBitmapInfoHeader env) (r_MFCopyImage env).

(** A bulk copy that reports a geometry mismatch and copies nothing. *)
Definition MFCopyImage_mismatch : copy_image :=
  fun d _ _ _ _ _ _ _ => (E_INVALIDARG, d).

(** A 640x480 32-bit RGB media type with square pixels and no explicit
    stride attribute. *)
Definition mediatype_rgb32_640x480 : MediaType :=
  {| MF_MT_SUBTYPE := Some MFVideoFormat_RGB32;
     MF_MT_FRAME_SIZE := Some (640, 480);
     MF_MT_INTERLACE_MODE := None;
     MF_MT_DEFAULT_STRIDE := None;
     MF_MT_PIXEL_ASPECT_RATIO := Some (1, 1) |}.

(** A media buffer without [IMF2DBuffer] whose [Lock] succeeds. *)
Definition buffer_linear : MediaBuffer :=
  {| Buf_has_IMF2DBuffer := false;
     Buf_Lock2D := (E_FAIL, (0, 0));
     Buf_Lock := (S_OK, 131072);
     Buf_bits := fun _ => 0 |}.

(** A freshly constructed device in an empty surface memory. *)
Definition world_new : World :=
  {| dev := DrawDevice_new; trace := []; surface := fun _ => None |}.

Definition world_of {A} (o : outcome A) : World :=
  match o with
  | Returns _ w => w
  | NullDeref w => w
  | OutOfFuel => world_new
  end.

Definition set_trace (t : list Event) (w : World) : World :=
  {| dev := dev w; trace := t; surface := surface w |}.

Definition clear_trace (w : World) : World := set_trace [] w.

(** The device after [createDevice] and [setVideoType] succeeded on the
    healthy backend, with the trace started afresh. *)
Definition world_ready : World :=
  clear_trace
    (world_of ((createDevice backend_healthy 7;;;
                setVideoType backend_healthy mediatype_rgb32_640x480) world_new)).

(** The device after [createDevice] succeeded and [setVideoType] failed to
    create the swap chain: a converter is selected, no swap chain exists. *)
Definition world_no_chain : World :=
  clear_trace
    (world_of ((createDevice backend_healthy 7;;;
                setVideoType (with_CreateAdditionalSwapChain (E_FAIL, 0%nat)
                                                             backend_healthy)
                             mediatype_rgb32_640x480) world_new)).

(** The device after [createDevice] alone. *)
Definition world_created : World :=
  clear_trace (world_of (createDevice backend_healthy 7 world_new)).

(** A 2x2 frame in YUY2 layout at address 0 with stride 4: every 4-byte
    group holds 128, 235, 128, 16. *)
Definition frame_yuy2_2x2 : smem :=
  fun a => match a mod 4 with 0 => 128 | 1 => 235 | 2 => 128 | _ => 16 end.

(** A frame whose luma bytes are all [Y] and whose chroma bytes are all 128,
    for the two layouts: in YUY2 the even addresses hold luma; in NV12
    (width 2, height 2, stride 2 at address 0) the first four bytes do. *)
Definition frame_yuy2_white : smem :=
  fun a => if Z.even a then 235 else 128.
Definition frame_nv12_white : smem :=
  fun a => if a <? 4 then 235 else 128.

Definition surface_blank : dmem := fun _ => None.

(** ** What the design document says, in its own words *)

(** "[clip] saturates to [0,255]". *)
Definition clip (v : Z) : Z := Z.max 0 (Z.min 255 v).

(** "c = Y-16; d = Cb-128; e = Cr-128; R = clip((298c + 409e + 128)>>8);
    G = clip((298c - 100d - 208e + 128)>>8); B = clip((298c + 516d + 128)>>8)",
    as (R, G, B). *)
Definition studio_rgb (Y Cb Cr : Z) : Z * Z * Z :=
  let c := Y - 16 in
  let d := Cb - 128 in
  let e := Cr - 128 in
  (clip (Z.shiftr (298 * c + 409 * e + 128) 8),
   clip (Z.shiftr (298 * c - 100 * d - 208 * e + 128) 8),
   clip (Z.shiftr (298 * c + 516 * d + 128) 8)).

(** The destination pixel at address [a] holds the colour (R, G, B): blue,
    green and red bytes in memory order. *)
Definition pixel_is (d : dmem) (a : Z) (rgb : Z * Z * Z) : Prop :=
  let '(r, g, b) := rgb in
  d a = Some b /\ d (a + 1) = Some g /\ d (a + 2) = Some r.

(** "ordering U,Y0,V,Y1": the two pixels of a 4-byte group read in that
    order. *)
Definition group_U_Y0_V_Y1 (b0 b1 b2 b3 : Z) : (Z * Z * Z) * (Z * Z * Z) :=
  (studio_rgb b1 b0 b2, studio_rgb b3 b0 b2).

(** The order the converter reads: Y0,U,Y1,V. *)
Definition group_Y0_U_Y1_V (b0 b1 b2 b3 : Z) : (Z * Z * Z) * (Z * Z * Z) :=
  (studio_rgb b0 b1 b3, studio_rgb b2 b1 b3).




(** The destination rectangle that the stored geometry and a client area
    determine. *)
Definition destination_for (d : DrawDevice) (rcClient : RECT) : RECT :=
  LetterBoxRect
    (CorrectAspectRatio (mkRECT 0 0 (s32 (mWidth d)) (s32 (mHeight d))) (mAspect d))
    rcClient.



(** The converter was selected by [setVideoType], which records the format
    tag next to it. *)
Definition format_recorded (d : DrawDevice) : Prop :=
  mRGB32Converter d <> None -> mFormat d <> D3DFMT_UNKNOWN.

(** ** Frames and pixels, for the statements *)

(** The colour the studio-range formula gives to pixel [col] of a YUY2 scan
    line that starts at [line]: luma at byte [2*col], the chroma pair of its
    4-byte group at bytes 1 (Cb) and 3 (Cr) of the group. *)
Definition yuy2_pixel (src : smem) (line col : Z) : Z * Z * Z :=
  studio_rgb (load8 src (line + 2 * col))
             (load8 src (line + 4 * (col / 2) + 1))
             (load8 src (line + 4 * (col / 2) + 3)).

(** The colour the formula gives to pixel ([row], [col]) of an NV12 frame:
    luma from the luma plane, the chroma pair of its 2x2 block from the
    interleaved plane that follows [height] luma lines. *)
Definition nv12_pixel (src : smem) (source srcStride height row col : Z)
  : Z * Z * Z :=
  let chroma := source + height * srcStride + (row / 2) * srcStride + 2 * (col / 2) in
  studio_rgb (load8 src (source + row * srcStride + col))
             (load8 src chroma)
             (load8 src (chroma + 1)).

(** A YUY2 frame filled with one luma value and one chroma pair. *)
Definition yuy2_uniform (src : smem) (source srcStride width height Y Cb Cr : Z)
  : Prop :=
  forall row g, 0 <= row < height -> 0 <= 2 * g < width ->
    let line := source + row * srcStride in
    load8 src (line + 4 * g) = Y /\ load8 src (line + 4 * g + 1) = Cb /\
    load8 src (line + 4 * g + 2) = Y /\ load8 src (line + 4 * g + 3) = Cr.

(** An NV12 frame filled with one luma value and one chroma pair. *)
Definition nv12_uniform (src : smem) (source srcStride width height Y Cb Cr : Z)
  : Prop :=
  (forall row col, 0 <= row < height -> 0 <= col < width ->
     load8 src (source + row * srcStride + col) = Y) /\
  (forall row g, 0 <= 2 * row < height -> 0 <= 2 * g < width ->
     let chroma := source + height * srcStride + row * srcStride + 2 * g in
     load8 src chroma = Cb /\ load8 src (chroma + 1) = Cr).

(** A destination frame filled with one colour. *)
Definition rgb_uniform (d : dmem) (destination destStride width height : Z)
           (rgb : Z * Z * Z) : Prop :=
  forall row col, 0 <= row < height -> 0 <= col < width ->
    pixel_is d (destination + row * destStride + 4 * col) rgb.

(** Read the (R, G, B) bytes of a destination pixel. *)
Definition read_pixel (d : dmem) (a : Z) : option Z * option Z * option Z :=
  (d (a + 2), d (a + 1), d a).

Definition white : option Z * option Z * option Z := (Some 255, Some 255, Some 255).

(** ** The camera ([Camera.h], [Camera.cpp]) *)

(** A native media type of the source reader: the attributes the draw
    device reads, and the frame rate as numerator and denominator. *)
Record NativeType := mkNativeType {
  attributes : MediaType;
  MF_MT_FRAME_RATE : option (Z * Z)
}.

(** [IMFAttributes::SetGUID(MF_MT_SUBTYPE, format)] on a native type. *)
Definition SetGUID_subtype (format : GUID) (t : NativeType) : NativeType :=
  {| attributes :=
       {| MF_MT_SUBTYPE := Some format;
          MF_MT_FRAME_SIZE := MF_MT_FRAME_SIZE (attributes t);
          MF_MT_INTERLACE_MODE := MF_MT_INTERLACE_MODE (attributes t);
          MF_MT_DEFAULT_STRIDE := MF_MT_DEFAULT_STRIDE (attributes t);
          MF_MT_PIXEL_ASPECT_RATIO := MF_MT_PIXEL_ASPECT_RATIO (attributes t) |};
     MF_MT_FRAME_RATE := MF_MT_FRAME_RATE t |}.

(** The calls made on the source reader, in order. *)
Inductive ReaderCall :=
| Call_SetCurrentMediaType (t : NativeType)
| Call_ReadSample.

(** What the source reader and a sample answer: whether the reader accepts
    a media type and the result of [ReadSample], each as a function of the
    calls made on the reader before; the result of [SetGUID] on a native
    type; and of [GetBufferByIndex] with the buffer it hands out. *)
Record Reader := mkReader {
  r_SetCurrentMediaType : list ReaderCall -> NativeType -> HRESULT;
  r_SetGUID : GUID -> HRESULT;
  r_ReadSample : list ReaderCall -> HRESULT
}.

Record Sample := mkSample {
  r_GetBufferByIndex : HRESULT * MediaBuffer
}.

(** A camera method returns a value, the reader calls so far and the draw
    device; or runs into undefined behaviour (a call through a null pointer,
    an integer division by zero); or is still inside a converter loop when
    the fuel ends. *)
Inductive cam_outcome (A : Type) :=
| Done (a : A) (calls : list ReaderCall) (w : World)
| Undefined
| Unfinished.
Arguments Done {A} a calls w.
Arguments Undefined {A}.
Arguments Unfinished {A}.

Definition CM (A : Type) : Type := list ReaderCall -> World -> cam_outcome A.

Definition cret {A} (a : A) : CM A := fun calls w => Done a calls w.

Definition cbind {A B} (m : CM A) (k : A -> CM B) : CM B :=
  fun calls w => match m calls w with
                 | Done a calls' w' => k a calls' w'
                 | Undefined => Undefined
                 | Unfinished => Unfinished
                 end.

(** A method of the draw device, run from the camera. *)
Definition on_draw_device {A} (m : M A) : CM A :=
  fun calls w => match m w with
                 | Returns a w' => Done a calls w'
                 | NullDeref _ => Undefined
                 | OutOfFuel => Unfinished
                 end.

(** A call on the reader: the answer is the one for the calls made so
    far, and the call is recorded. *)
Definition reader_call (answer : list ReaderCall -> HRESULT) (c : ReaderCall)
  : CM HRESULT :=
  fun calls w => Done (answer calls) (calls ++ [c]) w.

Definition undefined {A} : CM A := fun _ _ => Undefined.

Module Camera.

(** The data members of [Camera] that the modelled methods read; the draw
    device [mDrawDevice] is the [World] of the monad. *)
Record t := mk {
  mReader : option Handle;
  mWidth : Z;
  mHeight : Z;
  mFps : Z
}.

(** [checkRequiredResolution]; [None] is the unsigned division by a zero
    denominator, which is reached only when width and height match.  The
    log line with its floating-point quotient is not modelled. *)
Definition checkRequiredResolution (this : t) (nativeType : NativeType)
  : option bool :=
  match MF_MT_FRAME_SIZE (attributes nativeType) with
  | None => Some false
  | Some (width, height) =>
      match MF_MT_FRAME_RATE nativeType with
      | None => Some false
      | Some (numerator, denominator) =>
          if (mWidth this =? width) && (mHeight this =? height) then
            if denominator =? 0 then None
            else Some (mFps this =? numerator / denominator)
          else Some false
      end
  end.

(** [mReader->SetCurrentMediaType(..., nativeType)]. *)
Definition SetCurrentMediaType (this : t) (rd : Reader) (nativeType : NativeType)
  : CM HRESULT :=
  match mReader this with
  | None => undefined
  | Some _ =>
      reader_call (fun calls => r_SetCurrentMediaType rd calls nativeType)
                  (Call_SetCurrentMediaType nativeType)
  end.

(** The loop of [adjustMediaTypeToDevice] over the supported formats. *)
Fixpoint try_formats (this : t) (rd : Reader) (formats : list GUID)
         (nativeType : NativeType) : CM (bool * NativeType) :=
  match formats with
  | [] => cret (false, nativeType)
  | format :: rest =>
      if FAILED (r_SetGUID rd format) then cret (false, nativeType)
      else
        let nativeType := SetGUID_subtype format nativeType in
        (* Try to set this type on the source reader. *)
        cbind (SetCurrentMediaType this rd nativeType) (fun hr =>
        if SUCCEEDED hr then cret (true, nativeType)
        else try_formats this rd rest nativeType)
  end.

(** [adjustMediaTypeToDevice]: the result and the native type as the
    method leaves it (it rewrites the subtype in place). *)
Definition adjustMediaTypeToDevice (this : t) (rd : Reader) (nativeType : NativeType)
  : CM (bool * NativeType) :=
  match MF_MT_SUBTYPE (attributes nativeType) with
  | None => cret (false, nativeType)
  | Some subtype =>
      if isFormatSupported subtype then
        cbind (SetCurrentMediaType this rd nativeType) (fun hr =>
        cret (hr =? S_OK, nativeType))
      else
        (* Can we decode this media type to one of our supported
           output formats? *)
        try_formats this rd getSupportedFormats nativeType
  end.

(** [setupOutputFormat] over the native types the reader enumerates before
    [GetNativeMediaType] first fails. *)
Fixpoint setupOutputFormat (this : t) (rd : Reader) (env : Backend)
         (natives : list NativeType) : CM bool :=
  match natives with
  | [] => cret false
  | nativeType :: rest =>
      match checkRequiredResolution this nativeType with
      | None => undefined
      | Some false => setupOutputFormat this rd env rest
      | Some true =>
          cbind (adjustMediaTypeToDevice this rd nativeType) (fun r =>
          let '(ok, nativeType) := r in
          if negb ok then setupOutputFormat this rd env rest
          else
            cbind (on_draw_device (setVideoType env (attributes nativeType))) (fun ok =>
            if ok then cret true else setupOutputFormat this rd env rest))
      end
  end.

(** [drawSample]. *)
Definition drawSample (env : Backend) (fuel : nat) (sample : Sample) : CM bool :=
  let '(hr, pBuffer) := r_GetBufferByIndex sample in
  if FAILED hr then cret false
  else
    cbind (on_draw_device (DrawFrame env fuel pBuffer)) (fun ok =>
    if negb ok then cret false else cret true).

(** [OnReadSample]; [pSample = None] is a null sample pointer. *)
Definition OnReadSample (this : t) (rd : Reader) (env : Backend) (fuel : nat)
           (hrStatus : HRESULT) (pSample : option Sample) : CM HRESULT :=
  if FAILED hrStatus then cret hrStatus
  else
    cbind (match pSample with
           | Some sample => drawSample env fuel sample
           | None => cret true
           end) (fun drawn =>
    if negb drawn then cret 1
    else
      match mReader this with
      | None => undefined
      | Some _ => reader_call (r_ReadSample rd) Call_ReadSample
      end).

End Camera.

(** ** Steps and events of one frame, for the statements *)

(** The steps of [DrawFrame] whose result is tested: the two
    [GetBackBuffer] calls, [LockRect], the buffer lock, [UnlockRect],
    [ColorFill] and [StretchRect]. *)
Definition checked_steps_succeed (env : Backend) (pBuffer : MediaBuffer)
           (d : DrawDevice) : bool :=
  negb (FAILED (r_SwapChain_GetBackBuffer env)) &&
  negb (FAILED (fst (r_LockRect env))) &&
  negb (fst (VideoBufferLock.LockBuffer (VideoBufferLock.create pBuffer)
                                        (mDefaultStride d) (mHeight d)) =? nullptr) &&
  negb (FAILED (r_UnlockRect env)) &&
  negb (FAILED (r_Device_GetBackBuffer env)) &&
  negb (FAILED (r_ColorFill env)) &&
  negb (FAILED (r_StretchRect env)).



Definition is_Ev_Present (e : Event) : bool :=
  match e with Ev_Present => true | _ => false end.

Definition is_Ev_UnlockRect (e : Event) : bool :=
  match e with Ev_UnlockRect => true | _ => false end.


Definition lock_event (pBuffer : MediaBuffer) : Event :=
  if Buf_has_IMF2DBuffer pBuffer then Ev_Buffer_Lock2D else Ev_Buffer_Lock.

(** The members that [setVideoType] records: converter, format tag, frame
    size, stride, pixel aspect ratio and interlace mode. *)
Definition video_type (d : DrawDevice)
  : option Format * Z * (Z * Z) * Z * MFRatio * Z :=
  (mRGB32Converter d, mFormat d, (mWidth d, mHeight d), mDefaultStride d,
   mAspect d, mInterlaceMode d).

(** ** Footprints of the converters, for the statements *)

(** The destination pixel at [p] holds the three bytes of the source pixel
    at [s] in the same order, followed by the byte 255. *)
Definition rgb24_pixel_copied (d : dmem) (p : Z) (src : smem) (s : Z) : Prop :=
  d p = Some (load8 src s) /\ d (p + 1) = Some (load8 src (s + 1)) /\
  d (p + 2) = Some (load8 src (s + 2)) /\ d (p + 3) = Some 255.

(** The address [a] lies in none of the [height] destination rows of
    [rowbytes] bytes each. *)
Definition outside_rows (a destination destStride rowbytes height : Z) : Prop :=
  forall row, 0 <= row < height ->
    a < destination + row * destStride \/
    destination + row * destStride + rowbytes <= a.

(** ** A camera, a reader and native types, for the examples *)

(** The camera with the default members of [Camera.h] and a reader. *)
Definition camera_720p30 : Camera.t :=
  {| Camera.mReader := Some 9%nat; Camera.mWidth := 1280; Camera.mHeight := 720;
     Camera.mFps := 30 |}.

(** A reader that accepts every media type. *)
Definition reader_accepting : Reader :=
  {| r_SetCurrentMediaType := fun _ _ => S_OK;
     r_SetGUID := fun _ => S_OK;
     r_ReadSample := fun _ => S_OK |}.

Definition native_720p (subtype : GUID) (rate : Z * Z) : NativeType :=
  {| attributes :=
       {| MF_MT_SUBTYPE := Some subtype;
          MF_MT_FRAME_SIZE := Some (1280, 720);
          MF_MT_INTERLACE_MODE := None;
          MF_MT_DEFAULT_STRIDE := Some 2560;
          MF_MT_PIXEL_ASPECT_RATIO := Some (1, 1) |};
     MF_MT_FRAME_RATE := Some rate |}.

(** The subtype of motion JPEG, which the format table does not hold. *)
Definition MFVideoFormat_MJPG : GUID := DEFINE_MEDIATYPE_GUID 0x47504A4D.

(** A sample whose buffer is [pBuffer]. *)
Definition sample_of (pBuffer : MediaBuffer) : Sample :=
  {| r_GetBufferByIndex := (S_OK, pBuffer) |}.

(** A media buffer without [IMF2DBuffer] whose [Lock] fails. *)
Definition buffer_lock_fails : MediaBuffer :=
  {| Buf_has_IMF2DBuffer := false;
     Buf_Lock2D := (E_FAIL, (0, 0));
     Buf_Lock := (E_FAIL, 0);
     Buf_bits := fun _ => 0 |}.

(** A 2x2 YUY2 media type, the device made ready for it, and a media buffer
    without [IMF2DBuffer] that holds a white frame of that type. *)
Definition mediatype_yuy2_2x2 : MediaType :=
  {| MF_MT_SUBTYPE := Some MFVideoFormat_YUY2;
     MF_MT_FRAME_SIZE := Some (2, 2);
     MF_MT_INTERLACE_MODE := None;
     MF_MT_DEFAULT_STRIDE := Some 4;
     MF_MT_PIXEL_ASPECT_RATIO := Some (1, 1) |}.

Definition world_ready_yuy2 : World :=
  clear_trace
    (world_of ((createDevice backend_healthy 7;;;
                setVideoType backend_healthy mediatype_yuy2_2x2) world_new)).

Definition buffer_yuy2_white : MediaBuffer :=
  {| Buf_has_IMF2DBuffer := false;
     Buf_Lock2D := (E_FAIL, (0, 0));
     Buf_Lock := (S_OK, 131072);
     Buf_bits := frame_yuy2_white |}.

(** * Properties *)

(** Proof automation for the state monad. *)

Ltac unfold_monad :=
  unfold bind, ret, this, call, update, null_deref in *.

Ltac unfold_device :=
  unfold resizeVideo, TestCooperativeLevel, resetDevice, DestroyDevice, createDevice,
    createSwapChains, UpdateDestinationRect, SafeRelease_mSwapChain,
    SafeRelease_mDevice, SafeRelease_mD3D in *;
  unfold_monad.

Ltac contradict_flags :=
  unfold SUCCEEDED, FAILED, S_OK, D3D_OK, D3DFMT_UNKNOWN, is_null in *;
  repeat match goal with
         | H : negb _ = true |- _ => apply negb_true_iff in H
         | H : negb _ = false |- _ => apply negb_false_iff in H
         | H : (_ =? _) = true |- _ => apply Z.eqb_eq in H
         | H : (_ =? _) = false |- _ => apply Z.eqb_neq in H
         | H : (_ <=? _) = true |- _ => apply Z.leb_le in H
         | H : (_ <=? _) = false |- _ => apply Z.leb_gt in H
         | H : (_ <? _) = true |- _ => apply Z.ltb_lt in H
         | H : (_ <? _) = false |- _ => apply Z.ltb_ge in H
         end;
  try congruence; try lia.

Ltac split_all :=
  repeat match goal with
         | |- context [if ?c then _ else _] => destruct c eqn:?; cbn
         | |- context [match ?c with Some _ => _ | None => _ end] => destruct c eqn:?; cbn
         | |- context [let '(_, _) := ?c in _] => destruct c eqn:?; cbn
         | |- context [match ?c with (_, _) => _ end] => destruct c eqn:?; cbn
         end.


(** ** Machine integers *)

Lemma u32_small (z : Z) : 0 <= z <= UINT32_MAX -> u32 z = z.
Proof. unfold u32, UINT32_MAX. intros H. apply Z.mod_small. lia. Qed.

Lemma u32_range (z : Z) : 0 <= u32 z <= UINT32_MAX.
Proof.
  unfold u32, UINT32_MAX.
  pose proof (Z.mod_pos_bound z (2 ^ 32) ltac:(lia)). lia.
Qed.

Lemma s32_small (z : Z) : - 2 ^ 31 <= z < 2 ^ 31 -> s32 z = z.
Proof.
  unfold s32. intros H.
  rewrite Z.mod_small by lia. lia.
Qed.

Lemma s32_u32_negative (s : Z) : - 2 ^ 31 <= s < 0 -> s32 (u32 s) = s.
Proof.
  intros H. unfold s32, u32.
  replace (s mod 2 ^ 32) with (s + 2 ^ 32).
  - replace (s + 2 ^ 32 + 2 ^ 31) with (s + 2 ^ 31 + 1 * 2 ^ 32) by lia.
    rewrite Z.mod_add by lia. rewrite Z.mod_small by lia. lia.
  - apply Z.mod_unique with (q := -1); lia.
Qed.

(** ** Geometry *)

Lemma MulDiv_exact (a b c q : Z) :
  0 < c -> 0 <= q <= 2147483647 -> a * b = q * c -> MulDiv a b c = q.
Proof.
  intros Hc Hq Hab. unfold MulDiv.
  destruct (Z.eqb_spec c 0) as [E|_]; [lia|].
  destruct (Z.ltb_spec c 0) as [E|_]; [lia|].
  rewrite Z.abs_eq by lia.
  assert (Hp : 0 <= a * b) by nia.
  destruct (Z.leb_spec 0 (a * b)) as [_|E]; [|lia].
  assert (Hh : 0 <= Z.quot c 2 < c).
  { rewrite Z.quot_div_nonneg by lia.
    split; [apply Z.div_pos; lia | apply Z.div_lt_upper_bound; lia]. }
  rewrite (Z.quot_div_nonneg (a * b + Z.quot c 2) c) by lia.
  assert (Hd : (a * b + Z.quot c 2) / c = q).
  { symmetry. apply Z.div_unique with (r := Z.quot c 2); [left; lia | lia]. }
  rewrite Hd.
  destruct (Z.ltb_spec 2147483647 q); [lia|].
  destruct (Z.ltb_spec q (-2147483647)); [lia|]. reflexivity.
Qed.

(** A 4:3 source in a 16:9 destination is pillar-boxed: it takes the full
    height of the destination and three quarters of its width. *)
Lemma LetterBoxRect_4x3_in_16x9 (sl st k dl dt m : Z) :
  0 < k -> 0 < m ->
  0 <= sl -> 0 <= st -> sl + 4 * k < 2 ^ 31 -> st + 3 * k < 2 ^ 31 ->
  0 <= dl -> 0 <= dt -> dl + 16 * m < 2 ^ 31 -> dt + 9 * m < 2 ^ 31 ->
  LetterBoxRect (mkRECT sl st (sl + 4 * k) (st + 3 * k))
                (mkRECT dl dt (dl + 16 * m) (dt + 9 * m))
  = mkRECT (dl + 2 * m) dt (dl + 14 * m) (dt + 9 * m).
Proof.
  intros Hk Hm Hsl Hst Hsr Hsb Hdl Hdt Hdr Hdb.
  unfold LetterBoxRect, Width, Height, SetRect. cbn [left top right bottom].
  replace (sl + 4 * k - sl) with (4 * k) by lia.
  replace (st + 3 * k - st) with (3 * k) by lia.
  replace (dl + 16 * m - dl) with (16 * m) by lia.
  replace (dt + 9 * m - dt) with (9 * m) by lia.
  rewrite !s32_small by lia.
  rewrite (MulDiv_exact (4 * k) (9 * m) (3 * k) (12 * m)) by lia.
  destruct (Z.leb_spec (12 * m) (16 * m)) as [_|E]; [|lia].
  rewrite (MulDiv_exact (9 * m) (4 * k) (3 * k) (12 * m)) by lia.
  replace (16 * m - 12 * m) with (2 * m * 2) by lia.
  replace (9 * m - 9 * m) with 0 by lia.
  rewrite !(s32_small 0) by lia.
  rewrite (s32_small (2 * m * 2)) by lia.
  rewrite Z.quot_mul by lia.
  replace (Z.quot 0 2) with 0 by reflexivity.
  rewrite (s32_small (dl + 2 * m)) by lia.
  rewrite (s32_small (dt + 0)) by lia.
  rewrite !s32_small by lia.
  f_equal; lia.
Qed.

(** C5, as amended.  For a source rectangle of 4:3 shape letterboxed into a
    16:9 destination rectangle of width W = 16m (height 9m), the computed
    inner rectangle has the full height 9m of the destination and width
    3W/4 = 12m; it is centred horizontally with equal left and right margins
    of 2m, and has no top or bottom margin. *)
Theorem letterbox_4x3_in_16x9_is_pillarbox (sl st k dl dt m : Z) :
  0 < k -> 0 < m ->
  0 <= sl -> 0 <= st -> sl + 4 * k < 2 ^ 31 -> st + 3 * k < 2 ^ 31 ->
  0 <= dl -> 0 <= dt -> dl + 16 * m < 2 ^ 31 -> dt + 9 * m < 2 ^ 31 ->
  let rcDst := mkRECT dl dt (dl + 16 * m) (dt + 9 * m) in
  let rc := LetterBoxRect (mkRECT sl st (sl + 4 * k) (st + 3 * k)) rcDst in
  Width rc = Width rcDst * 3 / 4 /\
  Height rc = Height rcDst /\
  top rc = top rcDst /\ bottom rc = bottom rcDst /\
  left rc - left rcDst = right rcDst - right rc /\
  left rc - left rcDst = 2 * m.
Proof.
  intros Hk Hm Hsl Hst Hsr Hsb Hdl Hdt Hdr Hdb rcDst rc.
  subst rc rcDst. rewrite LetterBoxRect_4x3_in_16x9 by assumption.
  unfold Width, Height. cbn [left top right bottom].
  replace (dl + 14 * m - (dl + 2 * m)) with (12 * m) by lia.
  replace (dl + 16 * m - dl) with (16 * m) by lia.
  replace (dt + 9 * m - dt) with (9 * m) by lia.
  rewrite !s32_small by lia.
  replace (16 * m * 3) with (12 * m * 4) by lia.
  rewrite Z.div_mul by lia.
  repeat split; lia.
Qed.

Lemma letterbox_4x3_in_16x9_is_pillarbox_witness :
  let rcDst := mkRECT 0 0 1920 1080 in
  let rc := LetterBoxRect (mkRECT 0 0 640 480) rcDst in
  Width rc = Width rcDst * 3 / 4 /\
  Height rc = Height rcDst /\
  top rc = top rcDst /\ bottom rc = bottom rcDst /\
  left rc - left rcDst = right rcDst - right rc /\
  left rc - left rcDst = 2 * 120.
Proof.
  apply (letterbox_4x3_in_16x9_is_pillarbox 0 0 160 0 0 120); lia.
Defined.

(** C5, as stated, fails: a 640x480 source in a 1920x1080 destination does
    not get width 1920 and height 1440; it gets width 1440 and height 1080,
    with margins left and right instead of top and bottom. *)
Lemma letterbox_4x3_in_16x9_counterexample :
  let rcDst := mkRECT 0 0 1920 1080 in
  let rc := LetterBoxRect (mkRECT 0 0 640 480) rcDst in
  rc = mkRECT 240 0 1680 1080 /\
  Width rc <> Width rcDst /\
  Height rc <> Width rcDst * 3 / 4.
Proof.
  cbv zeta. split; [reflexivity|]. split; vm_compute; discriminate.
Qed.

(** C6, as amended.  Aspect-ratio correction of a 720x486 source rectangle
    produces width 720 and height 540 (height stretched by 10/9, width
    unchanged) when the pixel aspect ratio is 9:10; with a pixel aspect
    ratio of 10:9 the pixels are wide and it is the width that is stretched,
    to 800x486. *)
Theorem correct_aspect_ratio_720x486 (l t : Z) :
  0 <= l -> 0 <= t -> l + 720 < 2 ^ 31 -> t + 486 < 2 ^ 31 ->
  CorrectAspectRatio (mkRECT l t (l + 720) (t + 486)) (mkRatio 9 10)
    = mkRECT 0 0 720 540 /\
  CorrectAspectRatio (mkRECT l t (l + 720) (t + 486)) (mkRatio 10 9)
    = mkRECT 0 0 800 486.
Proof.
  intros Hl Ht Hr Hb. unfold CorrectAspectRatio. cbn [left top right bottom Numerator Denominator].
  replace (l + 720 - l) with 720 by lia.
  replace (t + 486 - t) with 486 by lia.
  split; reflexivity.
Qed.

Lemma correct_aspect_ratio_720x486_witness :
  CorrectAspectRatio (mkRECT 0 0 (0 + 720) (0 + 486)) (mkRatio 9 10)
    = mkRECT 0 0 720 540 /\
  CorrectAspectRatio (mkRECT 0 0 (0 + 720) (0 + 486)) (mkRatio 10 9)
    = mkRECT 0 0 800 486.
Proof.
  apply (correct_aspect_ratio_720x486 0 0); lia.
Defined.

(** C6, as stated, fails: with pixel aspect ratio 10:9 the 720x486 rectangle
    is corrected to 800x486, not to 720x540. *)
Lemma correct_aspect_ratio_10_9_counterexample :
  CorrectAspectRatio (mkRECT 0 0 720 486) (mkRatio 10 9) = mkRECT 0 0 800 486 /\
  CorrectAspectRatio (mkRECT 0 0 720 486) (mkRatio 10 9) <> mkRECT 0 0 720 540.
Proof.
  split; [reflexivity | vm_compute; discriminate].
Qed.

(** ** Buffer lock *)

(** The parameter [stride] is unsigned, so the bottom-up branch of
    [LockBuffer] is never taken: a buffer without 2-D access is always
    returned at its physical base, whatever the sign of the stride the
    caller passed. *)
Lemma LockBuffer_linear_returns_base (buf : MediaBuffer) (s h hr data : Z) :
  Buf_has_IMF2DBuffer buf = false ->
  Buf_Lock buf = (hr, data) ->
  FAILED hr = false ->
  fst (VideoBufferLock.LockBuffer (VideoBufferLock.create buf) s h) = data /\
  VideoBufferLock.getStride
    (snd (VideoBufferLock.LockBuffer (VideoBufferLock.create buf) s h)) = s32 (u32 s).
Proof.
  intros H2D HLock Hhr.
  unfold VideoBufferLock.LockBuffer, VideoBufferLock.create, VideoBufferLock.getStride.
  cbn [VideoBufferLock.m2DBuffer VideoBufferLock.mBuffer].
  rewrite H2D, HLock, Hhr.
  pose proof (u32_range s) as Hr.
  destruct (Z.ltb_spec (u32 s) 0) as [E|_]; [lia|].
  split; reflexivity.
Qed.

(** C2 at the failing input: a buffer without 2-D access locked with stride
    -2560 and height 480.  The pointer returned is the physical base
    (131072), not the base plus 2560 * 479; [getStride] is -2560. *)
Theorem LockBuffer_negative_stride_not_offset :
  let r := VideoBufferLock.LockBuffer (VideoBufferLock.create buffer_linear) (-2560) 480 in
  snd (Buf_Lock buffer_linear) = 131072 /\
  fst r = 131072 /\
  fst r <> 131072 + Z.abs (-2560) * (480 - 1) /\
  VideoBufferLock.getStride (snd r) = -2560 /\
  VideoBufferLock.mLocked (snd r) = true.
Proof.
  cbv zeta. repeat split; vm_compute; congruence.
Qed.

(** ** The presentation device *)

(** C8, as amended.  For every call to [DrawFrame] made before the device is
    ready with a surface chain (no converter selected, or no device, or no
    swap chain), [DrawFrame] is a no-op: the device, the surface and the
    trace are left as they were, so nothing is locked, converted or
    presented.  It returns success when a converter has been selected, and
    failure when none has (in particular before [setVideoType] was ever
    called). *)
Theorem DrawFrame_not_ready_is_noop (env : Backend) (fuel : nat)
        (pBuffer : MediaBuffer) (w : World) :
  mRGB32Converter (dev w) = None \/ mDevice (dev w) = None \/ mSwapChain (dev w) = None ->
  DrawFrame env fuel pBuffer w
  = Returns (negb (is_null (mRGB32Converter (dev w)))) w.
Proof.
  intros H. unfold DrawFrame. unfold_monad.
  destruct (mRGB32Converter (dev w)) as [f|]; [|reflexivity].
  destruct H as [H|[H|H]]; [discriminate| |]; rewrite H; cbn.
  - reflexivity.
  - rewrite orb_true_r. reflexivity.
Qed.

Lemma DrawFrame_not_ready_is_noop_witness :
  (mRGB32Converter (dev world_no_chain) = None \/
   mDevice (dev world_no_chain) = None \/ mSwapChain (dev world_no_chain) = None) /\
  DrawFrame backend_healthy 0 buffer_linear world_no_chain
  = Returns (negb (is_null (mRGB32Converter (dev world_no_chain)))) world_no_chain.
Proof.
  split.
  - right; right; reflexivity.
  - apply (DrawFrame_not_ready_is_noop backend_healthy 0 buffer_linear world_no_chain).
    right; right; reflexivity.
Defined.

(** C8, as stated, fails: on a freshly constructed device, and on a device
    created by [createDevice] on which [setVideoType] has not been called,
    [DrawFrame] returns failure. *)
Lemma DrawFrame_before_setVideoType_counterexample :
  mDevice (dev world_created) = Some 2%nat /\
  mSwapChain (dev world_created) = None /\
  DrawFrame backend_healthy 0 buffer_linear world_new = Returns false world_new /\
  DrawFrame backend_healthy 0 buffer_linear world_created = Returns false world_created.
Proof. repeat split. Qed.

(** C3 at the failing input: a ready 640x480 32-bit RGB device, every
    backend call succeeding, and a bulk copy that reports a geometry
    mismatch.  The converter returns false, and [DrawFrame] goes on to fill,
    stretch and present, and returns success. *)
Theorem DrawFrame_presents_after_failed_conversion :
  match DrawFrame (with_MFCopyImage MFCopyImage_mismatch backend_healthy) 0
                  buffer_linear world_ready with
  | Returns result w' =>
      result = true /\
      trace w' =
        [Ev_TestCooperativeLevel; Ev_SwapChain_GetBackBuffer; Ev_LockRect;
         Ev_Buffer_Lock; Ev_convert RGB32 false; Ev_UnlockRect;
         Ev_Device_GetBackBuffer; Ev_ColorFill;
         Ev_StretchRect (mkRECT 240 0 1680 1080); Ev_Present; Ev_Buffer_Unlock]
  | _ => False
  end.
Proof. vm_compute. split; reflexivity. Qed.











Lemma DrawFrame_ready (env : Backend) (fuel : nat) (pBuffer : MediaBuffer) (w : World) :
  mRGB32Converter (dev w) <> None ->
  mDevice (dev w) <> None ->
  mSwapChain (dev w) <> None ->
  DrawFrame env fuel pBuffer w
  = match TestCooperativeLevel env w with
    | Returns true w1 => DrawFrame_present env fuel pBuffer w1
    | Returns false w1 => Returns false w1
    | NullDeref w1 => NullDeref w1
    | OutOfFuel => OutOfFuel
    end.
Proof.
  intros Hc Hd Hs. unfold DrawFrame. unfold bind at 1. unfold this.
  destruct (mRGB32Converter (dev w)); [|congruence].
  destruct (mDevice (dev w)); [|congruence].
  destruct (mSwapChain (dev w)); [|congruence].
  cbn [is_null orb]. unfold bind.
  destruct (TestCooperativeLevel env w) as [[|] w1| |]; reflexivity.
Qed.




Lemma findConversionFunction_Data1 (subtype : GUID) :
  findConversionFunction subtype <> None -> Data1 subtype <> D3DFMT_UNKNOWN.
Proof.
  unfold findConversionFunction, formatConversions. cbn [find fst snd].
  unfold GUID_eqb.
  repeat match goal with
         | |- context [(Data1 ?a =? Data1 ?b)] =>
             destruct (Z.eqb_spec (Data1 a) (Data1 b)) as [E|_];
             [rewrite <- E; intros _; vm_compute; discriminate | cbn [andb]]
         end.
  congruence.
Qed.

Lemma format_recorded_new : format_recorded DrawDevice_new.
Proof. unfold format_recorded. cbn. congruence. Qed.

Lemma setVideoType_format_recorded (env : Backend) (pType : MediaType)
      (w w' : World) (r : bool) :
  format_recorded (dev w) ->
  setVideoType env pType w = Returns r w' ->
  format_recorded (dev w').
Proof.
  unfold format_recorded. destruct w as [d tr sf]. destruct d. cbn.
  intros Hw. unfold setVideoType.
  destruct (MF_MT_SUBTYPE pType) as [subtype|]; [|unfold ret; intros H; inversion H; subst; exact Hw].
  pose proof (findConversionFunction_Data1 subtype) as HD.
  unfold_device. cbn.
  destruct (findConversionFunction subtype) as [f|] eqn:Ef; cbn;
    [|intros H; inversion H; subst; cbn; congruence].
  assert (HD' : Data1 subtype <> D3DFMT_UNKNOWN) by (apply HD; congruence).
  split_all.
  all: intros H; inversion H; subst; cbn; intros _; exact HD'.
Qed.

(** Only [setVideoType] assigns the converter and the format tag. *)
Lemma resetDevice_keeps_format (env : Backend) (w w' : World) (r : bool) :
  resetDevice env w = Returns r w' ->
  mRGB32Converter (dev w') = mRGB32Converter (dev w) /\ mFormat (dev w') = mFormat (dev w).
Proof.
  destruct w as [d tr sf]. destruct d as [? d3d dv chain ? ? ? ? ? ? ? ?].
  destruct d3d, dv, chain.
  all: unfold_device; cbn.
  all: split_all.
  all: intros H; inversion H; subst; cbn; split; reflexivity.
Qed.

Lemma createDevice_keeps_format (env : Backend) (hwnd : Z) (w w' : World) (r : bool) :
  createDevice env hwnd w = Returns r w' ->
  mRGB32Converter (dev w') = mRGB32Converter (dev w) /\ mFormat (dev w') = mFormat (dev w).
Proof.
  destruct w as [d tr sf]. destruct d as [? d3d dv chain ? ? ? ? ? ? ? ?].
  destruct d3d, dv, chain.
  all: unfold_device; cbn.
  all: split_all.
  all: intros H; inversion H; subst; cbn; split; reflexivity.
Qed.

Lemma DrawFrame_present_keeps_device (env : Backend) (fuel : nat)
      (pBuffer : MediaBuffer) (w w' : World) (r : bool) :
  DrawFrame_present env fuel pBuffer w = Returns r w' -> dev w' = dev w.
Proof.
  destruct w as [d tr sf].
  unfold DrawFrame_present, leave, run_convert. unfold_monad. cbn.
  split_all.
  all: intros H; inversion H; subst; reflexivity.
Qed.

(** The format tag stays recorded along every sequence of calls that
    starts from a fresh device. *)
Lemma DrawFrame_format_recorded (env : Backend) (fuel : nat)
      (pBuffer : MediaBuffer) (w w' : World) (r : bool) :
  format_recorded (dev w) ->
  DrawFrame env fuel pBuffer w = Returns r w' ->
  format_recorded (dev w').
Proof.
  intros Hw. unfold DrawFrame. unfold bind at 1. unfold this.
  destruct (mRGB32Converter (dev w)) as [f|] eqn:Ef;
    [|unfold ret; intros H; inversion H; subst; exact Hw].
  destruct (is_null (mDevice (dev w)) || is_null (mSwapChain (dev w))) eqn:En;
    [unfold ret; intros H; inversion H; subst; exact Hw|].
  unfold bind.
  destruct (TestCooperativeLevel env w) as [ok w1| |] eqn:Et; try discriminate.
  assert (Hk : mRGB32Converter (dev w1) = mRGB32Converter (dev w) /\
               mFormat (dev w1) = mFormat (dev w)).
  { revert Et. unfold TestCooperativeLevel. unfold bind at 1. unfold this.
    destruct (is_null (mDevice (dev w)));
      [unfold ret; intros H; inversion H; subst; split; reflexivity|].
    unfold bind, call.
    destruct (r_TestCooperativeLevel env =? D3D_OK);
      [unfold ret; intros H; inversion H; subst; split; reflexivity|].
    destruct ((r_TestCooperativeLevel env =? D3DERR_DEVICELOST)
              || (r_TestCooperativeLevel env =? D3DERR_DEVICENOTRESET));
      [|unfold ret; intros H; inversion H; subst; split; reflexivity].
    intros H. apply resetDevice_keeps_format in H. exact H. }
  assert (Hw1 : format_recorded (dev w1)).
  { unfold format_recorded in *. destruct Hk as [-> ->]. exact Hw. }
  destruct ok; cbn [negb].
  - intros H. apply DrawFrame_present_keeps_device in H. rewrite H. exact Hw1.
  - unfold ret. intros H. inversion H; subst. exact Hw1.
Qed.



(** ** Loops *)

(** The loop rule: a counter that starts at zero, steps by [step] and
    reaches the bound after [n] rounds without wrapping leaves the loop, and
    an invariant indexed by the round number is carried through. *)
Lemma for_u32_from {St : Type} (I : Z -> St -> Prop) (bound step n : Z)
      (body : Z -> St -> option St) :
  0 < step -> n * step <= UINT32_MAX ->
  (forall i, 0 <= i < n -> i * step < bound) -> bound <= n * step ->
  (forall i s, 0 <= i < n -> I i s ->
               exists s', body (i * step) s = Some s' /\ I (i + 1) s') ->
  forall (fuel : nat) (i : Z) (s : St),
    0 <= i <= n -> n - i < Z.of_nat fuel -> I i s ->
    exists s', for_u32 fuel bound step body (i * step) s = Some s' /\ I n s'.
Proof.
  intros Hstep Hmax Hlt Hge Hbody.
  induction fuel as [|fuel IH]; intros i s Hi Hfuel HI; [lia|].
  cbn [for_u32].
  destruct (Z.ltb_spec (i * step) bound) as [Hin|Hout].
  - assert (Hi' : i < n) by nia.
    destruct (Hbody i s ltac:(lia) HI) as (s' & -> & HI').
    replace (u32 (i * step + step)) with ((i + 1) * step).
    + apply IH; [lia|lia|exact HI'].
    + rewrite u32_small; [lia|]. unfold UINT32_MAX in *. nia.
  - assert (i = n).
    { destruct (Z.eq_dec i n) as [E|E]; [exact E|].
      specialize (Hlt i ltac:(lia)). lia. }
    subst i. exists s. split; [reflexivity|exact HI].
Qed.

Lemma for_u32_rule {St : Type} (I : Z -> St -> Prop) (bound step n : Z)
      (body : Z -> St -> option St) (fuel : nat) (s : St) :
  0 < step -> 0 <= n -> n * step <= UINT32_MAX ->
  (forall i, 0 <= i < n -> i * step < bound) -> bound <= n * step ->
  n < Z.of_nat fuel ->
  I 0 s ->
  (forall i s, 0 <= i < n -> I i s ->
               exists s', body (i * step) s = Some s' /\ I (i + 1) s') ->
  exists s', for_u32 fuel bound step body 0 s = Some s' /\ I n s'.
Proof.
  intros Hstep Hn Hmax Hlt Hge Hfuel H0 Hbody.
  change 0 with (0 * step) at 1.
  apply (for_u32_from I bound step n body); auto; lia.
Qed.

(** A loop whose body never fails leaves only through its test. *)
Lemma for_u32_diverges {St : Type} (body : Z -> St -> option St) :
  (forall x s, exists s', body x s = Some s') ->
  forall (fuel : nat) (x : Z) (s : St),
    0 <= x < UINT32_MAX -> Z.even x = true ->
    for_u32 fuel UINT32_MAX 2 body x s = None.
Proof.
  intros Hbody. induction fuel as [|fuel IH]; intros x s Hx Hev; [reflexivity|].
  cbn [for_u32].
  destruct (Z.ltb_spec x UINT32_MAX) as [_|E]; [|lia].
  destruct (Hbody x s) as (s' & ->).
  assert (Hx2 : Z.even (x + 2) = true).
  { rewrite Z.even_add, Hev. reflexivity. }
  destruct (Z.eq_dec (x + 2) (2 ^ 32)) as [E|E].
  - replace (u32 (x + 2)) with 0.
    + apply IH; [unfold UINT32_MAX; lia|reflexivity].
    + unfold u32. rewrite E. symmetry. apply Z.mod_same. lia.
  - assert (x + 2 <> UINT32_MAX).
    { intros E'. rewrite E' in Hx2. vm_compute in Hx2. discriminate. }
    rewrite u32_small by (unfold UINT32_MAX in *; lia).
    apply IH; [unfold UINT32_MAX in *; lia|exact Hx2].
Qed.

(** ** Bytes and pixels *)

Lemma load8_range (m : smem) (a : Z) : 0 <= load8 m a <= 255.
Proof.
  unfold load8, u8. pose proof (Z.mod_pos_bound (m a) 256 ltac:(lia)). lia.
Qed.

Lemma land_255 (w : Z) : Z.land w 255 = w mod 256.
Proof. change 255 with (Z.ones 8). rewrite Z.land_ones by lia. reflexivity. Qed.

Lemma LOBYTE_load16 (m : smem) (a : Z) : LOBYTE (load16 m a) = load8 m a.
Proof.
  unfold LOBYTE, load16. rewrite land_255.
  pose proof (load8_range m a). pose proof (load8_range m (a + 1)).
  rewrite (Z.mul_comm 256), Z.mod_add by lia.
  apply Z.mod_small. lia.
Qed.

Lemma HIBYTE_load16 (m : smem) (a : Z) : HIBYTE (load16 m a) = load8 m (a + 1).
Proof.
  unfold HIBYTE, load16. rewrite land_255, Z.shiftr_div_pow2 by lia.
  pose proof (load8_range m a). pose proof (load8_range m (a + 1)).
  change (2 ^ 8) with 256.
  rewrite (Z.mul_comm 256), Z.div_add by lia.
  rewrite (Z.div_small (load8 m a) 256) by lia.
  rewrite Z.add_0_l. apply Z.mod_small. lia.
Qed.

Lemma Clip_clip (v : Z) : Clip v = clip v.
Proof.
  unfold Clip, clip, u8.
  destruct (Z.ltb_spec v 0); [rewrite Z.mod_small by lia; lia|].
  destruct (Z.ltb_spec 255 v); rewrite Z.mod_small by lia; lia.
Qed.

Lemma clip_range (v : Z) : 0 <= clip v <= 255.
Proof. unfold clip. lia. Qed.

(** The colour routine is the studio-range formula of the design document. *)
Lemma ConvertYCrCbToRGB_studio (y cr cb : Z) :
  (rgbRed (ConvertYCrCbToRGB y cr cb), rgbGreen (ConvertYCrCbToRGB y cr cb),
   rgbBlue (ConvertYCrCbToRGB y cr cb)) = studio_rgb y cb cr.
Proof.
  unfold ConvertYCrCbToRGB, studio_rgb. cbn [rgbRed rgbGreen rgbBlue].
  rewrite !Clip_clip. reflexivity.
Qed.

(** For byte arguments the [int] expressions of the routine stay within 19
    bits, so no 32-bit arithmetic wraps. *)
Lemma ConvertYCrCbToRGB_int_range (y cr cb : Z) :
  0 <= y <= 255 -> 0 <= cr <= 255 -> 0 <= cb <= 255 ->
  let c := y - 16 in
  let d := cb - 128 in
  let e := cr - 128 in
  - 2 ^ 18 < 298 * c + 409 * e + 128 < 2 ^ 18 /\
  - 2 ^ 18 < 298 * c - 100 * d - 208 * e + 128 < 2 ^ 18 /\
  - 2 ^ 18 < 298 * c + 516 * d + 128 < 2 ^ 18.
Proof. intros. cbv zeta. lia. Qed.

Lemma store8_same (m : dmem) (a : Z) (v : option Z) : store8 m a v a = v.
Proof. unfold store8. rewrite Z.eqb_refl. reflexivity. Qed.

Lemma store8_other (m : dmem) (a a' : Z) (v : option Z) :
  a' <> a -> store8 m a v a' = m a'.
Proof. unfold store8. intros H. destruct (Z.eqb_spec a' a); [contradiction|reflexivity]. Qed.

(** Decide every address comparison of a goal about stored bytes. *)
Ltac mem_cases :=
  repeat match goal with
         | |- context [store8 _ ?a _ ?a'] =>
             first [ rewrite (store8_other _ a a') by lia
                   | replace a' with a by lia; rewrite store8_same ]
         end.

Lemma store_RGBQUAD_pixel (m : dmem) (a : Z) (y cr cb : Z) :
  pixel_is (store_RGBQUAD m a (ConvertYCrCbToRGB y cr cb)) a (studio_rgb y cb cr).
Proof.
  rewrite <- ConvertYCrCbToRGB_studio. unfold pixel_is, store_RGBQUAD.
  repeat split; mem_cases; reflexivity.
Qed.

Lemma store_RGBQUAD_other (m : dmem) (a a' : Z) (q : RGBQUAD) :
  a' < a \/ a + 4 <= a' -> store_RGBQUAD m a q a' = m a'.
Proof. intros H. unfold store_RGBQUAD. mem_cases. reflexivity. Qed.

Lemma pixel_is_ext (d d' : dmem) (a : Z) (rgb : Z * Z * Z) :
  d' a = d a -> d' (a + 1) = d (a + 1) -> d' (a + 2) = d (a + 2) ->
  pixel_is d a rgb -> pixel_is d' a rgb.
Proof.
  unfold pixel_is. destruct rgb as [[r g] b]. intros -> -> ->. exact (fun H => H).
Qed.

Lemma put_pixel (m : dmem) (a : Z) (y cr cb : Z) :
  pixel_is (FormatConvertorNV12.put m a (ConvertYCrCbToRGB y cr cb)) a
           (studio_rgb y cb cr).
Proof.
  rewrite <- ConvertYCrCbToRGB_studio. unfold pixel_is, FormatConvertorNV12.put.
  repeat split; mem_cases; reflexivity.
Qed.

Lemma put_other (m : dmem) (a a' : Z) (q : RGBQUAD) :
  a' < a \/ a + 4 <= a' -> FormatConvertorNV12.put m a q a' = m a'.
Proof. intros H. unfold FormatConvertorNV12.put. mem_cases. reflexivity. Qed.

Lemma half_even (j : Z) : (2 * j) / 2 = j.
Proof. rewrite Z.mul_comm. apply Z.div_mul. lia. Qed.

Lemma half_odd (j : Z) : (2 * j + 1) / 2 = j.
Proof. symmetry. apply Z.div_unique with (r := 1); lia. Qed.

(** ** The packed 4:2:2 converter *)

Lemma YUY2_row_pixels (fuel : nat) (src : smem) (pSrcPel pDestPel n : Z) (d : dmem) :
  0 <= n -> 2 * n <= UINT32_MAX -> n < Z.of_nat fuel ->
  exists d',
    FormatConvertorYUY2.row fuel src pSrcPel pDestPel (2 * n) d = Some d' /\
    (forall col, 0 <= col < 2 * n ->
                 pixel_is d' (pDestPel + 4 * col) (yuy2_pixel src pSrcPel col)) /\
    (forall a, a < pDestPel \/ pDestPel + 8 * n <= a -> d' a = d a).
Proof.
  intros Hn Hmax Hfuel. unfold FormatConvertorYUY2.row.
  apply (for_u32_rule
           (fun j d' =>
              (forall col, 0 <= col < 2 * j ->
                           pixel_is d' (pDestPel + 4 * col) (yuy2_pixel src pSrcPel col)) /\
              (forall a, a < pDestPel \/ pDestPel + 8 * j <= a -> d' a = d a))
           (2 * n) 2 n); try lia.
  - split; [intros; lia|reflexivity].
  - intros j dj Hj [Hpix Hout]. eexists. split; [reflexivity|].
    rewrite !LOBYTE_load16, !HIBYTE_load16.
    rewrite (u32_small (j * 2 + 1)) by (unfold UINT32_MAX in *; lia).
    split.
    + intros col Hcol.
      destruct (Z.eq_dec col (2 * j)) as [E|E]; [|destruct (Z.eq_dec col (2 * j + 1)) as [E'|E']].
      * subst col. unfold yuy2_pixel. rewrite half_even.
        apply pixel_is_ext with
          (d := store_RGBQUAD dj (pDestPel + 4 * (2 * j))
                  (ConvertYCrCbToRGB (load8 src (pSrcPel + 2 * (2 * j)))
                     (load8 src (pSrcPel + 4 * j + 3)) (load8 src (pSrcPel + 4 * j + 1)))).
        1-3: rewrite (store_RGBQUAD_other (store_RGBQUAD _ _ _)) by lia; repeat (f_equal; try lia).
        replace (pSrcPel + 2 * (j * 2)) with (pSrcPel + 2 * (2 * j)) by lia.
        replace (pSrcPel + 2 * (j * 2 + 1) + 1) with (pSrcPel + 4 * j + 3) by lia.
        replace (pSrcPel + 2 * (2 * j) + 1) with (pSrcPel + 4 * j + 1) by lia.
        replace (pDestPel + 4 * (j * 2)) with (pDestPel + 4 * (2 * j)) by lia.
        apply store_RGBQUAD_pixel.
      * subst col. unfold yuy2_pixel. rewrite half_odd.
        replace (pSrcPel + 2 * (j * 2 + 1) + 1) with (pSrcPel + 4 * j + 3) by lia.
        replace (pSrcPel + 2 * (j * 2) + 1) with (pSrcPel + 4 * j + 1) by lia.
        replace (pDestPel + 4 * (j * 2 + 1)) with (pDestPel + 4 * (2 * j + 1)) by lia.
        replace (pSrcPel + 2 * (j * 2 + 1)) with (pSrcPel + 2 * (2 * j + 1)) by lia.
        apply store_RGBQUAD_pixel.
      * apply pixel_is_ext with (d := dj).
        1-3: rewrite !store_RGBQUAD_other by lia; reflexivity.
        apply Hpix. lia.
    + intros a Ha. rewrite !store_RGBQUAD_other by lia. apply Hout. lia.
Qed.

Lemma YUY2_convert_pixels (fuel : nat) (d : dmem) (destination destStride : Z)
      (src : smem) (source srcStride n height : Z) :
  0 <= n -> 2 * n <= UINT32_MAX -> 0 <= height <= UINT32_MAX ->
  8 * n <= destStride ->
  n < Z.of_nat fuel -> height < Z.of_nat fuel ->
  exists d',
    FormatConvertorYUY2.convert fuel d destination destStride src source
                                srcStride (2 * n) height = Some (true, d') /\
    forall row col, 0 <= row < height -> 0 <= col < 2 * n ->
      pixel_is d' (destination + row * destStride + 4 * col)
               (yuy2_pixel src (source + row * srcStride) col).
Proof.
  intros Hn Hmax Hh Hstride Hfn Hfh. unfold FormatConvertorYUY2.convert.
  destruct (for_u32_rule
              (fun i (s : Z * Z * dmem) =>
                 let '(sp, dp, dm) := s in
                 sp = source + i * srcStride /\
                 dp = destination + i * destStride /\
                 forall row col, 0 <= row < i -> 0 <= col < 2 * n ->
                   pixel_is dm (destination + row * destStride + 4 * col)
                            (yuy2_pixel src (source + row * srcStride) col))
              height 1 height
              (fun _ '(source, destination, d) =>
                 match FormatConvertorYUY2.row fuel src source destination (2 * n) d with
                 | Some d' => Some (source + srcStride, destination + destStride, d')
                 | None => None
                 end)
              fuel (source, destination, d))
    as ([[sp dp] dm] & Hrun & _ & _ & Hpix); try lia.
  - repeat split; try lia.
  - intros i [[sp dp] dm] Hi (Hs & Hd & Hpix).
    destruct (YUY2_row_pixels fuel src sp dp n dm Hn Hmax Hfn) as (d' & Hrow & Hnew & Hout).
    rewrite Hrow. eexists. split; [reflexivity|]. cbn beta iota.
    split; [lia|]. split; [lia|].
    intros row col Hrow' Hcol.
    destruct (Z.eq_dec row i) as [E|E].
    + subst row dp sp. apply Hnew. exact Hcol.
    + assert (Hle : (row + 1) * destStride <= i * destStride)
        by (apply Z.mul_le_mono_nonneg_r; lia).
      apply pixel_is_ext with (d := dm).
      1-3: apply Hout; left; subst dp; lia.
      apply Hpix; lia.
  - rewrite Hrun. eexists. split; [reflexivity|]. exact Hpix.
Qed.

(** ** The planar 4:2:0 converter *)

Lemma put_pixel_at (m : dmem) (a a' : Z) (y cr cb : Z) (rgb : Z * Z * Z) :
  a' = a -> rgb = studio_rgb y cb cr ->
  pixel_is (FormatConvertorNV12.put m a (ConvertYCrCbToRGB y cr cb)) a' rgb.
Proof. intros -> ->. apply put_pixel. Qed.

(** Look through the stores that do not touch the pixel in question. *)
Ltac peel_put :=
  match goal with
  | |- pixel_is (FormatConvertorNV12.put ?m _ _) _ _ =>
      apply pixel_is_ext with (d := m);
      [ rewrite put_other by lia; reflexivity
      | rewrite put_other by lia; reflexivity
      | rewrite put_other by lia; reflexivity
      | ]
  end.

Ltac new_pixel :=
  repeat peel_put; apply put_pixel_at; [lia | repeat (f_equal; try lia)].

Section NV12_pixels.

Import FormatConvertorNV12.

Lemma NV12_row_pair_pixels (fuel : nat) (src : smem) (destStride srcStride n : Z)
      (p : plane_state) :
  0 <= n -> 2 * n <= UINT32_MAX -> n < Z.of_nat fuel -> 8 * n <= destStride ->
  exists p',
    row_pair fuel src destStride srcStride (2 * n) p = Some p' /\
    destination p' = destination p + u32 (2 * destStride) /\
    lpBitsY p' = lpBitsY p + u32 (2 * srcStride) /\
    lpBitsCr p' = lpBitsCr p + srcStride /\
    lpBitsCb p' = lpBitsCb p + srcStride /\
    (forall col, 0 <= col < 2 * n ->
       pixel_is (plane_mem p') (destination p + 4 * col)
         (studio_rgb (load8 src (lpBitsY p + col))
                     (load8 src (lpBitsCb p + 2 * (col / 2)))
                     (load8 src (lpBitsCr p + 2 * (col / 2)))) /\
       pixel_is (plane_mem p') (destination p + destStride + 4 * col)
         (studio_rgb (load8 src (lpBitsY p + srcStride + col))
                     (load8 src (lpBitsCb p + 2 * (col / 2)))
                     (load8 src (lpBitsCr p + 2 * (col / 2))))) /\
    (forall a, a < destination p -> plane_mem p' a = plane_mem p a).
Proof.
  intros Hn Hmax Hfuel Hstride. unfold row_pair.
  destruct (for_u32_rule
              (fun j (s : line_state) =>
                 lpLineY1 s = lpBitsY p + 2 * j /\
                 lpLineY2 s = lpBitsY p + srcStride + 2 * j /\
                 lpLineCr s = lpBitsCr p + 2 * j /\
                 lpLineCb s = lpBitsCb p + 2 * j /\
                 lpDibLine1 s = destination p + 8 * j /\
                 lpDibLine2 s = destination p + destStride + 8 * j /\
                 (forall col, 0 <= col < 2 * j ->
                    pixel_is (line_mem s) (destination p + 4 * col)
                      (studio_rgb (load8 src (lpBitsY p + col))
                                  (load8 src (lpBitsCb p + 2 * (col / 2)))
                                  (load8 src (lpBitsCr p + 2 * (col / 2)))) /\
                    pixel_is (line_mem s) (destination p + destStride + 4 * col)
                      (studio_rgb (load8 src (lpBitsY p + srcStride + col))
                                  (load8 src (lpBitsCb p + 2 * (col / 2)))
                                  (load8 src (lpBitsCr p + 2 * (col / 2))))) /\
                 (forall a, a < destination p -> line_mem s a = plane_mem p a))
              (2 * n) 2 n (fun _ s => Some (block src s)) fuel
              {| lpLineY1 := lpBitsY p; lpLineY2 := lpBitsY p + srcStride;
                 lpLineCr := lpBitsCr p; lpLineCb := lpBitsCb p;
                 lpDibLine1 := destination p;
                 lpDibLine2 := destination p + destStride;
                 line_mem := plane_mem p |})
    as (s & Hrun & _ & _ & _ & _ & _ & _ & Hpix & Hout); try lia.
  - cbn [lpLineY1 lpLineY2 lpLineCr lpLineCb lpDibLine1 lpDibLine2 line_mem destination lpBitsY lpBitsCr lpBitsCb plane_mem]. repeat split; try lia.
  - intros j s Hj (HY1 & HY2 & HCr & HCb & HD1 & HD2 & Hpix & Hout).
    eexists. split; [reflexivity|]. unfold block. cbn [lpLineY1 lpLineY2 lpLineCr lpLineCb lpDibLine1 lpDibLine2 line_mem destination lpBitsY lpBitsCr lpBitsCb plane_mem].
    rewrite HY1, HY2, HCr, HCb, HD1, HD2.
    repeat (split; [lia|]).
    split.
    + intros col Hcol.
      destruct (Z.eq_dec col (2 * j)) as [E|E]; [|destruct (Z.eq_dec col (2 * j + 1)) as [E'|E']].
      * subst col. rewrite half_even. split; new_pixel.
      * subst col. rewrite half_odd. split; new_pixel.
      * destruct (Hpix col ltac:(lia)) as [H1 H2].
        split; repeat peel_put; assumption.
    + intros a Ha. rewrite !put_other by lia. apply Hout. exact Ha.
  - rewrite Hrun. eexists. split; [reflexivity|]. cbn [lpLineY1 lpLineY2 lpLineCr lpLineCb lpDibLine1 lpDibLine2 line_mem destination lpBitsY lpBitsCr lpBitsCb plane_mem].
    repeat (split; [reflexivity|]). split; [exact Hpix|exact Hout].
Qed.

Lemma NV12_convert_pixels (fuel : nat) (d : dmem) (destination0 destStride : Z)
      (src : smem) (source srcStride n m : Z) :
  0 <= n -> 2 * n <= UINT32_MAX -> 0 <= m -> 2 * m <= UINT32_MAX ->
  8 * n <= destStride -> 2 * destStride <= UINT32_MAX ->
  0 <= srcStride -> 2 * srcStride <= UINT32_MAX ->
  2 * m * srcStride <= UINT32_MAX ->
  n < Z.of_nat fuel -> m < Z.of_nat fuel ->
  exists d',
    convert fuel d destination0 destStride src source srcStride (2 * n) (2 * m)
      = Some (true, d') /\
    forall row col, 0 <= row < 2 * m -> 0 <= col < 2 * n ->
      pixel_is d' (destination0 + row * destStride + 4 * col)
               (nv12_pixel src source srcStride (2 * m) row col).
Proof.
  intros Hn Hnmax Hm Hmmax Hds Hdmax Hss Hsmax Hplane Hfn Hfm.
  unfold convert.
  rewrite (u32_small (2 * m * srcStride)) by nia.
  destruct (for_u32_rule
              (fun i (p : plane_state) =>
                 destination p = destination0 + i * (2 * destStride) /\
                 lpBitsY p = source + i * (2 * srcStride) /\
                 lpBitsCb p = source + 2 * m * srcStride + i * srcStride /\
                 lpBitsCr p = source + 2 * m * srcStride + i * srcStride + 1 /\
                 forall row col, 0 <= row < 2 * i -> 0 <= col < 2 * n ->
                   pixel_is (plane_mem p) (destination0 + row * destStride + 4 * col)
                            (nv12_pixel src source srcStride (2 * m) row col))
              (2 * m) 2 m
              (fun _ p => row_pair fuel src destStride srcStride (2 * n) p)
              fuel
              {| destination := destination0; lpBitsY := source;
                 lpBitsCr := source + 2 * m * srcStride + 1;
                 lpBitsCb := source + 2 * m * srcStride; plane_mem := d |})
    as (p & Hrun & _ & _ & _ & _ & Hpix); try lia.
  - cbn [destination lpBitsY lpBitsCr lpBitsCb plane_mem]. repeat split; try lia.
  - intros i p Hi (HD & HY & HCb & HCr & Hpix).
    destruct (NV12_row_pair_pixels fuel src destStride srcStride n p Hn Hnmax Hfn Hds)
      as (p' & Hrow & HD' & HY' & HCr' & HCb' & Hnew & Hout).
    exists p'. split; [exact Hrow|].
    rewrite (u32_small (2 * destStride)) in HD' by lia.
    rewrite (u32_small (2 * srcStride)) in HY' by lia.
    repeat (split; [lia|]).
    intros row col Hrow' Hcol.
    destruct (Hnew col Hcol) as [H1 H2].
    destruct (Z.eq_dec row (2 * i)) as [E|E]; [|destruct (Z.eq_dec row (2 * i + 1)) as [E'|E']].
    + subst row. unfold nv12_pixel. rewrite half_even.
      replace (destination0 + 2 * i * destStride + 4 * col)
        with (destination p + 4 * col) by lia.
      replace (source + 2 * i * srcStride + col) with (lpBitsY p + col) by lia.
      replace (source + 2 * m * srcStride + i * srcStride + 2 * (col / 2))
        with (lpBitsCb p + 2 * (col / 2)) by lia.
      replace (lpBitsCb p + 2 * (col / 2) + 1) with (lpBitsCr p + 2 * (col / 2)) by lia.
      exact H1.
    + subst row. unfold nv12_pixel. rewrite half_odd.
      replace (destination0 + (2 * i + 1) * destStride + 4 * col)
        with (destination p + destStride + 4 * col) by lia.
      replace (source + (2 * i + 1) * srcStride + col)
        with (lpBitsY p + srcStride + col) by lia.
      replace (source + 2 * m * srcStride + i * srcStride + 2 * (col / 2))
        with (lpBitsCb p + 2 * (col / 2)) by lia.
      replace (lpBitsCb p + 2 * (col / 2) + 1) with (lpBitsCr p + 2 * (col / 2)) by lia.
      exact H2.
    + assert (Hle : row * destStride <= (2 * i - 1) * destStride)
        by (apply Z.mul_le_mono_nonneg_r; lia).
      apply pixel_is_ext with (d := plane_mem p).
      1-3: apply Hout; lia.
      apply Hpix; lia.
  - rewrite Hrun. eexists. split; [reflexivity|]. exact Hpix.
Qed.

End NV12_pixels.

Lemma half_bounds (c : Z) : 0 <= c -> 0 <= 2 * (c / 2) <= c /\ c <= 2 * (c / 2) + 1.
Proof. intros H. pose proof (Z.div_mod c 2 ltac:(lia)).
       pose proof (Z.mod_pos_bound c 2 ltac:(lia)). lia. Qed.

Lemma yuy2_uniform_pixel (src : smem) (source srcStride width height Y Cb Cr row col : Z) :
  yuy2_uniform src source srcStride width height Y Cb Cr ->
  0 <= row < height -> 0 <= col < width ->
  yuy2_pixel src (source + row * srcStride) col = studio_rgb Y Cb Cr.
Proof.
  intros Hu Hrow Hcol. unfold yuy2_pixel.
  pose proof (half_bounds col ltac:(lia)) as Hb.
  destruct (Hu row (col / 2) Hrow ltac:(lia)) as (H0 & H1 & H2 & H3).
  cbv zeta in H0, H1, H2, H3. rewrite H1, H3.
  destruct (Z.eq_dec col (2 * (col / 2))) as [E|E].
  - replace (source + row * srcStride + 2 * col)
      with (source + row * srcStride + 4 * (col / 2)) by lia.
    rewrite H0. reflexivity.
  - replace (source + row * srcStride + 2 * col)
      with (source + row * srcStride + 4 * (col / 2) + 2) by lia.
    rewrite H2. reflexivity.
Qed.

Lemma nv12_uniform_pixel (src : smem) (source srcStride width height Y Cb Cr row col : Z) :
  nv12_uniform src source srcStride width height Y Cb Cr ->
  0 <= row < height -> 0 <= col < width ->
  nv12_pixel src source srcStride height row col = studio_rgb Y Cb Cr.
Proof.
  intros [HY HC] Hrow Hcol. unfold nv12_pixel. cbv zeta.
  pose proof (half_bounds col ltac:(lia)) as Hb.
  pose proof (half_bounds row ltac:(lia)) as Hb'.
  destruct (HC (row / 2) (col / 2) ltac:(lia) ltac:(lia)) as (H0 & H1).
  cbv zeta in H0, H1. rewrite H0, H1, (HY row col Hrow Hcol). reflexivity.
Qed.

Example studio_white : studio_rgb 235 128 128 = (255, 255, 255).
Proof. reflexivity. Qed.

(** C1.  For every luma value Y and chroma values Cb, Cr, the colour routine
    shared by the two YCbCr converters computes c = Y-16, d = Cb-128,
    e = Cr-128, R = clip((298c + 409e + 128)>>8),
    G = clip((298c - 100d - 208e + 128)>>8), B = clip((298c + 516d + 128)>>8);
    on a frame of even width and height whose destination rows do not
    overlap, the YUY2 and the NV12 converter both return true and leave in
    every destination pixel that formula applied to the luma byte of the
    pixel and the chroma pair it shares; so a frame uniformly filled with Y,
    Cb, Cr converts to a frame uniformly filled with the formula's colour,
    and for Y=235, Cb=128, Cr=128 that colour is (255,255,255). *)
Theorem ycbcr_converters_use_studio_formula
        (fuel : nat) (d : dmem) (destination destStride : Z)
        (src : smem) (source srcStride n m : Z) :
  0 <= n -> 2 * n <= UINT32_MAX -> 0 <= m -> 2 * m <= UINT32_MAX ->
  8 * n <= destStride -> 2 * destStride <= UINT32_MAX ->
  0 <= srcStride -> 2 * srcStride <= UINT32_MAX ->
  2 * m * srcStride <= UINT32_MAX ->
  n < Z.of_nat fuel -> 2 * m < Z.of_nat fuel ->
  let width := 2 * n in
  let height := 2 * m in
  (forall Y Cb Cr,
     let q := ConvertYCrCbToRGB Y Cr Cb in
     (rgbRed q, rgbGreen q, rgbBlue q) = studio_rgb Y Cb Cr) /\
  (exists dY,
     FormatConvertorYUY2.convert fuel d destination destStride src source
                                 srcStride width height = Some (true, dY) /\
     (forall row col, 0 <= row < height -> 0 <= col < width ->
        pixel_is dY (destination + row * destStride + 4 * col)
                 (yuy2_pixel src (source + row * srcStride) col)) /\
     (forall Y Cb Cr,
        yuy2_uniform src source srcStride width height Y Cb Cr ->
        rgb_uniform dY destination destStride width height (studio_rgb Y Cb Cr))) /\
  (exists dN,
     FormatConvertorNV12.convert fuel d destination destStride src source
                                 srcStride width height = Some (true, dN) /\
     (forall row col, 0 <= row < height -> 0 <= col < width ->
        pixel_is dN (destination + row * destStride + 4 * col)
                 (nv12_pixel src source srcStride height row col)) /\
     (forall Y Cb Cr,
        nv12_uniform src source srcStride width height Y Cb Cr ->
        rgb_uniform dN destination destStride width height (studio_rgb Y Cb Cr))) /\
  studio_rgb 235 128 128 = (255, 255, 255).
Proof.
  intros Hn Hnmax Hm Hmmax Hds Hdmax Hss Hsmax Hplane Hfn Hfm width height.
  subst width height.
  split; [intros Y Cb Cr; apply ConvertYCrCbToRGB_studio|].
  split; [|split; [|reflexivity]].
  - destruct (YUY2_convert_pixels fuel d destination destStride src source srcStride
                n (2 * m) Hn Hnmax ltac:(lia) Hds Hfn Hfm) as (dY & Hrun & Hpix).
    exists dY. split; [exact Hrun|]. split; [exact Hpix|].
    intros Y Cb Cr Hu row col Hrow Hcol.
    rewrite <- (yuy2_uniform_pixel src source srcStride (2 * n) (2 * m) Y Cb Cr row col Hu Hrow Hcol).
    apply Hpix; assumption.
  - destruct (NV12_convert_pixels fuel d destination destStride src source srcStride
                n m Hn Hnmax Hm Hmmax Hds Hdmax Hss Hsmax Hplane Hfn ltac:(lia))
      as (dN & Hrun & Hpix).
    exists dN. split; [exact Hrun|]. split; [exact Hpix|].
    intros Y Cb Cr Hu row col Hrow Hcol.
    rewrite <- (nv12_uniform_pixel src source srcStride (2 * n) (2 * m) Y Cb Cr row col Hu Hrow Hcol).
    apply Hpix; assumption.
Qed.

Lemma ycbcr_converters_use_studio_formula_witness :
  (forall Y Cb Cr,
     let q := ConvertYCrCbToRGB Y Cr Cb in
     (rgbRed q, rgbGreen q, rgbBlue q) = studio_rgb Y Cb Cr) /\
  (exists dY,
     FormatConvertorYUY2.convert 3%nat surface_blank 0 8 frame_yuy2_white 0 4
                                 (2 * 1) (2 * 1) = Some (true, dY) /\
     (forall row col, 0 <= row < 2 * 1 -> 0 <= col < 2 * 1 ->
        pixel_is dY (0 + row * 8 + 4 * col)
                 (yuy2_pixel frame_yuy2_white (0 + row * 4) col)) /\
     (forall Y Cb Cr,
        yuy2_uniform frame_yuy2_white 0 4 (2 * 1) (2 * 1) Y Cb Cr ->
        rgb_uniform dY 0 8 (2 * 1) (2 * 1) (studio_rgb Y Cb Cr))) /\
  (exists dN,
     FormatConvertorNV12.convert 3%nat surface_blank 0 8 frame_yuy2_white 0 4
                                 (2 * 1) (2 * 1) = Some (true, dN) /\
     (forall row col, 0 <= row < 2 * 1 -> 0 <= col < 2 * 1 ->
        pixel_is dN (0 + row * 8 + 4 * col)
                 (nv12_pixel frame_yuy2_white 0 4 (2 * 1) row col)) /\
     (forall Y Cb Cr,
        nv12_uniform frame_yuy2_white 0 4 (2 * 1) (2 * 1) Y Cb Cr ->
        rgb_uniform dN 0 8 (2 * 1) (2 * 1) (studio_rgb Y Cb Cr))) /\
  studio_rgb 235 128 128 = (255, 255, 255).
Proof.
  apply (ycbcr_converters_use_studio_formula 3%nat surface_blank 0 8 frame_yuy2_white 0 4 1 1);
    unfold UINT32_MAX; cbn; lia.
Defined.

(** A 2x2 white studio-range frame converts to four white pixels, in both
    layouts. *)
Example yuy2_white_frame :
  match FormatConvertorYUY2.convert 3%nat surface_blank 0 8 frame_yuy2_white 0 4 2 2 with
  | Some (ok, d') =>
      ok = true /\
      map (read_pixel d') [0; 4; 8; 12] = [white; white; white; white]
  | None => False
  end.
Proof. vm_compute. split; reflexivity. Qed.

Example nv12_white_frame :
  match FormatConvertorNV12.convert 3%nat surface_blank 0 8 frame_nv12_white 0 2 2 2 with
  | Some (ok, d') =>
      ok = true /\
      map (read_pixel d') [0; 4; 8; 12] = [white; white; white; white]
  | None => False
  end.
Proof. vm_compute. split; reflexivity. Qed.

(** ** Byte order of the packed 4:2:2 converter *)

(** C9, as amended.  The packed 4:2:2 converter reads each 4-byte group of a
    source scan line in the byte order Y0,U,Y1,V (luma 0 first, then chroma
    U, then luma 1, then chroma V): it decodes two luma samples per group
    that share the one chroma pair, and converts each of the two pixels
    independently with the shared chroma. *)
Theorem yuy2_group_byte_order
        (fuel : nat) (d : dmem) (destination destStride : Z)
        (src : smem) (source srcStride n height : Z) :
  0 <= n -> 2 * n <= UINT32_MAX -> 0 <= height <= UINT32_MAX ->
  8 * n <= destStride ->
  n < Z.of_nat fuel -> height < Z.of_nat fuel ->
  exists d',
    FormatConvertorYUY2.convert fuel d destination destStride src source
                                srcStride (2 * n) height = Some (true, d') /\
    forall row g, 0 <= row < height -> 0 <= g < n ->
      let group := source + row * srcStride + 4 * g in
      let pixels := group_Y0_U_Y1_V (load8 src group) (load8 src (group + 1))
                                    (load8 src (group + 2)) (load8 src (group + 3)) in
      pixel_is d' (destination + row * destStride + 4 * (2 * g)) (fst pixels) /\
      pixel_is d' (destination + row * destStride + 4 * (2 * g + 1)) (snd pixels).
Proof.
  intros Hn Hmax Hh Hds Hfn Hfh.
  destruct (YUY2_convert_pixels fuel d destination destStride src source srcStride
              n height Hn Hmax Hh Hds Hfn Hfh) as (d' & Hrun & Hpix).
  exists d'. split; [exact Hrun|].
  intros row g Hrow Hg group pixels. subst pixels group.
  unfold group_Y0_U_Y1_V. cbn [fst snd].
  pose proof (Hpix row (2 * g) Hrow ltac:(lia)) as H0.
  pose proof (Hpix row (2 * g + 1) Hrow ltac:(lia)) as H1.
  unfold yuy2_pixel in H0, H1. rewrite half_even in H0. rewrite half_odd in H1.
  split.
  - replace (source + row * srcStride + 4 * g)
      with (source + row * srcStride + 2 * (2 * g)) at 1 by lia.
    exact H0.
  - replace (source + row * srcStride + 4 * g + 2)
      with (source + row * srcStride + 2 * (2 * g + 1)) by lia.
    exact H1.
Qed.

Lemma yuy2_group_byte_order_witness :
  exists d',
    FormatConvertorYUY2.convert 3%nat surface_blank 0 8 frame_yuy2_2x2 0 4 (2 * 1) 2
      = Some (true, d') /\
    forall row g, 0 <= row < 2 -> 0 <= g < 1 ->
      let group := 0 + row * 4 + 4 * g in
      let pixels := group_Y0_U_Y1_V (load8 frame_yuy2_2x2 group)
                                    (load8 frame_yuy2_2x2 (group + 1))
                                    (load8 frame_yuy2_2x2 (group + 2))
                                    (load8 frame_yuy2_2x2 (group + 3)) in
      pixel_is d' (0 + row * 8 + 4 * (2 * g)) (fst pixels) /\
      pixel_is d' (0 + row * 8 + 4 * (2 * g + 1)) (snd pixels).
Proof.
  apply (yuy2_group_byte_order 3%nat surface_blank 0 8 frame_yuy2_2x2 0 4 1 2);
    unfold UINT32_MAX; cbn; lia.
Defined.

(** C9, as stated, fails: a frame whose groups hold the bytes 128, 235, 128,
    16.  Read as U,Y0,V,Y1 the first group would give a white and a black
    pixel; the converter reads it as Y0,U,Y1,V and writes two pixels of
    colour (0,180,255). *)
Lemma yuy2_byte_order_counterexample :
  match FormatConvertorYUY2.convert 3%nat surface_blank 0 8 frame_yuy2_2x2 0 4 2 2 with
  | Some (_, d') =>
      map (load8 frame_yuy2_2x2) [0; 1; 2; 3] = [128; 235; 128; 16] /\
      group_U_Y0_V_Y1 128 235 128 16 = ((255, 255, 255), (0, 0, 0)) /\
      group_Y0_U_Y1_V 128 235 128 16 = ((0, 180, 255), (0, 180, 255)) /\
      pixel_is d' 0 (fst (group_Y0_U_Y1_V 128 235 128 16)) /\
      pixel_is d' 4 (snd (group_Y0_U_Y1_V 128 235 128 16)) /\
      ~ pixel_is d' 0 (fst (group_U_Y0_V_Y1 128 235 128 16)) /\
      ~ pixel_is d' 4 (snd (group_U_Y0_V_Y1 128 235 128 16))
  | None => False
  end.
Proof.
  vm_compute. repeat split; try reflexivity.
  all: intros (H1 & H2 & H3); first [discriminate H1 | discriminate H2 | discriminate H3].
Qed.

(** ** Results of the converters *)

(** A loop whose counter cannot wrap before it reaches the bound, and whose
    body always continues, leaves after at most [bound] rounds. *)
Lemma for_u32_total {St : Type} (bound step : Z) (body : Z -> St -> option St)
      (fuel : nat) (s : St) :
  0 < step -> 0 <= bound -> bound + step - 1 <= UINT32_MAX ->
  bound < Z.of_nat fuel ->
  (forall x s, exists s', body x s = Some s') ->
  exists s', for_u32 fuel bound step body 0 s = Some s'.
Proof.
  intros Hstep Hb Hmax Hfuel Hbody.
  pose (n := (bound + step - 1) / step).
  assert (Hn : n * step <= bound + step - 1 < n * step + step).
  { subst n. pose proof (Z.div_mod (bound + step - 1) step ltac:(lia)).
    pose proof (Z.mod_pos_bound (bound + step - 1) step Hstep). lia. }
  assert (Hn0 : 0 <= n) by (subst n; apply Z.div_pos; lia).
  destruct (for_u32_rule (fun _ _ => True) bound step n body fuel s)
    as (s' & Hrun & _); try lia.
  - intros i Hi. nia.
  - nia.
  - intros i si Hi _. destruct (Hbody (i * step) si) as (s' & ->).
    exists s'. split; [reflexivity|exact I].
  - exists s'. exact Hrun.
Qed.

Lemma RGB24_convert_returns_true (fuel : nat) (d : dmem) (destination destStride : Z)
      (src : smem) (source srcStride width height : Z) :
  0 <= width <= UINT32_MAX -> 0 <= height <= UINT32_MAX ->
  width < Z.of_nat fuel -> height < Z.of_nat fuel ->
  exists d', FormatConvertorRGB24.convert fuel d destination destStride src source
                                          srcStride width height = Some (true, d').
Proof.
  intros Hw Hh Hfw Hfh. unfold FormatConvertorRGB24.convert.
  destruct (for_u32_total height 1
              (fun _ '(source, destination, d) =>
                 match FormatConvertorRGB24.row fuel src source destination width d with
                 | Some d' => Some (source + srcStride, destination + destStride, d')
                 | None => None
                 end) fuel (source, destination, d))
    as ([[sp dp] dm] & Hrun); try lia.
  - intros x [[sp dp] dm].
    destruct (for_u32_total width 1
                (fun x d =>
                   Some (store32 d (dp + 4 * x)
                           (D3DCOLOR_XRGB (load8 src (sp + 3 * x + 2))
                                          (load8 src (sp + 3 * x + 1))
                                          (load8 src (sp + 3 * x))))) fuel dm)
      as (d' & Hrow); try lia.
    + intros; eexists; reflexivity.
    + unfold FormatConvertorRGB24.row. rewrite Hrow. eexists; reflexivity.
  - rewrite Hrun. eexists; reflexivity.
Qed.

Lemma YUY2_convert_returns_true (fuel : nat) (d : dmem) (destination destStride : Z)
      (src : smem) (source srcStride width height : Z) :
  0 <= width < UINT32_MAX -> 0 <= height <= UINT32_MAX ->
  width < Z.of_nat fuel -> height < Z.of_nat fuel ->
  exists d', FormatConvertorYUY2.convert fuel d destination destStride src source
                                         srcStride width height = Some (true, d').
Proof.
  intros Hw Hh Hfw Hfh. unfold FormatConvertorYUY2.convert.
  destruct (for_u32_total height 1
              (fun _ '(source, destination, d) =>
                 match FormatConvertorYUY2.row fuel src source destination width d with
                 | Some d' => Some (source + srcStride, destination + destStride, d')
                 | None => None
                 end) fuel (source, destination, d))
    as ([[sp dp] dm] & Hrun); try lia.
  - intros x [[sp dp] dm]. unfold FormatConvertorYUY2.row.
    match goal with
    | |- context [for_u32 fuel width 2 ?body 0 dm] =>
        destruct (for_u32_total width 2 body fuel dm) as (d' & Hrow); try lia
    end.
    + intros; eexists; reflexivity.
    + rewrite Hrow. eexists; reflexivity.
  - rewrite Hrun. eexists; reflexivity.
Qed.

Lemma NV12_convert_returns_true (fuel : nat) (d : dmem) (destination destStride : Z)
      (src : smem) (source srcStride width height : Z) :
  0 <= width < UINT32_MAX -> 0 <= height < UINT32_MAX ->
  width < Z.of_nat fuel -> height < Z.of_nat fuel ->
  exists d', FormatConvertorNV12.convert fuel d destination destStride src source
                                         srcStride width height = Some (true, d').
Proof.
  intros Hw Hh Hfw Hfh. unfold FormatConvertorNV12.convert.
  match goal with
  | |- context [for_u32 fuel height 2 ?body 0 ?s] =>
      destruct (for_u32_total height 2 body fuel s) as (p & Hrun); try lia
  end.
  - intros x p. unfold FormatConvertorNV12.row_pair.
    match goal with
    | |- context [for_u32 fuel width 2 ?body 0 ?s] =>
        destruct (for_u32_total width 2 body fuel s) as (s' & Hrow); try lia
    end.
    + intros; eexists; reflexivity.
    + rewrite Hrow. eexists; reflexivity.
  - rewrite Hrun. eexists; reflexivity.
Qed.

(** No converter other than the 32-bit RGB one has a path that returns
    false. *)
Lemma convert_false_is_RGB32 (MFCopyImage : copy_image) (f : Format) (fuel : nat)
      (d : dmem) (destination destStride : Z) (src : smem)
      (source srcStride width height : Z) (d' : dmem) :
  convert MFCopyImage f fuel d destination destStride src source srcStride width height
    = Some (false, d') ->
  f = RGB32.
Proof.
  destruct f; cbn [convert]; [reflexivity| | |].
  - unfold FormatConvertorRGB24.convert.
    destruct (for_u32 _ _ _ _ _ _) as [[[? ?] ?]|]; discriminate.
  - unfold FormatConvertorYUY2.convert.
    destruct (for_u32 _ _ _ _ _ _) as [[[? ?] ?]|]; discriminate.
  - unfold FormatConvertorNV12.convert.
    destruct (for_u32 _ _ _ _ _ _) as [?|]; discriminate.
Qed.

(** C10, as amended.  For every input buffer and stride, and every 32-bit
    width and height: the 24-bit RGB converter returns true; the YUY2
    converter returns true when the width is not 4294967295, and the NV12
    converter when neither the width nor the height is 4294967295; none of
    the three ever returns false.  Only the 32-bit RGB converter can return
    false, and it does so exactly when the bulk copy returns a value other
    than S_OK; so a false result of the conversion step implies that the
    format was 32-bit RGB. *)
Theorem converters_return_true_except_RGB32
        (MFCopyImage : copy_image) (fuel : nat) (d : dmem)
        (destination destStride : Z) (src : smem)
        (source srcStride width height : Z) :
  0 <= width <= UINT32_MAX -> 0 <= height <= UINT32_MAX ->
  width < Z.of_nat fuel -> height < Z.of_nat fuel ->
  (exists d', convert MFCopyImage RGB24 fuel d destination destStride src source
                      srcStride width height = Some (true, d')) /\
  (width <> UINT32_MAX ->
   exists d', convert MFCopyImage YUY2 fuel d destination destStride src source
                      srcStride width height = Some (true, d')) /\
  (width <> UINT32_MAX -> height <> UINT32_MAX ->
   exists d', convert MFCopyImage NV12 fuel d destination destStride src source
                      srcStride width height = Some (true, d')) /\
  (forall f d', convert MFCopyImage f fuel d destination destStride src source
                        srcStride width height = Some (false, d') ->
                f = RGB32) /\
  (let r := MFCopyImage d destination (s32 destStride) src source (s32 srcStride)
                        (u32 (width * 4)) height in
   convert MFCopyImage RGB32 fuel d destination destStride src source
           srcStride width height = Some (fst r =? S_OK, snd r)).
Proof.
  intros Hw Hh Hfw Hfh. cbn [convert].
  split; [apply RGB24_convert_returns_true; assumption|].
  split; [intros Hw'; apply YUY2_convert_returns_true; (assumption || lia)|].
  split; [intros Hw' Hh'; apply NV12_convert_returns_true; (assumption || lia)|].
  split.
  - intros f d'. apply convert_false_is_RGB32.
  - cbv zeta. unfold FormatConvertorRGB32.convert.
    destruct (MFCopyImage _ _ _ _ _ _ _ _) as [hr d']. reflexivity.
Qed.

Lemma converters_return_true_except_RGB32_witness :
  0 <= 2 <= UINT32_MAX /\ 0 <= 2 <= UINT32_MAX /\
  (exists d', convert MFCopyImage_mismatch RGB24 3%nat surface_blank 0 8
                      frame_yuy2_white 0 4 2 2 = Some (true, d')) /\
  (2 <> UINT32_MAX ->
   exists d', convert MFCopyImage_mismatch YUY2 3%nat surface_blank 0 8
                      frame_yuy2_white 0 4 2 2 = Some (true, d')) /\
  (2 <> UINT32_MAX -> 2 <> UINT32_MAX ->
   exists d', convert MFCopyImage_mismatch NV12 3%nat surface_blank 0 8
                      frame_yuy2_white 0 4 2 2 = Some (true, d')) /\
  (forall f d', convert MFCopyImage_mismatch f 3%nat surface_blank 0 8
                        frame_yuy2_white 0 4 2 2 = Some (false, d') ->
                f = RGB32) /\
  (let r := MFCopyImage_mismatch surface_blank 0 (s32 8) frame_yuy2_white 0 (s32 4)
                                 (u32 (2 * 4)) 2 in
   convert MFCopyImage_mismatch RGB32 3%nat surface_blank 0 8 frame_yuy2_white 0 4 2 2
   = Some (fst r =? S_OK, snd r)).
Proof.
  split; [unfold UINT32_MAX; lia|]. split; [unfold UINT32_MAX; lia|].
  apply (converters_return_true_except_RGB32 MFCopyImage_mismatch 3%nat surface_blank 0 8
           frame_yuy2_white 0 4 2 2); unfold UINT32_MAX; cbn; lia.
Defined.

(** C10, as stated, fails: with width 4294967295 and height 1 the counter of
    the YUY2 scan-line loop steps from 4294967294 to 0 and the loop never
    leaves, so the converter does not return true. *)
Lemma yuy2_width_UINT32_MAX_counterexample :
  (forall fuel,
     FormatConvertorYUY2.convert fuel surface_blank 0 0 (fun _ => 0) 0 0
                                 UINT32_MAX 1 = None) /\
  ~ (exists fuel d',
       FormatConvertorYUY2.convert fuel surface_blank 0 0 (fun _ => 0) 0 0
                                   UINT32_MAX 1 = Some (true, d')).
Proof.
  assert (H : forall fuel,
             FormatConvertorYUY2.convert fuel surface_blank 0 0 (fun _ => 0) 0 0
                                         UINT32_MAX 1 = None).
  { intros fuel. unfold FormatConvertorYUY2.convert.
    destruct fuel as [|fuel]; [reflexivity|].
    cbn [for_u32]. change (0 <? 1) with true. cbv iota.
    unfold FormatConvertorYUY2.row.
    rewrite for_u32_diverges; [reflexivity| |unfold UINT32_MAX; lia|reflexivity].
    intros x s. eexists. reflexivity. }
  split; [exact H|].
  intros (fuel & d' & E). rewrite H in E. discriminate E.
Qed.

(** * Further properties of the code *)

(** ** The format table *)

Lemma GUID_eqb_eq (a b : GUID) : GUID_eqb a b = true <-> a = b.
Proof.
  unfold GUID_eqb. rewrite !andb_true_iff, !Z.eqb_eq.
  destruct a, b; cbn. split.
  - intros [[[-> ->] ->] ->]. reflexivity.
  - intros E. inversion E. auto.
Qed.

(** X1. The lookups in the static format table are exact:
    findConversionFunction returns a converter for a subtype exactly when the
    table holds that pair; isFormatSupported answers true exactly for the
    subtypes that getSupportedFormats lists, and exactly for those for which
    findConversionFunction returns a non-null converter. *)
Theorem format_lookup_exact (subtype : GUID) :
  (forall f, findConversionFunction subtype = Some f <->
             In (subtype, f) formatConversions) /\
  (isFormatSupported subtype = true <-> In subtype getSupportedFormats) /\
  (isFormatSupported subtype = true <-> findConversionFunction subtype <> None).
Proof.
  assert (Hcases :
    forall g f, In (g, f) formatConversions <->
      (g = MFVideoFormat_RGB32 /\ f = RGB32) \/ (g = MFVideoFormat_RGB24 /\ f = RGB24) \/
      (g = MFVideoFormat_YUY2 /\ f = YUY2) \/ (g = MFVideoFormat_NV12 /\ f = NV12)).
  { intros g f. unfold formatConversions. cbn [In]. split.
    - intros [E|[E|[E|[E|[]]]]]; inversion E; auto.
    - intros [[-> ->]|[[-> ->]|[[-> ->]|[-> ->]]]]; auto. }
  assert (Hfirst : forall P : Format -> Prop,
             (forall f, P f <->
                (subtype = MFVideoFormat_RGB32 /\ f = RGB32) \/
                (subtype = MFVideoFormat_RGB24 /\ f = RGB24) \/
                (subtype = MFVideoFormat_YUY2 /\ f = YUY2) \/
                (subtype = MFVideoFormat_NV12 /\ f = NV12)) ->
             forall f, P f <-> In (subtype, f) formatConversions).
  { intros P HP f. rewrite HP, Hcases. reflexivity. }
  split; [apply Hfirst|]; clear Hfirst Hcases.
  all: unfold findConversionFunction, isFormatSupported, getSupportedFormats,
         formatConversions; cbn [find map fst snd In].
  all: destruct (GUID_eqb MFVideoFormat_RGB32 subtype) eqn:E1;
    [apply GUID_eqb_eq in E1; subst subtype|].
  all: try destruct (GUID_eqb MFVideoFormat_RGB24 subtype) eqn:E2;
    try (apply GUID_eqb_eq in E2; subst subtype).
  all: try destruct (GUID_eqb MFVideoFormat_YUY2 subtype) eqn:E3;
    try (apply GUID_eqb_eq in E3; subst subtype).
  all: try destruct (GUID_eqb MFVideoFormat_NV12 subtype) eqn:E4;
    try (apply GUID_eqb_eq in E4; subst subtype).
  all: try (assert (N1 : MFVideoFormat_RGB32 <> subtype)
              by (intros E; apply GUID_eqb_eq in E; congruence);
            assert (N2 : MFVideoFormat_RGB24 <> subtype)
              by (intros E; apply GUID_eqb_eq in E; congruence);
            assert (N3 : MFVideoFormat_YUY2 <> subtype)
              by (intros E; apply GUID_eqb_eq in E; congruence);
            assert (N4 : MFVideoFormat_NV12 <> subtype)
              by (intros E; apply GUID_eqb_eq in E; congruence)).
  all: try (intros f; split;
            [ intros E; inversion E; subst; auto 6
            | intros [[E ?]|[[E ?]|[[E ?]|[E ?]]]]; subst;
              first [reflexivity | discriminate E | contradiction] ]).
  all: split; split; auto 6; try discriminate.
  all: try (intros H; exfalso; apply H; reflexivity).
  all: intros [E|[E|[E|[E|[]]]]]; subst; contradiction.
Qed.

(** ** Creating, destroying and resetting the device *)

(** X2. createDevice always returns, and returns true exactly when a device
    exists afterwards; with a device already present it returns true and
    changes nothing (no Direct3D call); when it creates one, the window handle
    and the new device are recorded and the Direct3D object exists; it never
    touches the swap chain, the converter or the format tag. *)
Theorem createDevice_makes_or_keeps_device (env : Backend) (hwnd : Z) (w : World) :
  exists r w',
    createDevice env hwnd w = Returns r w' /\
    (r = true <-> mDevice (dev w') <> None) /\
    (mDevice (dev w) <> None -> r = true /\ w' = w) /\
    (mDevice (dev w) = None -> r = true ->
     mWindow (dev w') = hwnd /\
     mDevice (dev w') = Some (snd (r_CreateDevice env)) /\ mD3D (dev w') <> None) /\
    mSwapChain (dev w') = mSwapChain (dev w) /\
    mRGB32Converter (dev w') = mRGB32Converter (dev w) /\
    mFormat (dev w') = mFormat (dev w).
Proof.
  destruct w as [d tr sf]. destruct d as [? d3d dv chain ? ? ? ? ? ? ? ?].
  destruct d3d, dv, chain.
  all: unfold_device; cbn.
  all: split_all.
  all: do 2 eexists; split; [reflexivity|]; cbn.
  all: repeat split; try reflexivity; try discriminate; try congruence.
  all: try (intros; exfalso; contradict_flags; fail).
  all: intros; try congruence.
  all: destruct (r_Direct3DCreate9 env); cbn in *; congruence.
Qed.

(** X3. DestroyDevice leaves swap chain, device and Direct3D object null,
    releasing exactly the ones that were non-null, in that order; converter,
    format tag and surface memory are untouched, and a second DestroyDevice
    does nothing. *)
Theorem DestroyDevice_releases_all (w : World) :
  exists w',
    DestroyDevice w = Returns tt w' /\
    mSwapChain (dev w') = None /\ mDevice (dev w') = None /\ mD3D (dev w') = None /\
    trace w' = trace w
               ++ (if is_null (mSwapChain (dev w)) then [] else [Ev_Release_SwapChain])
               ++ (if is_null (mDevice (dev w)) then [] else [Ev_Release_Device])
               ++ (if is_null (mD3D (dev w)) then [] else [Ev_Release_D3D]) /\
    mRGB32Converter (dev w') = mRGB32Converter (dev w) /\
    mFormat (dev w') = mFormat (dev w) /\
    surface w' = surface w /\
    DestroyDevice w' = Returns tt w'.
Proof.
  destruct w as [d tr sf]. destruct d as [? d3d dv chain ? ? ? ? ? ? ? ?].
  destruct d3d, dv, chain.
  all: unfold_device; cbn.
  all: eexists; split; [reflexivity|]; cbn.
  all: rewrite <- ?app_assoc, ?app_nil_r; cbn.
  all: repeat split; reflexivity.
Qed.

(** X4. resetDevice always returns; when it returns true a device exists, and
    if a format tag was recorded a swap chain exists too; it never changes the
    converter, the frame size, the stride, the pixel aspect ratio, the format
    tag or the surface memory. *)
Theorem resetDevice_success_is_ready (env : Backend) (w : World) :
  exists r w',
    resetDevice env w = Returns r w' /\
    (r = true -> mDevice (dev w') <> None) /\
    (r = true -> mFormat (dev w) <> D3DFMT_UNKNOWN -> mSwapChain (dev w') <> None) /\
    mRGB32Converter (dev w') = mRGB32Converter (dev w) /\
    mWidth (dev w') = mWidth (dev w) /\ mHeight (dev w') = mHeight (dev w) /\
    mDefaultStride (dev w') = mDefaultStride (dev w) /\
    mAspect (dev w') = mAspect (dev w) /\ mFormat (dev w') = mFormat (dev w) /\
    surface w' = surface w.
Proof.
  destruct w as [d tr sf]. destruct d as [? d3d dv chain ? ? ? ? ? ? ? ?].
  destruct d3d, dv, chain.
  all: unfold_device; cbn.
  all: split_all.
  all: do 2 eexists; split; [reflexivity|]; cbn.
  all: repeat split; try reflexivity; try discriminate; try congruence.
  all: try (intros; exfalso; contradict_flags; fail).
Qed.

(** ** Selecting the video type *)

Lemma isFormatSupported_find (subtype : GUID) :
  isFormatSupported subtype = true <-> findConversionFunction subtype <> None.
Proof.
  unfold isFormatSupported, findConversionFunction.
  destruct (find _ formatConversions); split; congruence.
Qed.

(** X5. setVideoType with a subtype that the format table does not hold
    returns false and changes only the converter, which becomes null (a
    converter selected earlier is lost); DrawFrame on the resulting device
    returns false and does nothing. *)
Theorem setVideoType_unsupported_clears_converter
        (env : Backend) (fuel : nat) (pBuffer : MediaBuffer) (pType : MediaType)
        (subtype : GUID) (w : World) :
  MF_MT_SUBTYPE pType = Some subtype ->
  isFormatSupported subtype = false ->
  let w' := {| dev := set_mRGB32Converter None (dev w);
               trace := trace w; surface := surface w |} in
  setVideoType env pType w = Returns false w' /\
  DrawFrame env fuel pBuffer w' = Returns false w'.
Proof.
  intros Hsub Hsup w'. subst w'.
  assert (Hfind : findConversionFunction subtype = None).
  { destruct (findConversionFunction subtype) eqn:E; [|reflexivity].
    assert (isFormatSupported subtype = true)
      by (apply isFormatSupported_find; congruence).
    congruence. }
  split.
  - unfold setVideoType. rewrite Hsub, Hfind. reflexivity.
  - unfold DrawFrame, bind, this. reflexivity.
Qed.

Lemma setVideoType_unsupported_clears_converter_witness :
  let w' := {| dev := set_mRGB32Converter None (dev world_ready);
               trace := trace world_ready; surface := surface world_ready |} in
  setVideoType backend_healthy (attributes (native_720p MFVideoFormat_MJPG (30, 1)))
               world_ready = Returns false w' /\
  DrawFrame backend_healthy 1 buffer_linear w' = Returns false w'.
Proof.
  apply (setVideoType_unsupported_clears_converter backend_healthy 1 buffer_linear
           (attributes (native_720p MFVideoFormat_MJPG (30, 1)))
           MFVideoFormat_MJPG world_ready); reflexivity.
Defined.

Lemma setVideoType_true_inv (env : Backend) (pType : MediaType) (w w' : World) :
  setVideoType env pType w = Returns true w' ->
  exists subtype f wd ht stride,
    MF_MT_SUBTYPE pType = Some subtype /\
    findConversionFunction subtype = Some f /\
    MF_MT_FRAME_SIZE pType = Some (wd, ht) /\
    GetDefaultStride env pType = Some stride /\
    mRGB32Converter (dev w') = Some f /\
    mFormat (dev w') = Data1 subtype /\
    mWidth (dev w') = wd /\ mHeight (dev w') = ht /\
    mDefaultStride (dev w') = stride /\
    mDevice (dev w') = mDevice (dev w) /\ mDevice (dev w) <> None /\
    r_CreateAdditionalSwapChain env = (S_OK, snd (r_CreateAdditionalSwapChain env)) /\
    mSwapChain (dev w') = Some (snd (r_CreateAdditionalSwapChain env)) /\
    mDestRect (dev w') = destination_for (dev w') (r_GetClientRect env).
Proof.
  destruct w as [d tr sf]. destruct d as [? d3d dv chain ? ? ? ? ? ? ? ?].
  unfold setVideoType.
  destruct (MF_MT_SUBTYPE pType) as [subtype|]; [|discriminate].
  unfold_device. cbn.
  destruct (findConversionFunction subtype) as [f|] eqn:Ef; cbn; [|discriminate].
  destruct (MF_MT_FRAME_SIZE pType) as [[wd ht]|] eqn:Es; [|discriminate].
  destruct (GetDefaultStride env pType) as [stride|] eqn:Eg; [|discriminate].
  destruct (r_CreateAdditionalSwapChain env) as [hr c] eqn:Ec.
  destruct chain, dv; cbn.
  all: split_all.
  all: intros H; inversion H; subst; clear H.
  all: exists subtype, f, wd, ht, stride; cbn.
  all: assert (hr = S_OK) by contradict_flags; subst hr.
  all: unfold destination_for; cbn.
  all: repeat split; try reflexivity; try discriminate; assumption.
Qed.

(** X6. When setVideoType returns true, the media type had a supported
    subtype, a frame size and a stride, and the device records that converter,
    the subtype's format tag, the frame size and the stride; the device
    existed before and is unchanged, CreateAdditionalSwapChain answered S_OK
    and its swap chain is stored, and the destination rectangle is the letter
    box of the recorded geometry in the current client area. *)
Theorem setVideoType_success_is_ready (env : Backend) (pType : MediaType) (w w' : World) :
  setVideoType env pType w = Returns true w' ->
  exists subtype f wd ht stride,
    MF_MT_SUBTYPE pType = Some subtype /\
    findConversionFunction subtype = Some f /\
    MF_MT_FRAME_SIZE pType = Some (wd, ht) /\
    GetDefaultStride env pType = Some stride /\
    mRGB32Converter (dev w') = Some f /\
    mFormat (dev w') = Data1 subtype /\
    mWidth (dev w') = wd /\ mHeight (dev w') = ht /\
    mDefaultStride (dev w') = stride /\
    mDevice (dev w') = mDevice (dev w) /\ mDevice (dev w) <> None /\
    r_CreateAdditionalSwapChain env = (S_OK, snd (r_CreateAdditionalSwapChain env)) /\
    mSwapChain (dev w') = Some (snd (r_CreateAdditionalSwapChain env)) /\
    mDestRect (dev w') = destination_for (dev w') (r_GetClientRect env).
Proof. apply setVideoType_true_inv. Qed.

Lemma setVideoType_success_is_ready_witness :
  exists w',
    setVideoType backend_healthy mediatype_rgb32_640x480 world_created
    = Returns true w' /\
    exists subtype f wd ht stride,
      MF_MT_SUBTYPE mediatype_rgb32_640x480 = Some subtype /\
      findConversionFunction subtype = Some f /\
      MF_MT_FRAME_SIZE mediatype_rgb32_640x480 = Some (wd, ht) /\
      GetDefaultStride backend_healthy mediatype_rgb32_640x480 = Some stride /\
      mRGB32Converter (dev w') = Some f /\
      mFormat (dev w') = Data1 subtype /\
      mWidth (dev w') = wd /\ mHeight (dev w') = ht /\
      mDefaultStride (dev w') = stride /\
      mDevice (dev w') = mDevice (dev world_created) /\
      mDevice (dev world_created) <> None /\
      r_CreateAdditionalSwapChain backend_healthy
      = (S_OK, snd (r_CreateAdditionalSwapChain backend_healthy)) /\
      mSwapChain (dev w') = Some (snd (r_CreateAdditionalSwapChain backend_healthy)) /\
      mDestRect (dev w') = destination_for (dev w') (r_GetClientRect backend_healthy).
Proof.
  eexists. split; [vm_compute; reflexivity|].
  eapply (setVideoType_success_is_ready backend_healthy mediatype_rgb32_640x480
            world_created).
  vm_compute. reflexivity.
Defined.

(** X7. setVideoType on a DrawDevice that has no Direct3D device, given a
    media type with a supported subtype, a frame size and a stride, calls
    CreateAdditionalSwapChain through the null device pointer:
    createSwapChains does not test mDevice. *)
Theorem setVideoType_without_device (env : Backend) (pType : MediaType)
        (subtype : GUID) (wd ht stride : Z) (w : World) :
  mDevice (dev w) = None ->
  MF_MT_SUBTYPE pType = Some subtype ->
  isFormatSupported subtype = true ->
  MF_MT_FRAME_SIZE pType = Some (wd, ht) ->
  GetDefaultStride env pType = Some stride ->
  exists w', setVideoType env pType w = NullDeref w'.
Proof.
  intros Hdev Hsub Hsup Hsize Hstride.
  assert (Hfind : findConversionFunction subtype <> None)
    by (apply isFormatSupported_find; exact Hsup).
  destruct w as [d tr sf]. destruct d as [? d3d dv chain ? ? ? ? ? ? ? ?].
  cbn in Hdev. subst dv.
  unfold setVideoType. rewrite Hsub, Hsize, Hstride.
  destruct (findConversionFunction subtype) as [f|]; [|congruence].
  unfold_device. cbn. destruct chain; cbn; eexists; reflexivity.
Qed.

Lemma setVideoType_without_device_witness :
  exists w', setVideoType backend_healthy mediatype_rgb32_640x480 world_new
             = NullDeref w'.
Proof.
  apply (setVideoType_without_device backend_healthy mediatype_rgb32_640x480
           MFVideoFormat_RGB32 640 480 2560 world_new); reflexivity.
Defined.

(** ** Drawing a frame *)

(** X8. The drawing part of DrawFrame (from the swap-chain GetBackBuffer to
    the end), when it returns, has only appended calls to the trace and left
    the device members unchanged; Present is called exactly when the seven
    tested steps (both GetBackBuffer calls, LockRect, the buffer lock,
    UnlockRect, ColorFill, StretchRect) all succeed, and the result is true
    exactly when they all succeed and Present answers S_OK; the result of the
    conversion has no part in either. *)
Theorem DrawFrame_present_result (env : Backend) (fuel : nat) (pBuffer : MediaBuffer)
        (w w' : World) (r : bool) :
  DrawFrame_present env fuel pBuffer w = Returns r w' ->
  exists evs,
    trace w' = trace w ++ evs /\
    dev w' = dev w /\
    existsb is_Ev_Present evs = checked_steps_succeed env pBuffer (dev w) /\
    r = checked_steps_succeed env pBuffer (dev w) && (r_Present env =? S_OK).
Proof.
  destruct w as [d tr sf].
  unfold DrawFrame_present, leave, run_convert, checked_steps_succeed.
  unfold_monad. cbn.
  split_all.
  all: intros H; inversion H; subst; clear H; cbn.
  all: rewrite <- ?app_assoc; cbn.
  all: eexists; split; [first [reflexivity | symmetry; apply app_nil_r]|].
  all: cbn; rewrite ?andb_false_r; cbn.
  all: repeat split; try reflexivity.
Qed.

Lemma DrawFrame_present_result_witness :
  exists r w',
    DrawFrame_present backend_healthy 1 buffer_linear world_ready = Returns r w' /\
    exists evs,
      trace w' = trace world_ready ++ evs /\
      dev w' = dev world_ready /\
      existsb is_Ev_Present evs
      = checked_steps_succeed backend_healthy buffer_linear (dev world_ready) /\
      r = checked_steps_succeed backend_healthy buffer_linear (dev world_ready)
          && (r_Present backend_healthy =? S_OK).
Proof.
  eexists. eexists. split; [vm_compute; reflexivity|].
  eapply (DrawFrame_present_result backend_healthy 1 buffer_linear world_ready).
  vm_compute. reflexivity.
Defined.




(** X10. When the swap-chain back buffer was obtained and LockRect succeeded
    but the media buffer cannot be locked (LockBuffer returns null), the
    drawing part of DrawFrame returns false after GetBackBuffer, LockRect and
    the buffer lock attempt, without calling UnlockRect or Present: the
    surface stays locked. *)
Theorem DrawFrame_present_buffer_lock_failure (env : Backend) (fuel : nat)
        (pBuffer : MediaBuffer) (w : World) :
  mSwapChain (dev w) <> None ->
  FAILED (r_SwapChain_GetBackBuffer env) = false ->
  FAILED (fst (r_LockRect env)) = false ->
  fst (VideoBufferLock.LockBuffer (VideoBufferLock.create pBuffer)
                                  (mDefaultStride (dev w)) (mHeight (dev w))) = nullptr ->
  exists evs,
    DrawFrame_present env fuel pBuffer w
    = Returns false (set_trace (trace w ++ Ev_SwapChain_GetBackBuffer :: Ev_LockRect
                                        :: lock_event pBuffer :: evs) w) /\
    existsb is_Ev_UnlockRect evs = false /\
    existsb is_Ev_Present evs = false.
Proof.
  destruct w as [d tr sf]. cbn [dev]. intros Hchain Hback Hrect Hnull.
  unfold DrawFrame_present, leave, run_convert, lock_event, set_trace.
  unfold_monad. cbn.
  destruct (mSwapChain d); [|congruence].
  rewrite Hback. cbn.
  destruct (r_LockRect env) as [hr [pBits Pitch]]. cbn in Hrect. rewrite Hrect. cbn.
  destruct (VideoBufferLock.LockBuffer _ _ _) as [scanLine buffer]. cbn in Hnull.
  subst scanLine. cbn.
  destruct (snd (VideoBufferLock.unlock buffer)) as [[|]|]; cbn.
  all: rewrite <- ?app_assoc; cbn.
  all: eexists; split; [reflexivity|]; split; reflexivity.
Qed.

Lemma DrawFrame_present_buffer_lock_failure_witness :
  exists evs,
    DrawFrame_present backend_healthy 1 buffer_lock_fails world_ready
    = Returns false
        (set_trace (trace world_ready ++ Ev_SwapChain_GetBackBuffer :: Ev_LockRect
                      :: lock_event buffer_lock_fails :: evs) world_ready) /\
    existsb is_Ev_UnlockRect evs = false /\
    existsb is_Ev_Present evs = false.
Proof.
  apply (DrawFrame_present_buffer_lock_failure backend_healthy 1 buffer_lock_fails
           world_ready).
  - vm_compute. discriminate.
  - reflexivity.
  - reflexivity.
  - reflexivity.
Defined.

(** X11. On a device with converter, Direct3D device and swap chain, when
    TestCooperativeLevel answers a status other than D3D_OK, D3DERR_DEVICELOST
    and D3DERR_DEVICENOTRESET, DrawFrame returns false after that single call:
    no reset, no lock, no drawing, and no member changes. *)
Theorem DrawFrame_unrecoverable_status (env : Backend) (fuel : nat)
        (pBuffer : MediaBuffer) (w : World) :
  mRGB32Converter (dev w) <> None ->
  mDevice (dev w) <> None ->
  mSwapChain (dev w) <> None ->
  r_TestCooperativeLevel env <> D3D_OK ->
  r_TestCooperativeLevel env <> D3DERR_DEVICELOST ->
  r_TestCooperativeLevel env <> D3DERR_DEVICENOTRESET ->
  DrawFrame env fuel pBuffer w
  = Returns false (set_trace (trace w ++ [Ev_TestCooperativeLevel]) w).
Proof.
  intros Hc Hd Hs H1 H2 H3.
  rewrite DrawFrame_ready by assumption.
  unfold TestCooperativeLevel. unfold_monad.
  destruct (mDevice (dev w)); [cbn|congruence].
  apply Z.eqb_neq in H1, H2, H3. rewrite H1, H2, H3. reflexivity.
Qed.

Lemma DrawFrame_unrecoverable_status_witness :
  DrawFrame (with_TestCooperativeLevel E_FAIL backend_healthy) 1 buffer_linear
            world_ready
  = Returns false (set_trace (trace world_ready ++ [Ev_TestCooperativeLevel])
                             world_ready).
Proof.
  apply (DrawFrame_unrecoverable_status
           (with_TestCooperativeLevel E_FAIL backend_healthy) 1 buffer_linear
           world_ready); vm_compute; discriminate.
Defined.




Lemma resetDevice_keeps_video_type (env : Backend) (w w' : World) (r : bool) :
  resetDevice env w = Returns r w' -> video_type (dev w') = video_type (dev w).
Proof.
  destruct w as [d tr sf]. destruct d as [? d3d dv chain ? ? ? ? ? ? ? ?].
  destruct d3d, dv, chain.
  all: unfold_device; cbn.
  all: split_all.
  all: intros H; inversion H; subst; reflexivity.
Qed.

(** X13. DrawFrame, when it returns, leaves the recorded video type
    (converter, format tag, frame size, stride, pixel aspect ratio, interlace
    mode) as it was; when the device status is D3D_OK it changes no member of
    the device at all. *)
Theorem DrawFrame_keeps_video_type (env : Backend) (fuel : nat)
        (pBuffer : MediaBuffer) (w w' : World) (r : bool) :
  DrawFrame env fuel pBuffer w = Returns r w' ->
  video_type (dev w') = video_type (dev w) /\
  (r_TestCooperativeLevel env = D3D_OK -> dev w' = dev w).
Proof.
  unfold DrawFrame. unfold bind at 1. unfold this.
  destruct (mRGB32Converter (dev w)) as [f|] eqn:Ef;
    [|unfold ret; intros H; inversion H; subst; split; reflexivity].
  destruct (is_null (mDevice (dev w)) || is_null (mSwapChain (dev w))) eqn:En;
    [unfold ret; intros H; inversion H; subst; split; reflexivity|].
  unfold bind.
  destruct (TestCooperativeLevel env w) as [ok w1| |] eqn:Et; try discriminate.
  assert (Hk : video_type (dev w1) = video_type (dev w) /\
               (r_TestCooperativeLevel env = D3D_OK -> dev w1 = dev w)).
  { revert Et. unfold TestCooperativeLevel. unfold bind at 1. unfold this.
    destruct (is_null (mDevice (dev w)));
      [unfold ret; intros H; inversion H; subst; split; reflexivity|].
    unfold bind, call.
    destruct (Z.eqb_spec (r_TestCooperativeLevel env) D3D_OK) as [E|E];
      [unfold ret; intros H; inversion H; subst; split; reflexivity|].
    destruct ((r_TestCooperativeLevel env =? D3DERR_DEVICELOST)
              || (r_TestCooperativeLevel env =? D3DERR_DEVICENOTRESET));
      [|unfold ret; intros H; inversion H; subst; split; [reflexivity|congruence]].
    intros H. apply resetDevice_keeps_video_type in H. split; [exact H|congruence]. }
  destruct Hk as [Hv Hd]. destruct ok; cbn [negb].
  - intros H. apply DrawFrame_present_keeps_device in H. rewrite H.
    split; [exact Hv|exact Hd].
  - unfold ret. intros H. inversion H; subst. split; [exact Hv|exact Hd].
Qed.

Lemma DrawFrame_keeps_video_type_witness :
  exists r w',
    DrawFrame (with_TestCooperativeLevel D3DERR_DEVICELOST
                 (with_Reset E_FAIL backend_healthy)) 1 buffer_linear world_ready
    = Returns r w' /\
    video_type (dev w') = video_type (dev world_ready) /\
    (r_TestCooperativeLevel
       (with_TestCooperativeLevel D3DERR_DEVICELOST
          (with_Reset E_FAIL backend_healthy)) = D3D_OK ->
     dev w' = dev world_ready).
Proof.
  eexists. eexists. split; [vm_compute; reflexivity|].
  eapply (DrawFrame_keeps_video_type
            (with_TestCooperativeLevel D3DERR_DEVICELOST
               (with_Reset E_FAIL backend_healthy)) 1 buffer_linear world_ready).
  vm_compute. reflexivity.
Defined.

(** ** Locking and unlocking a buffer *)

(** X14. After LockBuffer, a lock object that is not locked returned null,
    reports stride 0, and its unlock does nothing; a locked one is unlocked
    through Unlock2D exactly when it holds an IMF2DBuffer and through Unlock
    otherwise; after unlock the object is not locked, a second unlock does
    nothing, and the stride is still reported; LockBuffer does not change the
    buffer pointers. *)
Theorem LockBuffer_unlock_protocol (l : VideoBufferLock.t) (stride height : Z) :
  let r := VideoBufferLock.LockBuffer l stride height in
  let l1 := snd r in
  let l2 := fst (VideoBufferLock.unlock l1) in
  (VideoBufferLock.mLocked l1 = false ->
   fst r = nullptr /\ VideoBufferLock.getStride l1 = 0 /\
   VideoBufferLock.unlock l1 = (l1, None)) /\
  (VideoBufferLock.mLocked l1 = true ->
   snd (VideoBufferLock.unlock l1) = Some (VideoBufferLock.m2DBuffer l)) /\
  VideoBufferLock.mLocked l2 = false /\
  VideoBufferLock.unlock l2 = (l2, None) /\
  VideoBufferLock.getStride l2 = VideoBufferLock.getStride l1 /\
  VideoBufferLock.m2DBuffer l1 = VideoBufferLock.m2DBuffer l /\
  VideoBufferLock.mBuffer l1 = VideoBufferLock.mBuffer l.
Proof.
  cbv zeta. unfold VideoBufferLock.LockBuffer, VideoBufferLock.unlock,
    VideoBufferLock.getStride.
  cbn [VideoBufferLock.m2DBuffer VideoBufferLock.mBuffer VideoBufferLock.mLocked
       VideoBufferLock.mActualStride].
  destruct (VideoBufferLock.m2DBuffer l) eqn:E2D.
  - destruct (Buf_Lock2D (VideoBufferLock.mBuffer l)) as [hr [scanLine pitch]].
    destruct (FAILED hr); cbn; rewrite ?E2D; cbn; repeat split; congruence.
  - destruct (Buf_Lock (VideoBufferLock.mBuffer l)) as [hr data].
    destruct (FAILED hr); cbn; rewrite ?E2D; cbn; [repeat split; congruence|].
    destruct (u32 stride <? 0); cbn; rewrite ?E2D; cbn; repeat split; congruence.
Qed.

(** X15. When LockBuffer locked a buffer created from a media buffer: with
    IMF2DBuffer it returns the scan line and reports the pitch that Lock2D
    gave, whatever default stride was passed; without it the reported stride
    is the caller's 32-bit default stride read back as a signed long. *)
Theorem LockBuffer_stride_in_effect (pBuffer : MediaBuffer) (stride height : Z) :
  let r := VideoBufferLock.LockBuffer (VideoBufferLock.create pBuffer) stride height in
  VideoBufferLock.mLocked (snd r) = true ->
  if Buf_has_IMF2DBuffer pBuffer
  then fst r = fst (snd (Buf_Lock2D pBuffer)) /\
       VideoBufferLock.getStride (snd r) = s32 (snd (snd (Buf_Lock2D pBuffer)))
  else VideoBufferLock.getStride (snd r) = s32 (u32 stride).
Proof.
  cbv zeta. unfold VideoBufferLock.LockBuffer, VideoBufferLock.create,
    VideoBufferLock.getStride.
  cbn [VideoBufferLock.m2DBuffer VideoBufferLock.mBuffer].
  destruct (Buf_has_IMF2DBuffer pBuffer).
  - destruct (Buf_Lock2D pBuffer) as [hr [scanLine pitch]].
    destruct (FAILED hr); cbn; [discriminate|]. intros _. split; reflexivity.
  - destruct (Buf_Lock pBuffer) as [hr data].
    destruct (FAILED hr); cbn; [discriminate|].
    pose proof (u32_range stride).
    destruct (Z.ltb_spec (u32 stride) 0); [lia|]. cbn. intros _. reflexivity.
Qed.

Lemma LockBuffer_stride_in_effect_witness :
  let r := VideoBufferLock.LockBuffer (VideoBufferLock.create buffer_linear) 2560 480 in
  VideoBufferLock.mLocked (snd r) = true /\
  (if Buf_has_IMF2DBuffer buffer_linear
   then fst r = fst (snd (Buf_Lock2D buffer_linear)) /\
        VideoBufferLock.getStride (snd r) = s32 (snd (snd (Buf_Lock2D buffer_linear)))
   else VideoBufferLock.getStride (snd r) = s32 (u32 2560)).
Proof.
  split; [reflexivity|].
  apply (LockBuffer_stride_in_effect buffer_linear 2560 480). reflexivity.
Defined.

(** ** Letterboxing and aspect correction in general *)

(** On sizes that fit sixteen bits [MulDiv] is the quotient rounded to the
    nearest integer, and nothing overflows. *)
Lemma MulDiv_small (a b c : Z) :
  0 <= a <= 32767 -> 0 <= b <= 32767 -> 0 < c <= 32767 ->
  MulDiv a b c = (a * b + c / 2) / c /\ 0 <= (a * b + c / 2) / c <= 2147483647.
Proof.
  intros Ha Hb Hc.
  assert (Hp : 0 <= a * b <= 32767 * 32767) by nia.
  assert (Hh : 0 <= c / 2 < c).
  { split; [apply Z.div_pos; lia | apply Z.div_lt_upper_bound; lia]. }
  assert (Hq : 0 <= (a * b + c / 2) / c <= 2147483647).
  { split; [apply Z.div_pos; lia|].
    apply Z.div_le_upper_bound; [lia|]. nia. }
  split; [|exact Hq].
  unfold MulDiv.
  destruct (Z.eqb_spec c 0); [lia|].
  destruct (Z.ltb_spec c 0); [lia|].
  rewrite Z.abs_eq by lia.
  destruct (Z.leb_spec 0 (a * b)); [|lia].
  rewrite (Z.quot_div_nonneg c 2) by lia.
  rewrite Z.quot_div_nonneg by lia.
  destruct (Z.ltb_spec 2147483647 ((a * b + c / 2) / c)); [lia|].
  destruct (Z.ltb_spec ((a * b + c / 2) / c) (-2147483647)); [lia|].
  reflexivity.
Qed.

Lemma rounded_quotient (p c : Z) :
  0 <= p -> 0 < c ->
  let q := (p + c / 2) / c in
  2 * q * c <= 2 * p + c /\ 2 * p < 2 * q * c + c + 1.
Proof.
  intros Hp Hc q. subst q.
  pose proof (Z.div_mod (p + c / 2) c ltac:(lia)) as E1.
  pose proof (Z.mod_pos_bound (p + c / 2) c Hc) as B1.
  pose proof (Z.div_mod c 2 ltac:(lia)) as E2.
  pose proof (Z.mod_pos_bound c 2 ltac:(lia)) as B2.
  nia.
Qed.

Lemma LetterBoxRect_inside (sl st sr sb dl dt dr db : Z) :
  0 <= sl -> sl < sr -> sr <= 32767 -> 0 <= st -> st < sb -> sb <= 32767 ->
  0 <= dl -> dl <= dr -> dr <= 32767 -> 0 <= dt -> dt <= db -> db <= 32767 ->
  let rcDst := mkRECT dl dt dr db in
  let rc := LetterBoxRect (mkRECT sl st sr sb) rcDst in
  left rcDst <= left rc /\ left rc <= right rc /\ right rc <= right rcDst /\
  top rcDst <= top rc /\ top rc <= bottom rc /\ bottom rc <= bottom rcDst /\
  (Width rc = Width rcDst \/ Height rc = Height rcDst) /\
  0 <= (right rcDst - right rc) - (left rc - left rcDst) <= 1 /\
  0 <= (bottom rcDst - bottom rc) - (top rc - top rcDst) <= 1.
Proof.
  intros Hsl Hsw Hsr Hst Hsh Hsb Hdl Hdw Hdr Hdt Hdh Hdb rcDst rc.
  subst rc rcDst. unfold LetterBoxRect, Width, Height, SetRect.
  cbn [left top right bottom].
  rewrite !(s32_small (sr - sl)), !(s32_small (sb - st)),
    !(s32_small (dr - dl)), !(s32_small (db - dt)) by lia.
  set (sw := sr - sl). set (sh := sb - st). set (dw := dr - dl). set (dh := db - dt).
  assert (Hsw' : 0 < sw <= 32767) by (subst sw; lia).
  assert (Hsh' : 0 < sh <= 32767) by (subst sh; lia).
  assert (Hdw' : 0 <= dw <= 32767) by (subst dw; lia).
  assert (Hdh' : 0 <= dh <= 32767) by (subst dh; lia).
  destruct (MulDiv_small sw dh sh ltac:(lia) ltac:(lia) ltac:(lia)) as [-> _].
  destruct (MulDiv_small dh sw sh ltac:(lia) ltac:(lia) ltac:(lia)) as [-> _].
  destruct (MulDiv_small dw sh sw ltac:(lia) ltac:(lia) ltac:(lia)) as [-> HqH].
  replace (dh * sw) with (sw * dh) by lia.
  pose proof (rounded_quotient (sw * dh) sh ltac:(nia) ltac:(lia)) as HW.
  pose proof (rounded_quotient (dw * sh) sw ltac:(nia) ltac:(lia)) as HH.
  cbv zeta in HW, HH.
  set (qw := (sw * dh + sh / 2) / sh) in *.
  set (qh := (dw * sh + sw / 2) / sw) in *.
  assert (Hqw : 0 <= qw) by (subst qw; apply Z.div_pos; [pose proof (Z.div_pos sh 2); nia|lia]).
  destruct (Z.leb_spec qw dw) as [Hcol|Hrow].
  - (* column letter boxing *)
    rewrite (s32_small (dw - qw)), (s32_small (dh - dh)) by lia.
    rewrite Z.sub_diag. change (Z.quot 0 2) with 0.
    rewrite (Z.quot_div_nonneg (dw - qw) 2) by lia.
    pose proof (Z.div_mod (dw - qw) 2 ltac:(lia)) as E.
    pose proof (Z.mod_pos_bound (dw - qw) 2 ltac:(lia)) as B.
    set (m := (dw - qw) / 2) in *.
    rewrite (s32_small (dl + m)), (s32_small (dt + 0)) by (subst dw; lia).
    rewrite (s32_small (dl + m + qw)), (s32_small (dt + 0 + dh))
      by (subst dw dh; lia).
    cbn [left top right bottom].
    replace (dl + m + qw - (dl + m)) with qw by lia.
    replace (dt + 0 + dh - (dt + 0)) with dh by lia.
    rewrite (s32_small qw), (s32_small dh) by lia.
    subst dw dh. repeat split; lia.
  - (* row letter boxing *)
    assert (Hqh : qh <= dh) by nia.
    rewrite (s32_small (dw - dw)), (s32_small (dh - qh)) by lia.
    rewrite Z.sub_diag. change (Z.quot 0 2) with 0.
    rewrite (Z.quot_div_nonneg (dh - qh) 2) by lia.
    pose proof (Z.div_mod (dh - qh) 2 ltac:(lia)) as E.
    pose proof (Z.mod_pos_bound (dh - qh) 2 ltac:(lia)) as B.
    set (m := (dh - qh) / 2) in *.
    rewrite (s32_small (dl + 0)), (s32_small (dt + m)) by (subst dh; lia).
    rewrite (s32_small (dl + 0 + dw)), (s32_small (dt + m + qh))
      by (subst dw dh; lia).
    cbn [left top right bottom].
    replace (dl + 0 + dw - (dl + 0)) with dw by lia.
    replace (dt + m + qh - (dt + m)) with qh by lia.
    rewrite (s32_small dw), (s32_small qh) by lia.
    subst dw dh. repeat split; lia.
Qed.

(** X16. For a source rectangle of positive size and a destination rectangle,
    all coordinates in 0..32767, the rectangle LetterBoxRect returns lies
    inside the destination, has the full width or the full height of the
    destination, and is centred: opposite margins differ by at most one pixel. *)
Theorem LetterBoxRect_fits_centered (sl st sr sb dl dt dr db : Z) :
  0 <= sl -> sl < sr -> sr <= 32767 -> 0 <= st -> st < sb -> sb <= 32767 ->
  0 <= dl -> dl <= dr -> dr <= 32767 -> 0 <= dt -> dt <= db -> db <= 32767 ->
  let rcDst := mkRECT dl dt dr db in
  let rc := LetterBoxRect (mkRECT sl st sr sb) rcDst in
  left rcDst <= left rc /\ left rc <= right rc /\ right rc <= right rcDst /\
  top rcDst <= top rc /\ top rc <= bottom rc /\ bottom rc <= bottom rcDst /\
  (Width rc = Width rcDst \/ Height rc = Height rcDst) /\
  0 <= (right rcDst - right rc) - (left rc - left rcDst) <= 1 /\
  0 <= (bottom rcDst - bottom rc) - (top rc - top rcDst) <= 1.
Proof. apply LetterBoxRect_inside. Qed.

Lemma LetterBoxRect_fits_centered_witness :
  let rcDst := mkRECT 0 0 1920 1080 in
  let rc := LetterBoxRect (mkRECT 0 0 640 480) rcDst in
  left rcDst <= left rc /\ left rc <= right rc /\ right rc <= right rcDst /\
  top rcDst <= top rc /\ top rc <= bottom rc /\ bottom rc <= bottom rcDst /\
  (Width rc = Width rcDst \/ Height rc = Height rcDst) /\
  0 <= (right rcDst - right rc) - (left rc - left rcDst) <= 1 /\
  0 <= (bottom rcDst - bottom rc) - (top rc - top rcDst) <= 1.
Proof.
  apply (LetterBoxRect_fits_centered 0 0 640 480 0 0 1920 1080); lia.
Defined.

(** X17. When source and destination rectangle (coordinates in 0..32767,
    source of positive size) have the same shape, LetterBoxRect returns the
    destination rectangle itself. *)
Theorem LetterBoxRect_same_shape_fills (sl st sr sb dl dt dr db : Z) :
  0 <= sl -> sl < sr -> sr <= 32767 -> 0 <= st -> st < sb -> sb <= 32767 ->
  0 <= dl -> dl <= dr -> dr <= 32767 -> 0 <= dt -> dt <= db -> db <= 32767 ->
  (sr - sl) * (db - dt) = (sb - st) * (dr - dl) ->
  LetterBoxRect (mkRECT sl st sr sb) (mkRECT dl dt dr db) = mkRECT dl dt dr db.
Proof.
  intros Hsl Hsw Hsr Hst Hsh Hsb Hdl Hdw Hdr Hdt Hdh Hdb Hshape.
  unfold LetterBoxRect, Width, Height, SetRect. cbn [left top right bottom].
  rewrite !(s32_small (sr - sl)), !(s32_small (sb - st)),
    !(s32_small (dr - dl)), !(s32_small (db - dt)) by lia.
  rewrite (MulDiv_exact (sr - sl) (db - dt) (sb - st) (dr - dl)) by lia.
  destruct (Z.leb_spec (dr - dl) (dr - dl)) as [_|E]; [|lia].
  rewrite (MulDiv_exact (db - dt) (sr - sl) (sb - st) (dr - dl)) by lia.
  rewrite !Z.sub_diag. rewrite !(s32_small 0) by lia. change (Z.quot 0 2) with 0.
  rewrite !Z.add_0_r. rewrite (s32_small dl), (s32_small dt) by lia.
  rewrite !s32_small by lia. f_equal; lia.
Qed.

Lemma LetterBoxRect_same_shape_fills_witness :
  LetterBoxRect (mkRECT 0 0 640 480) (mkRECT 10 20 1290 980) = mkRECT 10 20 1290 980.
Proof.
  apply (LetterBoxRect_same_shape_fills 0 0 640 480 10 20 1290 980); lia.
Defined.

Lemma CorrectAspectRatio_stretch (l t r b n d : Z) :
  0 <= l -> l <= r -> r <= 32767 -> 0 <= t -> t <= b -> b <= 32767 ->
  0 < n <= 32767 -> 0 < d <= 32767 ->
  let rc := CorrectAspectRatio (mkRECT l t r b) (mkRatio n d) in
  left rc = 0 /\ top rc = 0 /\
  r - l <= right rc /\ b - t <= bottom rc /\
  (right rc = r - l \/ bottom rc = b - t) /\
  (n = d -> right rc = r - l /\ bottom rc = b - t).
Proof.
  intros Hl Hw Hr Ht Hh Hb Hn Hd rc. subst rc.
  unfold CorrectAspectRatio. cbn [left top right bottom Numerator Denominator].
  rewrite (s32_small (r - l)), (s32_small (b - t)), (s32_small n), (s32_small d) by lia.
  destruct (negb (n =? 1) || negb (d =? 1)); [|cbn; repeat split; lia].
  destruct (Z.ltb_spec d n) as [Hwide|Hnw].
  - cbn [left top right bottom].
    destruct (MulDiv_small (r - l) n d ltac:(lia) ltac:(lia) ltac:(lia)) as [-> _].
    pose proof (rounded_quotient ((r - l) * n) d ltac:(nia) ltac:(lia)) as HQ.
    cbv zeta in HQ.
    repeat split; try lia. nia.
  - destruct (Z.ltb_spec n d) as [Htall|Hnt].
    + cbn [left top right bottom].
      destruct (MulDiv_small (b - t) d n ltac:(lia) ltac:(lia) ltac:(lia)) as [-> _].
      pose proof (rounded_quotient ((b - t) * d) n ltac:(nia) ltac:(lia)) as HQ.
      cbv zeta in HQ.
      repeat split; try lia. nia.
    + cbn. repeat split; lia.
Qed.

(** X18. For a rectangle with coordinates in 0..32767 and a pixel aspect ratio
    with terms in 1..32767, CorrectAspectRatio returns a rectangle at the
    origin in which neither dimension is smaller than in the source and at
    least one is unchanged; equal terms leave the size unchanged. *)
Theorem CorrectAspectRatio_only_stretches (l t r b n d : Z) :
  0 <= l -> l <= r -> r <= 32767 -> 0 <= t -> t <= b -> b <= 32767 ->
  0 < n <= 32767 -> 0 < d <= 32767 ->
  let rc := CorrectAspectRatio (mkRECT l t r b) (mkRatio n d) in
  left rc = 0 /\ top rc = 0 /\
  r - l <= right rc /\ b - t <= bottom rc /\
  (right rc = r - l \/ bottom rc = b - t) /\
  (n = d -> right rc = r - l /\ bottom rc = b - t).
Proof. apply CorrectAspectRatio_stretch. Qed.

Lemma CorrectAspectRatio_only_stretches_witness :
  let rc := CorrectAspectRatio (mkRECT 0 0 720 486) (mkRatio 9 10) in
  left rc = 0 /\ top rc = 0 /\
  720 - 0 <= right rc /\ 486 - 0 <= bottom rc /\
  (right rc = 720 - 0 \/ bottom rc = 486 - 0) /\
  (9 = 10 -> right rc = 720 - 0 /\ bottom rc = 486 - 0).
Proof.
  apply (CorrectAspectRatio_only_stretches 0 0 720 486 9 10); lia.
Defined.

(** ** The destination rectangle *)

(** X19. UpdateDestinationRect asks for the client rectangle once and changes
    only mDestRect; for a frame size, aspect-ratio terms, corrected size and
    client rectangle within 0..32767 the new destination rectangle lies inside
    the client rectangle and has its full width or its full height. *)
Theorem UpdateDestinationRect_inside_client (env : Backend) (w : World) :
  let d := dev w in
  let rcClient := r_GetClientRect env in
  let rcSrc := CorrectAspectRatio (mkRECT 0 0 (mWidth d) (mHeight d)) (mAspect d) in
  0 < mWidth d <= 32767 -> 0 < mHeight d <= 32767 ->
  0 < Numerator (mAspect d) <= 32767 -> 0 < Denominator (mAspect d) <= 32767 ->
  right rcSrc <= 32767 -> bottom rcSrc <= 32767 ->
  0 <= left rcClient -> left rcClient <= right rcClient -> right rcClient <= 32767 ->
  0 <= top rcClient -> top rcClient <= bottom rcClient -> bottom rcClient <= 32767 ->
  exists w',
    UpdateDestinationRect env w = Returns tt w' /\
    trace w' = trace w ++ [Ev_GetClientRect] /\
    surface w' = surface w /\
    dev w' = set_mDestRect (mDestRect (dev w')) d /\
    let rc := mDestRect (dev w') in
    left rcClient <= left rc /\ left rc <= right rc /\ right rc <= right rcClient /\
    top rcClient <= top rc /\ top rc <= bottom rc /\ bottom rc <= bottom rcClient /\
    (Width rc = Width rcClient \/ Height rc = Height rcClient).
Proof.
  intros d rcClient rcSrc Hw Hh Hn Hd Hr Hb Hcl Hcw Hcr Hct Hch Hcb.
  destruct (mAspect d) as [n dn] eqn:Ea. cbn [Numerator Denominator] in Hn, Hd.
  pose proof (CorrectAspectRatio_stretch 0 0 (mWidth d) (mHeight d) n dn
                ltac:(lia) ltac:(lia) ltac:(lia) ltac:(lia) ltac:(lia) ltac:(lia)
                Hn Hd) as HC.
  cbv zeta in HC. fold rcSrc in HC.
  destruct HC as (Hl0 & Ht0 & Hwr & Hhb & _ & _).
  destruct rcSrc as [sl st sr sb] eqn:Es. cbn [left top right bottom] in *. subst sl st.
  destruct rcClient as [cl ct cr cb] eqn:Ec. cbn [left top right bottom] in *.
  pose proof (LetterBoxRect_inside 0 0 sr sb cl ct cr cb
                ltac:(lia) ltac:(lia) Hr ltac:(lia) ltac:(lia) Hb
                Hcl Hcw Hcr Hct Hch Hcb) as HL.
  cbv zeta in HL. cbn [left top right bottom] in HL.
  destruct HL as (H1 & H2 & H3 & H4 & H5 & H6 & H7 & _ & _).
  eexists.
  split; [unfold UpdateDestinationRect, bind, this, call, update; reflexivity|].
  cbn [trace surface dev]. split; [reflexivity|]. split; [reflexivity|].
  split; [destruct w as [[] ? ?]; reflexivity|].
  cbv zeta. unfold set_mDestRect. cbn [dev mDestRect].
  rewrite !s32_small by (fold d; lia). fold d. rewrite Ea.
  subst rcSrc rcClient. rewrite Es. rewrite Ec.
  repeat split; assumption.
Qed.

Lemma UpdateDestinationRect_inside_client_witness :
  let d := dev world_ready in
  let rcClient := r_GetClientRect backend_healthy in
  exists w',
    UpdateDestinationRect backend_healthy world_ready = Returns tt w' /\
    trace w' = trace world_ready ++ [Ev_GetClientRect] /\
    surface w' = surface world_ready /\
    dev w' = set_mDestRect (mDestRect (dev w')) d /\
    let rc := mDestRect (dev w') in
    left rcClient <= left rc /\ left rc <= right rc /\ right rc <= right rcClient /\
    top rcClient <= top rc /\ top rc <= bottom rc /\ bottom rc <= bottom rcClient /\
    (Width rc = Width rcClient \/ Height rc = Height rcClient).
Proof.
  apply (UpdateDestinationRect_inside_client backend_healthy world_ready);
    vm_compute; easy.
Defined.

(** ** The 24-bit RGB converter *)

Lemma lor_shifted_add (hi lo k : Z) :
  0 <= k -> 0 <= lo < 2 ^ k -> Z.lor (hi * 2 ^ k) lo = hi * 2 ^ k + lo.
Proof.
  intros Hk Hlo.
  assert (Hland : Z.land (hi * 2 ^ k) lo = 0).
  { apply Z.bits_inj'. intros n Hn. rewrite Z.land_spec, Z.bits_0.
    rewrite <- Z.shiftl_mul_pow2 by lia.
    destruct (Z.lt_ge_cases n k) as [Hlt|Hge].
    - rewrite Z.shiftl_spec_low by lia. reflexivity.
    - rewrite <- (Z.mod_small lo (2 ^ k)) by lia.
      rewrite Z.mod_pow2_bits_high by lia. apply andb_false_r. }
  rewrite <- Z.lxor_lor by exact Hland.
  symmetry. apply Z.add_nocarry_lxor. exact Hland.
Qed.

Lemma D3DCOLOR_XRGB_value (r g b : Z) :
  0 <= r <= 255 -> 0 <= g <= 255 -> 0 <= b <= 255 ->
  D3DCOLOR_XRGB r g b = 255 * 2 ^ 24 + r * 2 ^ 16 + g * 2 ^ 8 + b.
Proof.
  intros Hr Hg Hb. unfold D3DCOLOR_XRGB, D3DCOLOR_ARGB.
  rewrite !land_255, !Z.shiftl_mul_pow2 by lia.
  rewrite (Z.mod_small r), (Z.mod_small g), (Z.mod_small b) by lia.
  change (255 mod 256) with 255.
  rewrite (lor_shifted_add 255 (r * 2 ^ 16) 24) by lia.
  replace (255 * 2 ^ 24 + r * 2 ^ 16) with ((255 * 2 ^ 8 + r) * 2 ^ 16) by lia.
  rewrite (lor_shifted_add (255 * 2 ^ 8 + r) (g * 2 ^ 8) 16) by lia.
  replace ((255 * 2 ^ 8 + r) * 2 ^ 16 + g * 2 ^ 8)
    with ((255 * 2 ^ 16 + r * 2 ^ 8 + g) * 2 ^ 8) by lia.
  rewrite (lor_shifted_add (255 * 2 ^ 16 + r * 2 ^ 8 + g) b 8) by lia.
  rewrite u32_small by (unfold UINT32_MAX; lia). lia.
Qed.

(** A pixel written as [D3DCOLOR_XRGB] lies in memory as blue, green, red
    and the byte 255. *)
Lemma store32_XRGB (m : dmem) (a r g b : Z) :
  0 <= r <= 255 -> 0 <= g <= 255 -> 0 <= b <= 255 ->
  forall a',
    store32 m a (D3DCOLOR_XRGB r g b) a'
    = store8 (store8 (store8 (store8 m a (Some b)) (a + 1) (Some g))
                     (a + 2) (Some r)) (a + 3) (Some 255) a'.
Proof.
  intros Hr Hg Hb a'. unfold store32.
  rewrite (D3DCOLOR_XRGB_value r g b) by assumption.
  rewrite !land_255, !Z.shiftr_div_pow2 by lia.
  set (w := 255 * 2 ^ 24 + r * 2 ^ 16 + g * 2 ^ 8 + b).
  assert (E0 : w mod 256 = b) by (subst w; Z.div_mod_to_equations; lia).
  assert (E1 : w / 2 ^ 8 mod 256 = g) by (subst w; Z.div_mod_to_equations; lia).
  assert (E2 : w / 2 ^ 16 mod 256 = r) by (subst w; Z.div_mod_to_equations; lia).
  assert (E3 : w / 2 ^ 24 mod 256 = 255) by (subst w; Z.div_mod_to_equations; lia).
  rewrite E0, E1, E2, E3. reflexivity.
Qed.

Lemma RGB24_row_copies (fuel : nat) (src : smem) (pSrcPel pDestPel width : Z) (d : dmem) :
  0 <= width <= UINT32_MAX -> width < Z.of_nat fuel ->
  exists d',
    FormatConvertorRGB24.row fuel src pSrcPel pDestPel width d = Some d' /\
    (forall col, 0 <= col < width ->
       rgb24_pixel_copied d' (pDestPel + 4 * col) src (pSrcPel + 3 * col)) /\
    (forall a, a < pDestPel \/ pDestPel + 4 * width <= a -> d' a = d a).
Proof.
  intros Hw Hfuel. unfold FormatConvertorRGB24.row.
  apply (for_u32_rule
           (fun j d' =>
              (forall col, 0 <= col < j ->
                 rgb24_pixel_copied d' (pDestPel + 4 * col) src (pSrcPel + 3 * col)) /\
              (forall a, a < pDestPel \/ pDestPel + 4 * j <= a -> d' a = d a))
           width 1 width); try lia.
  - split; [intros; lia|reflexivity].
  - intros j dj Hj [Hpix Hout]. eexists. split; [reflexivity|].
    rewrite Z.mul_1_r.
    pose proof (load8_range src (pSrcPel + 3 * j)) as Rb.
    pose proof (load8_range src (pSrcPel + 3 * j + 1)) as Rg.
    pose proof (load8_range src (pSrcPel + 3 * j + 2)) as Rr.
    split.
    + intros col Hcol. unfold rgb24_pixel_copied.
      rewrite !store32_XRGB by assumption.
      destruct (Z.eq_dec col j) as [E|E].
      * subst col. repeat split; mem_cases; f_equal; f_equal; lia.
      * destruct (Hpix col ltac:(lia)) as (P0 & P1 & P2 & P3).
        repeat split; mem_cases; assumption.
    + intros a Ha. rewrite store32_XRGB by assumption. mem_cases. apply Hout. lia.
Qed.

(** X20. FormatConvertorRGB24::convert, for a destination stride of at least
    4*width, returns true having written for every pixel the three source
    bytes in the same order followed by the byte 255, the source advancing 3
    bytes and the destination 4 bytes per pixel; every destination byte
    outside the width*4 bytes of the height rows is left as it was. *)
Theorem RGB24_convert_copies_pixels (fuel : nat) (d : dmem) (destination destStride : Z)
        (src : smem) (source srcStride width height : Z) :
  0 <= width <= UINT32_MAX -> 0 <= height <= UINT32_MAX ->
  4 * width <= destStride ->
  width < Z.of_nat fuel -> height < Z.of_nat fuel ->
  exists d',
    FormatConvertorRGB24.convert fuel d destination destStride src source
                                 srcStride width height = Some (true, d') /\
    (forall row col, 0 <= row < height -> 0 <= col < width ->
       rgb24_pixel_copied d' (destination + row * destStride + 4 * col)
                          src (source + row * srcStride + 3 * col)) /\
    (forall a, outside_rows a destination destStride (4 * width) height -> d' a = d a).
Proof.
  intros Hw Hh Hstride Hfw Hfh. unfold FormatConvertorRGB24.convert.
  destruct (for_u32_rule
              (fun i (s : Z * Z * dmem) =>
                 let '(sp, dp, dm) := s in
                 sp = source + i * srcStride /\
                 dp = destination + i * destStride /\
                 (forall row col, 0 <= row < i -> 0 <= col < width ->
                    rgb24_pixel_copied dm (destination + row * destStride + 4 * col)
                                       src (source + row * srcStride + 3 * col)) /\
                 (forall a, outside_rows a destination destStride (4 * width) i ->
                            dm a = d a))
              height 1 height
              (fun _ '(source, destination, d) =>
                 match FormatConvertorRGB24.row fuel src source destination width d with
                 | Some d' => Some (source + srcStride, destination + destStride, d')
                 | None => None
                 end)
              fuel (source, destination, d))
    as ([[sp dp] dm] & Hrun & _ & _ & Hpix & Hout); try lia.
  - repeat split; try lia.
  - intros i [[sp dp] dm] Hi (Hs & Hd & Hpix & Hout).
    destruct (RGB24_row_copies fuel src sp dp width dm Hw Hfw) as (d' & Hrow & Hnew & Hfr).
    rewrite Hrow. eexists. split; [reflexivity|]. cbn beta iota.
    split; [lia|]. split; [lia|]. split.
    + intros row col Hrow' Hcol.
      destruct (Z.eq_dec row i) as [E|E].
      * subst row dp sp. apply Hnew. exact Hcol.
      * assert (Hle : (row + 1) * destStride <= i * destStride)
          by (apply Z.mul_le_mono_nonneg_r; lia).
        destruct (Hpix row col ltac:(lia) Hcol) as (P0 & P1 & P2 & P3).
        unfold rgb24_pixel_copied.
        rewrite !Hfr by (left; subst dp; lia). repeat split; assumption.
    + intros a Ha. rewrite Hfr.
      * apply Hout. intros row Hrow'. apply Ha. lia.
      * specialize (Ha i ltac:(lia)). subst dp. lia.
  - rewrite Hrun. eexists. split; [reflexivity|]. split; [exact Hpix|exact Hout].
Qed.

Lemma RGB24_convert_copies_pixels_witness :
  exists d',
    FormatConvertorRGB24.convert 4%nat surface_blank 0 16 frame_yuy2_white 0 8 3 2
    = Some (true, d') /\
    (forall row col, 0 <= row < 2 -> 0 <= col < 3 ->
       rgb24_pixel_copied d' (0 + row * 16 + 4 * col)
                          frame_yuy2_white (0 + row * 8 + 3 * col)) /\
    (forall a, outside_rows a 0 16 (4 * 3) 2 -> d' a = surface_blank a).
Proof.
  apply (RGB24_convert_copies_pixels 4%nat surface_blank 0 16 frame_yuy2_white 0 8 3 2);
    unfold UINT32_MAX; cbn; lia.
Defined.

(** ** Footprint and fourth byte of the YCbCr converters *)

Lemma store_RGBQUAD_reserved (m : dmem) (a : Z) (y cr cb : Z) :
  store_RGBQUAD m a (ConvertYCrCbToRGB y cr cb) (a + 3) = None.
Proof. unfold store_RGBQUAD. mem_cases. reflexivity. Qed.

Lemma YUY2_row_reserved (fuel : nat) (src : smem) (pSrcPel pDestPel n : Z) (d : dmem) :
  0 <= n -> 2 * n <= UINT32_MAX -> n < Z.of_nat fuel ->
  exists d',
    FormatConvertorYUY2.row fuel src pSrcPel pDestPel (2 * n) d = Some d' /\
    (forall col, 0 <= col < 2 * n -> d' (pDestPel + 4 * col + 3) = None) /\
    (forall a, a < pDestPel \/ pDestPel + 8 * n <= a -> d' a = d a).
Proof.
  intros Hn Hmax Hfuel. unfold FormatConvertorYUY2.row.
  apply (for_u32_rule
           (fun j d' =>
              (forall col, 0 <= col < 2 * j -> d' (pDestPel + 4 * col + 3) = None) /\
              (forall a, a < pDestPel \/ pDestPel + 8 * j <= a -> d' a = d a))
           (2 * n) 2 n); try lia.
  - split; [intros; lia|reflexivity].
  - intros j dj Hj [Hres Hout]. eexists. split; [reflexivity|].
    rewrite (u32_small (j * 2 + 1)) by (unfold UINT32_MAX in *; lia).
    split.
    + intros col Hcol.
      destruct (Z.eq_dec col (2 * j)) as [E|E]; [|destruct (Z.eq_dec col (2 * j + 1)) as [E'|E']].
      * subst col. rewrite (store_RGBQUAD_other (store_RGBQUAD _ _ _)) by lia.
        replace (pDestPel + 4 * (2 * j) + 3) with (pDestPel + 4 * (j * 2) + 3) by lia.
        apply store_RGBQUAD_reserved.
      * subst col.
        replace (pDestPel + 4 * (2 * j + 1) + 3) with (pDestPel + 4 * (j * 2 + 1) + 3) by lia.
        apply store_RGBQUAD_reserved.
      * rewrite !store_RGBQUAD_other by lia. apply Hres. lia.
    + intros a Ha. rewrite !store_RGBQUAD_other by lia. apply Hout. lia.
Qed.

(** X21. FormatConvertorYUY2::convert, for an even width and a destination
    stride of at least 4*width, returns true; the fourth byte of every pixel
    it writes is the rgbReserved member of an RGBQUAD that ConvertYCrCbToRGB
    never initialises, so its value is indeterminate; every destination byte
    outside the width*4 bytes of the height rows is left as it was. *)
Theorem YUY2_convert_footprint (fuel : nat) (d : dmem) (destination destStride : Z)
        (src : smem) (source srcStride n height : Z) :
  0 <= n -> 2 * n <= UINT32_MAX -> 0 <= height <= UINT32_MAX ->
  8 * n <= destStride ->
  n < Z.of_nat fuel -> height < Z.of_nat fuel ->
  exists d',
    FormatConvertorYUY2.convert fuel d destination destStride src source
                                srcStride (2 * n) height = Some (true, d') /\
    (forall row col, 0 <= row < height -> 0 <= col < 2 * n ->
       d' (destination + row * destStride + 4 * col + 3) = None) /\
    (forall a, outside_rows a destination destStride (4 * (2 * n)) height -> d' a = d a).
Proof.
  intros Hn Hmax Hh Hstride Hfn Hfh. unfold FormatConvertorYUY2.convert.
  destruct (for_u32_rule
              (fun i (s : Z * Z * dmem) =>
                 let '(sp, dp, dm) := s in
                 dp = destination + i * destStride /\
                 (forall row col, 0 <= row < i -> 0 <= col < 2 * n ->
                    dm (destination + row * destStride + 4 * col + 3) = None) /\
                 (forall a, outside_rows a destination destStride (4 * (2 * n)) i ->
                            dm a = d a))
              height 1 height
              (fun _ '(source, destination, d) =>
                 match FormatConvertorYUY2.row fuel src source destination (2 * n) d with
                 | Some d' => Some (source + srcStride, destination + destStride, d')
                 | None => None
                 end)
              fuel (source, destination, d))
    as ([[sp dp] dm] & Hrun & _ & Hres & Hout); try lia.
  - repeat split; try lia.
  - intros i [[sp dp] dm] Hi (Hd & Hres & Hout).
    destruct (YUY2_row_reserved fuel src sp dp n dm Hn Hmax Hfn) as (d' & Hrow & Hnew & Hfr).
    rewrite Hrow. eexists. split; [reflexivity|]. cbn beta iota.
    split; [lia|]. split.
    + intros row col Hrow' Hcol.
      destruct (Z.eq_dec row i) as [E|E].
      * subst row dp. apply Hnew. exact Hcol.
      * assert (Hle : (row + 1) * destStride <= i * destStride)
          by (apply Z.mul_le_mono_nonneg_r; lia).
        rewrite Hfr by (left; subst dp; lia). apply Hres; lia.
    + intros a Ha. rewrite Hfr.
      * apply Hout. intros row Hrow'. apply Ha. lia.
      * specialize (Ha i ltac:(lia)). subst dp. lia.
  - rewrite Hrun. eexists. split; [reflexivity|]. split; [exact Hres|exact Hout].
Qed.

Lemma YUY2_convert_footprint_witness :
  exists d',
    FormatConvertorYUY2.convert 3%nat surface_blank 0 8 frame_yuy2_white 0 4
                                (2 * 1) 2 = Some (true, d') /\
    (forall row col, 0 <= row < 2 -> 0 <= col < 2 * 1 ->
       d' (0 + row * 8 + 4 * col + 3) = None) /\
    (forall a, outside_rows a 0 8 (4 * (2 * 1)) 2 -> d' a = surface_blank a).
Proof.
  apply (YUY2_convert_footprint 3%nat surface_blank 0 8 frame_yuy2_white 0 4 1 2);
    unfold UINT32_MAX; cbn; lia.
Defined.

Lemma put_alpha (m : dmem) (a a' : Z) (q : RGBQUAD) :
  a' = a + 3 -> FormatConvertorNV12.put m a q a' = Some 0.
Proof. intros ->. unfold FormatConvertorNV12.put. mem_cases. reflexivity. Qed.

Section NV12_footprint.

Import FormatConvertorNV12.

Lemma NV12_row_pair_alpha (fuel : nat) (src : smem) (destStride srcStride n : Z)
      (p : plane_state) :
  0 <= n -> 2 * n <= UINT32_MAX -> n < Z.of_nat fuel -> 8 * n <= destStride ->
  exists p',
    row_pair fuel src destStride srcStride (2 * n) p = Some p' /\
    destination p' = destination p + u32 (2 * destStride) /\
    (forall col, 0 <= col < 2 * n ->
       plane_mem p' (destination p + 4 * col + 3) = Some 0 /\
       plane_mem p' (destination p + destStride + 4 * col + 3) = Some 0) /\
    (forall a,
       (a < destination p \/ destination p + 8 * n <= a) ->
       (a < destination p + destStride \/ destination p + destStride + 8 * n <= a) ->
       plane_mem p' a = plane_mem p a).
Proof.
  intros Hn Hmax Hfuel Hstride. unfold row_pair.
  destruct (for_u32_rule
              (fun j (s : line_state) =>
                 lpDibLine1 s = destination p + 8 * j /\
                 lpDibLine2 s = destination p + destStride + 8 * j /\
                 (forall col, 0 <= col < 2 * j ->
                    line_mem s (destination p + 4 * col + 3) = Some 0 /\
                    line_mem s (destination p + destStride + 4 * col + 3) = Some 0) /\
                 (forall a,
                    (a < destination p \/ destination p + 8 * j <= a) ->
                    (a < destination p + destStride \/
                     destination p + destStride + 8 * j <= a) ->
                    line_mem s a = plane_mem p a))
              (2 * n) 2 n (fun _ s => Some (block src s)) fuel
              {| lpLineY1 := lpBitsY p; lpLineY2 := lpBitsY p + srcStride;
                 lpLineCr := lpBitsCr p; lpLineCb := lpBitsCb p;
                 lpDibLine1 := destination p;
                 lpDibLine2 := destination p + destStride;
                 line_mem := plane_mem p |})
    as (s & Hrun & _ & _ & Halpha & Hout); try lia.
  - cbn [lpDibLine1 lpDibLine2 line_mem]. repeat split; try lia.
  - intros j s Hj (HD1 & HD2 & Halpha & Hout).
    eexists. split; [reflexivity|]. unfold block.
    cbn [lpDibLine1 lpDibLine2 line_mem].
    rewrite HD1, HD2.
    repeat (split; [lia|]).
    split.
    + intros col Hcol.
      destruct (Z.eq_dec col (2 * j)) as [E|E]; [|destruct (Z.eq_dec col (2 * j + 1)) as [E'|E']].
      * subst col. split.
        -- rewrite !(put_other (put _ _ _)) by lia. apply put_alpha. lia.
        -- rewrite (put_other (put _ _ _)) by lia. apply put_alpha. lia.
      * subst col. split.
        -- rewrite !(put_other (put (put _ _ _) _ _)) by lia. apply put_alpha. lia.
        -- apply put_alpha. lia.
      * destruct (Halpha col ltac:(lia)) as [H1 H2].
        split; rewrite !put_other by lia; assumption.
    + intros a Ha1 Ha2. rewrite !put_other by lia. apply Hout; lia.
  - rewrite Hrun. eexists. split; [reflexivity|]. cbn [destination plane_mem].
    split; [reflexivity|]. split; [exact Halpha|exact Hout].
Qed.

End NV12_footprint.

(** X22. FormatConvertorNV12::convert, for even width and height and a
    destination stride of at least 4*width (twice the stride fitting 32 bits),
    returns true; the fourth byte of every pixel is 0, whatever the source
    holds and whatever the source stride is; every destination byte outside
    the width*4 bytes of the height rows is left as it was. *)
Theorem NV12_convert_alpha_and_footprint (fuel : nat) (d : dmem)
        (destination0 destStride : Z) (src : smem) (source srcStride n m : Z) :
  0 <= n -> 2 * n <= UINT32_MAX -> 0 <= m -> 2 * m <= UINT32_MAX ->
  8 * n <= destStride -> 2 * destStride <= UINT32_MAX ->
  n < Z.of_nat fuel -> m < Z.of_nat fuel ->
  exists d',
    FormatConvertorNV12.convert fuel d destination0 destStride src source srcStride (2 * n) (2 * m)
      = Some (true, d') /\
    (forall row col, 0 <= row < 2 * m -> 0 <= col < 2 * n ->
       d' (destination0 + row * destStride + 4 * col + 3) = Some 0) /\
    (forall a, outside_rows a destination0 destStride (4 * (2 * n)) (2 * m) ->
               d' a = d a).
Proof.
  intros Hn Hnmax Hm Hmmax Hds Hdmax Hfn Hfm.
  unfold FormatConvertorNV12.convert.
  destruct (for_u32_rule
              (fun i (p : FormatConvertorNV12.plane_state) =>
                 FormatConvertorNV12.destination p
                 = destination0 + i * (2 * destStride) /\
                 (forall row col, 0 <= row < 2 * i -> 0 <= col < 2 * n ->
                    FormatConvertorNV12.plane_mem p
                      (destination0 + row * destStride + 4 * col + 3)
                    = Some 0) /\
                 (forall a,
                    outside_rows a destination0 destStride (4 * (2 * n)) (2 * i) ->
                    FormatConvertorNV12.plane_mem p a = d a))
              (2 * m) 2 m
              (fun _ p =>
                 FormatConvertorNV12.row_pair fuel src destStride srcStride (2 * n) p)
              fuel
              {| FormatConvertorNV12.destination := destination0;
                 FormatConvertorNV12.lpBitsY := source;
                 FormatConvertorNV12.lpBitsCr := source + u32 (2 * m * srcStride) + 1;
                 FormatConvertorNV12.lpBitsCb := source + u32 (2 * m * srcStride);
                 FormatConvertorNV12.plane_mem := d |})
    as (p & Hrun & _ & Halpha & Hout); try lia.
  - cbn [FormatConvertorNV12.destination FormatConvertorNV12.plane_mem].
    repeat split; try lia.
  - intros i p Hi (HD & Halpha & Hout).
    destruct (NV12_row_pair_alpha fuel src destStride srcStride n p Hn Hnmax Hfn Hds)
      as (p' & Hrow & HD' & Hnew & Hfr).
    exists p'. split; [exact Hrow|].
    rewrite (u32_small (2 * destStride)) in HD' by lia.
    split; [lia|]. split.
    + intros row col Hrow' Hcol.
      destruct (Hnew col Hcol) as [H1 H2].
      destruct (Z.eq_dec row (2 * i)) as [E|E]; [|destruct (Z.eq_dec row (2 * i + 1)) as [E'|E']].
      * subst row.
        replace (destination0 + 2 * i * destStride + 4 * col + 3)
          with (FormatConvertorNV12.destination p + 4 * col + 3) by lia.
        exact H1.
      * subst row.
        replace (destination0 + (2 * i + 1) * destStride + 4 * col + 3)
          with (FormatConvertorNV12.destination p + destStride + 4 * col + 3) by lia.
        exact H2.
      * assert (Hle : (row + 1) * destStride <= 2 * i * destStride)
          by (apply Z.mul_le_mono_nonneg_r; lia).
        rewrite Hfr by lia. apply Halpha; lia.
    + intros a Ha.
      pose proof (Ha (2 * i) ltac:(lia)) as Ha1.
      pose proof (Ha (2 * i + 1) ltac:(lia)) as Ha2.
      rewrite Hfr by lia.
      apply Hout. intros row Hrow'. apply Ha. lia.
  - rewrite Hrun. eexists. split; [reflexivity|]. split; [exact Halpha|exact Hout].
Qed.

Lemma NV12_convert_alpha_and_footprint_witness :
  exists d',
    FormatConvertorNV12.convert 3%nat surface_blank 0 8 frame_nv12_white 0 2
                                (2 * 1) (2 * 1) = Some (true, d') /\
    (forall row col, 0 <= row < 2 * 1 -> 0 <= col < 2 * 1 ->
       d' (0 + row * 8 + 4 * col + 3) = Some 0) /\
    (forall a, outside_rows a 0 8 (4 * (2 * 1)) (2 * 1) -> d' a = surface_blank a).
Proof.
  apply (NV12_convert_alpha_and_footprint 3%nat surface_blank 0 8 frame_nv12_white
           0 2 1 1); unfold UINT32_MAX; cbn; lia.
Defined.

(** ** Odd widths in the converters that step by two *)

Lemma for_u32_ext {St : Type} (bound step : Z) (body body' : Z -> St -> option St) :
  (forall x s, body x s = body' x s) ->
  forall (fuel : nat) (x : Z) (s : St),
    for_u32 fuel bound step body x s = for_u32 fuel bound step body' x s.
Proof.
  intros Hext. induction fuel as [|fuel IH]; intros x s; [reflexivity|].
  cbn [for_u32]. rewrite Hext.
  destruct (x <? bound); [|reflexivity].
  destruct (body' x s); [apply IH|reflexivity].
Qed.

Lemma u32_even (x : Z) : Z.even x = true -> Z.even (u32 (x + 2)) = true.
Proof.
  intros Hev. unfold u32.
  pose proof (Z.div_mod (x + 2) (2 ^ 32) ltac:(lia)) as Hdm.
  assert (Hx : Z.even (x + 2) = true) by (rewrite Z.even_add, Hev; reflexivity).
  replace ((x + 2) mod 2 ^ 32) with (x + 2 - 2 * (2 ^ 31 * ((x + 2) / 2 ^ 32)))
    by (change (2 ^ 32) with (2 * 2 ^ 31) in Hdm at 1; lia).
  rewrite Z.even_sub, Hx, Z.even_mul. reflexivity.
Qed.

Lemma for_u32_odd_bound {St : Type} (n : Z) (body : Z -> St -> option St) :
  forall (fuel : nat) (x : Z) (s : St),
    Z.even x = true ->
    for_u32 fuel (2 * n + 1) 2 body x s = for_u32 fuel (2 * n + 2) 2 body x s.
Proof.
  induction fuel as [|fuel IH]; intros x s Hev; [reflexivity|].
  cbn [for_u32].
  assert (Hlt : (x <? 2 * n + 1) = (x <? 2 * n + 2)).
  { destruct (Z.ltb_spec x (2 * n + 1)), (Z.ltb_spec x (2 * n + 2)); try reflexivity; try lia.
    assert (x = 2 * n + 1) by lia. subst x.
    rewrite Z.even_add, Z.even_mul in Hev. discriminate Hev. }
  rewrite Hlt. destruct (x <? 2 * n + 2); [|reflexivity].
  destruct (body x s); [|reflexivity].
  apply IH. apply u32_even. exact Hev.
Qed.

(** X23. FormatConvertorYUY2::convert and FormatConvertorNV12::convert treat
    an odd width 2n+1 exactly as the even width 2n+2: the inner loops step by
    two and handle a pixel pair per round, so one pixel beyond the end of each
    row is read and written. *)
Theorem odd_width_is_rounded_up (fuel : nat) (d : dmem) (destination destStride : Z)
        (src : smem) (source srcStride n height : Z) :
  FormatConvertorYUY2.convert fuel d destination destStride src source srcStride
                              (2 * n + 1) height
  = FormatConvertorYUY2.convert fuel d destination destStride src source srcStride
                                (2 * n + 2) height /\
  FormatConvertorNV12.convert fuel d destination destStride src source srcStride
                              (2 * n + 1) height
  = FormatConvertorNV12.convert fuel d destination destStride src source srcStride
                                (2 * n + 2) height.
Proof.
  split.
  - unfold FormatConvertorYUY2.convert.
    rewrite (for_u32_ext height 1 _
               (fun _ '(source, destination, d) =>
                  match FormatConvertorYUY2.row fuel src source destination
                                                (2 * n + 2) d with
                  | Some d' => Some (source + srcStride, destination + destStride, d')
                  | None => None
                  end)); [reflexivity|].
    intros x [[sp dp] dm]. unfold FormatConvertorYUY2.row.
    rewrite for_u32_odd_bound by reflexivity. reflexivity.
  - unfold FormatConvertorNV12.convert.
    rewrite (for_u32_ext height 2 _
               (fun _ p => FormatConvertorNV12.row_pair fuel src destStride srcStride
                                                        (2 * n + 2) p));
      [reflexivity|].
    intros x p. unfold FormatConvertorNV12.row_pair.
    rewrite for_u32_odd_bound by reflexivity. reflexivity.
Qed.

(** ** The camera *)

(** X24. For a native type with frame size and a frame rate of positive
    denominator, checkRequiredResolution divides without fault and accepts
    exactly when width and height equal the camera's and the camera's fps is
    the integer part of the rate: fps*denominator <= numerator <
    (fps+1)*denominator. *)
Theorem checkRequiredResolution_accepts_iff
        (this : Camera.t) (nativeType : NativeType)
        (width height numerator denominator : Z) :
  MF_MT_FRAME_SIZE (attributes nativeType) = Some (width, height) ->
  MF_MT_FRAME_RATE nativeType = Some (numerator, denominator) ->
  0 < denominator ->
  (Camera.checkRequiredResolution this nativeType = Some true <->
   Camera.mWidth this = width /\ Camera.mHeight this = height /\
   Camera.mFps this * denominator <= numerator
     < (Camera.mFps this + 1) * denominator) /\
  Camera.checkRequiredResolution this nativeType <> None.
Proof.
  intros Hsize Hrate Hden. unfold Camera.checkRequiredResolution.
  rewrite Hsize, Hrate.
  destruct (Z.eqb_spec (Camera.mWidth this) width) as [Ew|Ew];
    destruct (Z.eqb_spec (Camera.mHeight this) height) as [Eh|Eh]; cbn [andb];
    try (split; [split; [discriminate|intros (? & ? & ?); contradiction]|discriminate]).
  destruct (Z.eqb_spec denominator 0) as [E0|_]; [lia|].
  split; [|discriminate].
  pose proof (Z.div_mod numerator denominator ltac:(lia)) as Hdm.
  pose proof (Z.mod_pos_bound numerator denominator Hden) as Hm.
  destruct (Z.eqb_spec (Camera.mFps this) (numerator / denominator)) as [E|E].
  - split; [intros _|reflexivity]. repeat split; try assumption; rewrite E; nia.
  - split; [discriminate|]. intros (_ & _ & Hlo & Hhi). exfalso. apply E.
    apply Z.div_unique with (r := numerator - Camera.mFps this * denominator); lia.
Qed.

Lemma checkRequiredResolution_accepts_iff_witness :
  (Camera.checkRequiredResolution camera_720p30
     (native_720p MFVideoFormat_YUY2 (30000, 1001)) = Some true <->
   Camera.mWidth camera_720p30 = 1280 /\ Camera.mHeight camera_720p30 = 720 /\
   Camera.mFps camera_720p30 * 1001 <= 30000
     < (Camera.mFps camera_720p30 + 1) * 1001) /\
  Camera.checkRequiredResolution camera_720p30
     (native_720p MFVideoFormat_YUY2 (30000, 1001)) <> None.
Proof.
  apply (checkRequiredResolution_accepts_iff camera_720p30
           (native_720p MFVideoFormat_YUY2 (30000, 1001)) 1280 720 30000 1001);
    [reflexivity | reflexivity | lia].
Defined.

Lemma SetGUID_subtype_twice (g g' : GUID) (t : NativeType) :
  SetGUID_subtype g (SetGUID_subtype g' t) = SetGUID_subtype g t.
Proof. reflexivity. Qed.

Lemma SetGUID_subtype_same (g : GUID) (t : NativeType) :
  MF_MT_SUBTYPE (attributes t) = Some g -> SetGUID_subtype g t = t.
Proof. destruct t as [[s ? ? ? ?] ?]. cbn. intros ->. reflexivity. Qed.

Lemma getSupportedFormats_supported (g : GUID) :
  In g getSupportedFormats -> isFormatSupported g = true.
Proof.
  unfold getSupportedFormats, formatConversions. cbn [map fst In].
  intros [<-|[<-|[<-|[<-|[]]]]]; reflexivity.
Qed.

Lemma try_formats_result (this : Camera.t) (rd : Reader) (formats : list GUID) :
  forall (nativeType : NativeType) (calls : list ReaderCall) (w : World)
         (ok : bool) (nt' : NativeType) (calls' : list ReaderCall) (w' : World),
    Camera.try_formats this rd formats nativeType calls w = Done (ok, nt') calls' w' ->
    w' = w /\
    exists tried,
      calls' = calls ++ map Call_SetCurrentMediaType tried /\
      (length tried <= length formats)%nat /\
      (ok = true ->
       exists before g,
         tried = before ++ [nt'] /\ In g formats /\
         nt' = SetGUID_subtype g nativeType /\
         SUCCEEDED (r_SetCurrentMediaType rd
                      (calls ++ map Call_SetCurrentMediaType before) nt') = true).
Proof.
  induction formats as [|format rest IH]; intros nativeType calls w ok nt' calls' w' H.
  - cbn in H. inversion H; subst. split; [reflexivity|].
    exists []. cbn. rewrite app_nil_r. repeat split; [lia|discriminate].
  - cbn [Camera.try_formats] in H.
    destruct (FAILED (r_SetGUID rd format)).
    + inversion H; subst. split; [reflexivity|].
      exists []. cbn. rewrite app_nil_r. repeat split; [lia|discriminate].
    + unfold cbind, Camera.SetCurrentMediaType in H.
      destruct (Camera.mReader this); [|discriminate H].
      unfold reader_call in H.
      destruct (SUCCEEDED (r_SetCurrentMediaType rd calls
                             (SetGUID_subtype format nativeType))) eqn:Hok.
      * inversion H; subst. split; [reflexivity|].
        exists [SetGUID_subtype format nativeType]. cbn [map length].
        repeat split; [lia|]. intros _.
        exists [], format. cbn [app map]. rewrite app_nil_r.
        repeat split; [left; reflexivity|exact Hok].
      * apply IH in H. destruct H as (-> & tried & -> & Hlen & Hacc).
        split; [reflexivity|].
        exists (SetGUID_subtype format nativeType :: tried). cbn [map length].
        rewrite <- app_assoc. repeat split; [lia|].
        intros Hk. destruct (Hacc Hk) as (before & g & -> & Hin & -> & Hs).
        exists (SetGUID_subtype format nativeType :: before), g.
        cbn [app map]. rewrite <- app_assoc in Hs.
        repeat split; [right; exact Hin|exact Hs].
Qed.

Lemma adjustMediaTypeToDevice_inv
        (this : Camera.t) (rd : Reader) (nativeType : NativeType)
        (calls : list ReaderCall) (w : World)
        (ok : bool) (nt' : NativeType) (calls' : list ReaderCall) (w' : World) :
  Camera.adjustMediaTypeToDevice this rd nativeType calls w = Done (ok, nt') calls' w' ->
  w' = w /\
  exists tried,
    calls' = calls ++ map Call_SetCurrentMediaType tried /\
    (length tried <= length getSupportedFormats)%nat /\
    (ok = true ->
     exists before g,
       tried = before ++ [nt'] /\
       isFormatSupported g = true /\
       nt' = SetGUID_subtype g nativeType /\
       SUCCEEDED (r_SetCurrentMediaType rd
                    (calls ++ map Call_SetCurrentMediaType before) nt') = true).
Proof.
  unfold Camera.adjustMediaTypeToDevice. intros H.
  destruct (MF_MT_SUBTYPE (attributes nativeType)) as [subtype|] eqn:Hsub.
  - destruct (isFormatSupported subtype) eqn:Hsup.
    + unfold cbind, Camera.SetCurrentMediaType in H.
      destruct (Camera.mReader this); [|discriminate H].
      unfold reader_call, cret in H. inversion H; subst. split; [reflexivity|].
      exists [nt']. cbn [map length]. repeat split; [cbn; lia|].
      intros Hk. exists [], subtype. cbn [app map]. rewrite app_nil_r.
      repeat split; [exact Hsup|symmetry; apply SetGUID_subtype_same; exact Hsub|].
      apply Z.eqb_eq in Hk. rewrite Hk. reflexivity.
    + apply try_formats_result in H. destruct H as (-> & tried & -> & Hlen & Hacc).
      split; [reflexivity|]. exists tried. repeat split; [exact Hlen|].
      intros Hk. destruct (Hacc Hk) as (before & g & -> & Hin & -> & Hs).
      exists before, g. repeat split; [apply getSupportedFormats_supported; exact Hin|exact Hs].
  - inversion H; subst. split; [reflexivity|].
    exists []. cbn. rewrite app_nil_r. repeat split; [lia|discriminate].
Qed.

(** X25. adjustMediaTypeToDevice, when it returns, has not touched the draw
    device and has made only SetCurrentMediaType calls on the reader, at most
    as many as the format table has entries; when it returns true the last of
    them carried the native type as the method leaves it, the reader answered
    it with success, and that type is the given one with a subtype the draw
    device supports. *)
Theorem adjustMediaTypeToDevice_result
        (this : Camera.t) (rd : Reader) (nativeType : NativeType)
        (calls : list ReaderCall) (w : World)
        (ok : bool) (nt' : NativeType) (calls' : list ReaderCall) (w' : World) :
  Camera.adjustMediaTypeToDevice this rd nativeType calls w = Done (ok, nt') calls' w' ->
  w' = w /\
  exists tried,
    calls' = calls ++ map Call_SetCurrentMediaType tried /\
    (length tried <= length getSupportedFormats)%nat /\
    (ok = true ->
     exists before g,
       tried = before ++ [nt'] /\
       isFormatSupported g = true /\
       nt' = SetGUID_subtype g nativeType /\
       SUCCEEDED (r_SetCurrentMediaType rd
                    (calls ++ map Call_SetCurrentMediaType before) nt') = true).
Proof. apply adjustMediaTypeToDevice_inv. Qed.

Lemma adjustMediaTypeToDevice_result_witness :
  world_created = world_created /\
  exists tried,
    [Call_SetCurrentMediaType
       (SetGUID_subtype MFVideoFormat_RGB32 (native_720p MFVideoFormat_MJPG (30, 1)))]
    = [] ++ map Call_SetCurrentMediaType tried /\
    (length tried <= length getSupportedFormats)%nat /\
    (true = true ->
     exists before g,
       tried = before ++ [SetGUID_subtype MFVideoFormat_RGB32
                            (native_720p MFVideoFormat_MJPG (30, 1))] /\
       isFormatSupported g = true /\
       SetGUID_subtype MFVideoFormat_RGB32 (native_720p MFVideoFormat_MJPG (30, 1))
       = SetGUID_subtype g (native_720p MFVideoFormat_MJPG (30, 1)) /\
       SUCCEEDED (r_SetCurrentMediaType reader_accepting
                    ([] ++ map Call_SetCurrentMediaType before)
                    (SetGUID_subtype MFVideoFormat_RGB32
                       (native_720p MFVideoFormat_MJPG (30, 1)))) = true).
Proof.
  apply (adjustMediaTypeToDevice_result camera_720p30 reader_accepting
           (native_720p MFVideoFormat_MJPG (30, 1)) [] world_created).
  reflexivity.
Defined.

Lemma setupOutputFormat_skip (this : Camera.t) (rd : Reader) (env : Backend)
      (skipped rest : list NativeType) (calls : list ReaderCall) (w : World) :
  (forall nt, In nt skipped -> Camera.checkRequiredResolution this nt = Some false) ->
  Camera.setupOutputFormat this rd env (skipped ++ rest) calls w
  = Camera.setupOutputFormat this rd env rest calls w.
Proof.
  induction skipped as [|nt skipped IH]; intros Hskip; [reflexivity|].
  cbn [app Camera.setupOutputFormat].
  rewrite (Hskip nt (or_introl eq_refl)).
  apply IH. intros nt' Hin. apply Hskip. right. exact Hin.
Qed.

(** X26. setupOutputFormat passes over native types that
    checkRequiredResolution rejects without any call on the reader or the draw
    device: a run of such types in front of the enumeration changes nothing in
    the outcome, and an enumeration made of such types only gives false with
    the reader and the device untouched. *)
Theorem setupOutputFormat_skips_other_resolutions
        (this : Camera.t) (rd : Reader) (env : Backend)
        (skipped rest : list NativeType) (calls : list ReaderCall) (w : World) :
  (forall nt, In nt skipped -> Camera.checkRequiredResolution this nt = Some false) ->
  Camera.setupOutputFormat this rd env (skipped ++ rest) calls w
  = Camera.setupOutputFormat this rd env rest calls w /\
  Camera.setupOutputFormat this rd env skipped calls w = Done false calls w.
Proof.
  intros Hskip. split.
  - apply setupOutputFormat_skip. exact Hskip.
  - rewrite <- (app_nil_r skipped). rewrite setupOutputFormat_skip by exact Hskip.
    reflexivity.
Qed.

Lemma setupOutputFormat_skips_other_resolutions_witness :
  Camera.setupOutputFormat camera_720p30 reader_accepting backend_healthy
    ([native_720p MFVideoFormat_YUY2 (30000, 1001);
      native_720p MFVideoFormat_YUY2 (15, 1)]
       ++ [native_720p MFVideoFormat_YUY2 (30, 1)]) [] world_created
  = Camera.setupOutputFormat camera_720p30 reader_accepting backend_healthy
      [native_720p MFVideoFormat_YUY2 (30, 1)] [] world_created /\
  Camera.setupOutputFormat camera_720p30 reader_accepting backend_healthy
    [native_720p MFVideoFormat_YUY2 (30000, 1001);
     native_720p MFVideoFormat_YUY2 (15, 1)] [] world_created
  = Done false [] world_created.
Proof.
  apply (setupOutputFormat_skips_other_resolutions camera_720p30 reader_accepting
           backend_healthy
           [native_720p MFVideoFormat_YUY2 (30000, 1001);
            native_720p MFVideoFormat_YUY2 (15, 1)]
           [native_720p MFVideoFormat_YUY2 (30, 1)] [] world_created).
  intros nt [<-|[<-|[]]]; reflexivity.
Defined.

(** X27. When the first native type of the required width and height (after
    types that are rejected) has a frame rate with denominator 0,
    setupOutputFormat performs an unsigned integer division by zero in
    checkRequiredResolution, whatever types follow in the enumeration. *)
Theorem setupOutputFormat_zero_denominator
        (this : Camera.t) (rd : Reader) (env : Backend)
        (skipped rest : list NativeType) (nativeType : NativeType) (numerator : Z)
        (calls : list ReaderCall) (w : World) :
  (forall nt, In nt skipped -> Camera.checkRequiredResolution this nt = Some false) ->
  MF_MT_FRAME_SIZE (attributes nativeType)
  = Some (Camera.mWidth this, Camera.mHeight this) ->
  MF_MT_FRAME_RATE nativeType = Some (numerator, 0) ->
  Camera.setupOutputFormat this rd env (skipped ++ nativeType :: rest) calls w
  = Undefined.
Proof.
  intros Hskip Hsize Hrate. rewrite setupOutputFormat_skip by exact Hskip.
  cbn [Camera.setupOutputFormat]. unfold Camera.checkRequiredResolution.
  rewrite Hsize, Hrate, !Z.eqb_refl. reflexivity.
Qed.

Lemma setupOutputFormat_zero_denominator_witness :
  Camera.setupOutputFormat camera_720p30 reader_accepting backend_healthy
    ([native_720p MFVideoFormat_YUY2 (15, 1)]
       ++ native_720p MFVideoFormat_YUY2 (30, 0)
       :: [native_720p MFVideoFormat_YUY2 (30, 1)]) [] world_created
  = Undefined.
Proof.
  apply (setupOutputFormat_zero_denominator camera_720p30 reader_accepting
           backend_healthy [native_720p MFVideoFormat_YUY2 (15, 1)]
           [native_720p MFVideoFormat_YUY2 (30, 1)]
           (native_720p MFVideoFormat_YUY2 (30, 0)) 30 [] world_created).
  - intros nt [<-|[]]; reflexivity.
  - reflexivity.
  - reflexivity.
Defined.

Lemma checkRequiredResolution_true_size (this : Camera.t) (nativeType : NativeType) :
  Camera.checkRequiredResolution this nativeType = Some true ->
  MF_MT_FRAME_SIZE (attributes nativeType)
  = Some (Camera.mWidth this, Camera.mHeight this).
Proof.
  unfold Camera.checkRequiredResolution.
  destruct (MF_MT_FRAME_SIZE (attributes nativeType)) as [[wd ht]|]; [|discriminate].
  destruct (MF_MT_FRAME_RATE nativeType) as [[n dn]|]; [|discriminate].
  destruct (Z.eqb_spec (Camera.mWidth this) wd) as [->|_]; [|discriminate].
  destruct (Z.eqb_spec (Camera.mHeight this) ht) as [->|_]; [|discriminate].
  reflexivity.
Qed.

(** X28. When setupOutputFormat returns true, some enumerated native type
    passed checkRequiredResolution, the last call on the reader is
    SetCurrentMediaType with that type under a subtype g, answered with
    success, and the draw device holds the converter and format tag of the
    same g, the camera's width and height as frame size, a Direct3D device and
    a swap chain. *)
Theorem setupOutputFormat_success
        (this : Camera.t) (rd : Reader) (env : Backend) (natives : list NativeType)
        (calls : list ReaderCall) (w : World)
        (calls' : list ReaderCall) (w' : World) :
  Camera.setupOutputFormat this rd env natives calls w = Done true calls' w' ->
  exists nativeType g before f,
    In nativeType natives /\
    Camera.checkRequiredResolution this nativeType = Some true /\
    calls' = before ++ [Call_SetCurrentMediaType (SetGUID_subtype g nativeType)] /\
    SUCCEEDED (r_SetCurrentMediaType rd before (SetGUID_subtype g nativeType)) = true /\
    findConversionFunction g = Some f /\
    mRGB32Converter (dev w') = Some f /\
    mFormat (dev w') = Data1 g /\
    mWidth (dev w') = Camera.mWidth this /\
    mHeight (dev w') = Camera.mHeight this /\
    mDevice (dev w') <> None /\ mSwapChain (dev w') <> None.
Proof.
  revert calls w. induction natives as [|nativeType rest IH]; intros calls w H.
  - discriminate H.
  - assert (Hrest : forall c0 w0,
               Camera.setupOutputFormat this rd env rest c0 w0 = Done true calls' w' ->
               exists nativeType0 g before f,
                 In nativeType0 (nativeType :: rest) /\
                 Camera.checkRequiredResolution this nativeType0 = Some true /\
                 calls' = before ++
                   [Call_SetCurrentMediaType (SetGUID_subtype g nativeType0)] /\
                 SUCCEEDED (r_SetCurrentMediaType rd before
                              (SetGUID_subtype g nativeType0)) = true /\
                 findConversionFunction g = Some f /\
                 mRGB32Converter (dev w') = Some f /\
                 mFormat (dev w') = Data1 g /\
                 mWidth (dev w') = Camera.mWidth this /\
                 mHeight (dev w') = Camera.mHeight this /\
                 mDevice (dev w') <> None /\ mSwapChain (dev w') <> None).
    { intros c0 w0 H0. destruct (IH c0 w0 H0) as (nt0 & g & before & f & Hin & Hrem).
      exists nt0, g, before, f. split; [right; exact Hin|exact Hrem]. }
    cbn [Camera.setupOutputFormat] in H.
    destruct (Camera.checkRequiredResolution this nativeType) as [[|]|] eqn:Hcheck;
      [|eapply Hrest; exact H|discriminate H].
    unfold cbind in H.
    destruct (Camera.adjustMediaTypeToDevice this rd nativeType calls w)
      as [[ok nt'] calls1 w1| |] eqn:Hadj; [|discriminate H|discriminate H].
    destruct ok; cbn [negb] in H; [|eapply Hrest; exact H].
    apply adjustMediaTypeToDevice_inv in Hadj.
    destruct Hadj as (-> & tried & -> & _ & Hacc).
    destruct (Hacc eq_refl) as (before & g & -> & Hsup & -> & Hs).
    unfold on_draw_device in H.
    destruct (setVideoType env (attributes (SetGUID_subtype g nativeType)) w)
      as [okv w2| |] eqn:Hset; [|discriminate H|discriminate H].
    destruct okv; [|eapply Hrest; exact H].
    inversion H; subst calls' w'. clear H.
    destruct (setVideoType_true_inv _ _ _ _ Hset)
      as (subtype & f & wd & ht & stride & Hsub & Hf & Hsz & _ & Hconv & Hfmt & Hw & Hh
          & _ & Hdev & Hdev' & _ & Hchain & _).
    cbn in Hsub. inversion Hsub; subst subtype.
    cbn in Hsz. rewrite (checkRequiredResolution_true_size _ _ Hcheck) in Hsz.
    inversion Hsz; subst wd ht.
    exists nativeType, g, (calls ++ map Call_SetCurrentMediaType before), f.
    rewrite map_app, app_assoc. cbn [map].
    rewrite <- Hdev in Hdev'.
    assert (Hchain' : mSwapChain (dev w2) <> None) by (rewrite Hchain; discriminate).
    repeat split; try assumption; try (symmetry; assumption).
    left. reflexivity.
Qed.

Lemma setupOutputFormat_success_witness :
  exists calls' w',
    Camera.setupOutputFormat camera_720p30 reader_accepting backend_healthy
      [native_720p MFVideoFormat_YUY2 (15, 1); native_720p MFVideoFormat_MJPG (30, 1)]
      [] world_created = Done true calls' w' /\
    exists nativeType g before f,
      In nativeType [native_720p MFVideoFormat_YUY2 (15, 1);
                     native_720p MFVideoFormat_MJPG (30, 1)] /\
      Camera.checkRequiredResolution camera_720p30 nativeType = Some true /\
      calls' = before ++ [Call_SetCurrentMediaType (SetGUID_subtype g nativeType)] /\
      SUCCEEDED (r_SetCurrentMediaType reader_accepting before
                   (SetGUID_subtype g nativeType)) = true /\
      findConversionFunction g = Some f /\
      mRGB32Converter (dev w') = Some f /\
      mFormat (dev w') = Data1 g /\
      mWidth (dev w') = Camera.mWidth camera_720p30 /\
      mHeight (dev w') = Camera.mHeight camera_720p30 /\
      mDevice (dev w') <> None /\ mSwapChain (dev w') <> None.
Proof.
  eexists. eexists. split; [vm_compute; reflexivity|].
  eapply (setupOutputFormat_success camera_720p30 reader_accepting backend_healthy
            [native_720p MFVideoFormat_YUY2 (15, 1);
             native_720p MFVideoFormat_MJPG (30, 1)] [] world_created).
  vm_compute. reflexivity.
Defined.

(** X29. OnReadSample, when it returns, has done one of three things: with a
    failed status it returns that status and does nothing; with a sample whose
    buffer cannot be obtained or whose DrawFrame returns false it returns
    HRESULT 1, which is a success code, and requests no further sample;
    otherwise (no sample, or a sample drawn with DrawFrame returning true) it
    makes exactly one ReadSample call and returns its result. *)
Theorem OnReadSample_requests_next_sample
        (this : Camera.t) (rd : Reader) (env : Backend) (fuel : nat)
        (hrStatus : HRESULT) (pSample : option Sample)
        (calls : list ReaderCall) (w : World)
        (hr : HRESULT) (calls' : list ReaderCall) (w' : World) :
  Camera.OnReadSample this rd env fuel hrStatus pSample calls w = Done hr calls' w' ->
  (FAILED hrStatus = true /\ hr = hrStatus /\ calls' = calls /\ w' = w) \/
  (FAILED hrStatus = false /\ hr = 1 /\ SUCCEEDED hr = true /\ calls' = calls /\
   exists sample, pSample = Some sample /\
     ((FAILED (fst (r_GetBufferByIndex sample)) = true /\ w' = w) \/
      (FAILED (fst (r_GetBufferByIndex sample)) = false /\
       DrawFrame env fuel (snd (r_GetBufferByIndex sample)) w = Returns false w'))) \/
  (FAILED hrStatus = false /\ hr = r_ReadSample rd calls /\
   calls' = calls ++ [Call_ReadSample] /\
   ((pSample = None /\ w' = w) \/
    exists sample, pSample = Some sample /\
      FAILED (fst (r_GetBufferByIndex sample)) = false /\
      DrawFrame env fuel (snd (r_GetBufferByIndex sample)) w = Returns true w')).
Proof.
  unfold Camera.OnReadSample. intros H.
  destruct (FAILED hrStatus) eqn:Hst.
  - inversion H; subst. left. repeat split.
  - right. unfold cbind in H.
    destruct pSample as [sample|].
    + unfold Camera.drawSample in H.
      destruct (r_GetBufferByIndex sample) as [hrb pBuffer] eqn:Hbuf. cbn [fst snd].
      destruct (FAILED hrb) eqn:Hb.
      * cbn in H. inversion H; subst. left. repeat split.
        exists sample. split; [reflexivity|]. left. rewrite Hbuf. cbn [fst]. auto.
      * unfold cbind, on_draw_device in H.
        destruct (DrawFrame env fuel pBuffer w) as [ok w1| |] eqn:Hdraw;
          [|discriminate H|discriminate H].
        destruct ok; cbn in H.
        -- destruct (Camera.mReader this); [|discriminate H].
           unfold reader_call in H. inversion H; subst. right. repeat split.
           right. exists sample. rewrite Hbuf. cbn [fst snd]. auto.
        -- inversion H; subst. left. repeat split.
           exists sample. split; [reflexivity|]. right. rewrite Hbuf. cbn [fst snd]. auto.
    + cbn in H. destruct (Camera.mReader this); [|discriminate H].
      unfold reader_call in H. inversion H; subst. right. repeat split.
      left. auto.
Qed.

Lemma OnReadSample_requests_next_sample_witness :
  exists hr calls' w',
    Camera.OnReadSample camera_720p30 reader_accepting backend_healthy 1 S_OK
      (Some (sample_of buffer_linear)) [] world_ready = Done hr calls' w' /\
    ((FAILED S_OK = true /\ hr = S_OK /\ calls' = [] /\ w' = world_ready) \/
     (FAILED S_OK = false /\ hr = 1 /\ SUCCEEDED hr = true /\ calls' = [] /\
      exists sample, Some (sample_of buffer_linear) = Some sample /\
        ((FAILED (fst (r_GetBufferByIndex sample)) = true /\ w' = world_ready) \/
         (FAILED (fst (r_GetBufferByIndex sample)) = false /\
          DrawFrame backend_healthy 1 (snd (r_GetBufferByIndex sample)) world_ready
          = Returns false w'))) \/
     (FAILED S_OK = false /\ hr = r_ReadSample reader_accepting [] /\
      calls' = [] ++ [Call_ReadSample] /\
      ((Some (sample_of buffer_linear) = None /\ w' = world_ready) \/
       exists sample, Some (sample_of buffer_linear) = Some sample /\
         FAILED (fst (r_GetBufferByIndex sample)) = false /\
         DrawFrame backend_healthy 1 (snd (r_GetBufferByIndex sample)) world_ready
         = Returns true w'))).
Proof.
  eexists. eexists. eexists. split; [vm_compute; reflexivity|].
  eapply (OnReadSample_requests_next_sample camera_720p30 reader_accepting
            backend_healthy 1 S_OK (Some (sample_of buffer_linear)) [] world_ready).
  vm_compute. reflexivity.
Defined.

(** ** From the media buffer to the surface *)

Lemma leave_surface {A} (l : VideoBufferLock.t) (a : A) (w : World) :
  exists w', leave l a w = Returns a w' /\ surface w' = surface w /\ dev w' = dev w.
Proof.
  unfold leave. destruct (snd (VideoBufferLock.unlock l)) as [[|]|];
    unfold_monad; eexists; repeat split.
Qed.

Lemma DrawFrame_present_converts
      (env : Backend) (fuel : nat) (pBuffer : MediaBuffer) (w : World)
      (f : Format) (hr pBits Pitch scanLine : Z) (l : VideoBufferLock.t)
      (ok : bool) (d' : dmem) :
  mSwapChain (dev w) <> None -> mDevice (dev w) <> None ->
  mRGB32Converter (dev w) = Some f ->
  FAILED (r_SwapChain_GetBackBuffer env) = false ->
  r_LockRect env = (hr, (pBits, Pitch)) -> FAILED hr = false ->
  VideoBufferLock.LockBuffer (VideoBufferLock.create pBuffer)
                             (mDefaultStride (dev w)) (mHeight (dev w))
  = (scanLine, l) ->
  scanLine <> nullptr ->
  convert (r_MFCopyImage env) f fuel (surface w) pBits (u32 Pitch)
          (Buf_bits pBuffer) scanLine (u32 (VideoBufferLock.getStride l))
          (mWidth (dev w)) (mHeight (dev w)) = Some (ok, d') ->
  exists r w',
    DrawFrame_present env fuel pBuffer w = Returns r w' /\ surface w' = d'.
Proof.
  intros Hchain Hdev Hconv Hgb Hlr Hhr Hlock Hscan Hrun.
  unfold DrawFrame_present. unfold bind at 1. unfold this at 1.
  destruct (mSwapChain (dev w)); [|congruence].
  unfold bind at 1. unfold call at 1. rewrite Hgb.
  unfold bind at 1. unfold call at 1. rewrite Hlr, Hhr.
  unfold bind at 1. unfold call at 1. cbn [dev trace surface].
  rewrite Hlock.
  destruct (Z.eqb_spec scanLine nullptr) as [E|_]; [congruence|].
  rewrite Hconv.
  unfold bind at 1. unfold run_convert. cbn [dev trace surface]. rewrite Hrun.
  unfold bind at 1. unfold call at 1.
  destruct (mDevice (dev w)); [|congruence].
  repeat match goal with
         | |- context [if ?c then _ else _] => destruct c
         | |- exists r w', leave ?l ?a ?w0 = _ /\ _ =>
             destruct (leave_surface l a w0) as (w1 & -> & Hs & _);
             exists a, w1; split; [reflexivity|exact Hs]
         | |- context [bind (call ?e) _ ?w0] => unfold bind at 1; unfold call at 1
         end.
Qed.

(** X30. On a device with the YUY2 converter, a Direct3D device and a swap
    chain, with device status D3D_OK, the swap-chain back buffer locked at
    pBits with a pitch of at least 4*width, and the media buffer locked top-
    down at scanLine, DrawFrame returns with every pixel (row, col) of the
    frame written at pBits + row*Pitch + 4*col as the studio-range colour of
    the source pixel at scanLine + row*stride: the locked surface, the locked
    buffer and the recorded frame size are what the converter is run on, and
    no later step touches the surface bytes. *)
Theorem DrawFrame_draws_YUY2_frame
        (env : Backend) (fuel : nat) (pBuffer : MediaBuffer) (w : World)
        (n hr pBits Pitch scanLine : Z) (l : VideoBufferLock.t) :
  let d := dev w in
  mRGB32Converter d = Some YUY2 -> mDevice d <> None -> mSwapChain d <> None ->
  r_TestCooperativeLevel env = D3D_OK ->
  FAILED (r_SwapChain_GetBackBuffer env) = false ->
  r_LockRect env = (hr, (pBits, Pitch)) -> FAILED hr = false ->
  VideoBufferLock.LockBuffer (VideoBufferLock.create pBuffer)
                             (mDefaultStride d) (mHeight d) = (scanLine, l) ->
  scanLine <> nullptr ->
  0 <= VideoBufferLock.getStride l <= UINT32_MAX ->
  mWidth d = 2 * n -> 0 <= n -> 2 * n <= UINT32_MAX ->
  0 <= mHeight d <= UINT32_MAX ->
  8 * n <= Pitch <= UINT32_MAX ->
  n < Z.of_nat fuel -> mHeight d < Z.of_nat fuel ->
  exists r w',
    DrawFrame env fuel pBuffer w = Returns r w' /\
    forall row col, 0 <= row < mHeight d -> 0 <= col < mWidth d ->
      pixel_is (surface w') (pBits + row * Pitch + 4 * col)
               (yuy2_pixel (Buf_bits pBuffer)
                           (scanLine + row * VideoBufferLock.getStride l) col).
Proof.
  intros d Hconv Hdev Hchain Hst Hgb Hlr Hhr Hlock Hscan Hstride Hw Hn Hmax Hh Hp
         Hfn Hfh.
  subst d.
  rewrite DrawFrame_ready by congruence.
  assert (Htest : TestCooperativeLevel env w
                  = Returns true (set_trace (trace w ++ [Ev_TestCooperativeLevel]) w)).
  { unfold TestCooperativeLevel. unfold_monad.
    destruct (mDevice (dev w)); [|congruence]. cbn. rewrite Hst. reflexivity. }
  rewrite Htest.
  destruct (YUY2_convert_pixels fuel (surface w) pBits Pitch (Buf_bits pBuffer)
              scanLine (VideoBufferLock.getStride l) n (mHeight (dev w))
              Hn Hmax Hh ltac:(lia) Hfn Hfh) as (d' & Hrun & Hpix).
  destruct (DrawFrame_present_converts env fuel pBuffer
              (set_trace (trace w ++ [Ev_TestCooperativeLevel]) w)
              YUY2 hr pBits Pitch scanLine l true d') as (r & w' & Hret & Hsurf);
    try assumption.
  - cbn [convert set_trace dev surface].
    rewrite (u32_small Pitch), (u32_small (VideoBufferLock.getStride l)) by lia.
    rewrite Hw. exact Hrun.
  - exists r, w'. split; [exact Hret|]. rewrite Hsurf, Hw. exact Hpix.
Qed.

Lemma DrawFrame_draws_YUY2_frame_witness :
  exists r w',
    DrawFrame backend_healthy 3 buffer_yuy2_white world_ready_yuy2 = Returns r w' /\
    forall row col,
      0 <= row < mHeight (dev world_ready_yuy2) ->
      0 <= col < mWidth (dev world_ready_yuy2) ->
      pixel_is (surface w') (65536 + row * 2560 + 4 * col)
               (yuy2_pixel (Buf_bits buffer_yuy2_white)
                  (131072 + row * VideoBufferLock.getStride
                     (snd (VideoBufferLock.LockBuffer
                             (VideoBufferLock.create buffer_yuy2_white)
                             (mDefaultStride (dev world_ready_yuy2))
                             (mHeight (dev world_ready_yuy2))))) col).
Proof.
  apply (DrawFrame_draws_YUY2_frame backend_healthy 3 buffer_yuy2_white
           world_ready_yuy2 1 S_OK 65536 2560 131072
           (snd (VideoBufferLock.LockBuffer
                   (VideoBufferLock.create buffer_yuy2_white)
                   (mDefaultStride (dev world_ready_yuy2))
                   (mHeight (dev world_ready_yuy2)))));
    try reflexivity; vm_compute; easy.
Defined.
